(** * freeipaconsistencycheck: the collector and the consistency evaluator

    A shallow embedding of

    - [src/freeipaconsistencycheck/server/freeipaserver.py]
      (class [FreeIPAServer]: connection, search, the metric collectors and
      the constructor that runs them), and
    - [src/freeipaconsistencycheck/main.py]
      (class [ConsistencyChecker]: [is_consistent], [get_structured_data],
      [print_table] and [output_structured_data]; class [Application]:
      the constructor), and
    - [src/freeipaconsistencycheck/utils/dns_utils.py]
      ([find_ipa_servers]),

    followed by the properties of the design document that concern them
    and by further properties of the code.

    Conventions of the embedding.

    - A Python [bytes] value is a Rocq [string] (a sequence of 8-bit
      characters).  A Python [str] is the Rocq [string] of its UTF-8
      encoding; the text operations the program uses (substring test,
      [replace], [partition], [strip], equality, concatenation) act on the
      encoding exactly as they act on the code points, because UTF-8 is
      self-synchronising.  [bytes.decode("utf-8")] therefore is the
      identity on valid UTF-8 and raises [UnicodeDecodeError] otherwise.
    - A Python object is its instance dictionary, a [gmap] from attribute
      names to tagged values; [getattr] is lookup and a missing attribute
      raises [AttributeError].
    - The directory server, the bind and the DNS resolver form a [World];
      every search that is issued is recorded in a trace.
    - Exceptions are explicit: a computation returns [Ret v] or [Raise e].
    - Logging is left out, except where building the message reads an
      attribute that may not exist yet.
    - The libraries that lay out the reports (PrettyTable, [json],
      [yaml]) are not part of the embedding: the functions that call them
      are embedded up to the data that they hand over, with the two
      checks by which PrettyTable refuses a table.
    - The steps of [Application.__init__] that belong to other modules
      (the parsing of the arguments, the logger, the loading of the
      configuration) are given by their outcome. *)

From stdpp Require Import gmap strings list pretty.
From Stdlib Require Import ZArith String Ascii Bool List Lia.
Import ListNotations.

Local Open Scope string_scope.

(** ** Python primitives *)

Module Py.

Abbreviation str := string.
Abbreviation bytes := string.

(** The exceptions that the modelled code can meet.  Their messages go to
    the log only and are left out, except for the description that tells
    the LDAP errors apart. *)
Inductive exn :=
| IndexError
| AttributeError
| UnicodeDecodeError
| ValueError
| LDAPReferralError
| LDAPError (desc : str).

Inductive result (A : Type) :=
| Ret (a : A)
| Raise (e : exn).
Arguments Ret {A} a.
Arguments Raise {A} e.

Definition rbind {A B} (r : result A) (k : A -> result B) : result B :=
  match r with
  | Ret a => k a
  | Raise e => Raise e
  end.

(** Tagged values held by attributes.  [PObj r] is any other object (the
    LDAP connection, for one), named by the text that [str] gives for
    it. *)
Inductive PyVal :=
| PNone
| PBool (b : bool)
| PInt (n : Z)
| PStr (s : str)
| PObj (r : str).

Inductive PyType := TNone | TBool | TInt | TStr | TObj.

Definition py_type (v : PyVal) : PyType :=
  match v with
  | PNone => TNone
  | PBool _ => TBool
  | PInt _ => TInt
  | PStr _ => TStr
  | PObj _ => TObj
  end.

(** Python's [==]: [bool] is a subclass of [int], so [True == 1] and
    [False == 0]; values of otherwise different types are unequal. *)
Definition py_eq (v w : PyVal) : bool :=
  match v, w with
  | PNone, PNone => true
  | PBool a, PBool b => Bool.eqb a b
  | PInt a, PInt b => Z.eqb a b
  | PBool a, PInt b => Z.eqb (Z.b2z a) b
  | PInt a, PBool b => Z.eqb a (Z.b2z b)
  | PStr a, PStr b => String.eqb a b
  | PObj a, PObj b => String.eqb a b
  | _, _ => false
  end.

(** [py_eq] compares the values after [bool] is read as [int]. *)
Definition py_key (v : PyVal) : PyVal :=
  match v with
  | PBool b => PInt (Z.b2z b)
  | _ => v
  end.

(** Truthiness, as used by [x and y] and [if x]. *)
Definition truthy (v : PyVal) : bool :=
  match v with
  | PNone => false
  | PBool b => b
  | PInt n => negb (Z.eqb n 0)
  | PStr s => negb (String.eqb s EmptyString)
  | PObj _ => true
  end.

(** [l.count(x)] *)
Definition count (x : PyVal) (l : list PyVal) : nat :=
  List.length (List.filter (fun e => py_eq e x) l).

(** [x in l] for a list of values *)
Definition contains_val (x : PyVal) (l : list PyVal) : bool :=
  List.existsb (fun e => py_eq e x) l.

(** [l[0]] *)
Definition index0 {A} (l : list A) : result A :=
  match l with
  | [] => Raise IndexError
  | a :: _ => Ret a
  end.

(** [needle in hay] for strings *)
Fixpoint str_contains (needle hay : str) : bool :=
  String.prefix needle hay ||
  match hay with
  | EmptyString => false
  | String _ rest => str_contains needle rest
  end.

(** [x in l] for a list of strings *)
Definition str_in (x : str) (l : list str) : bool :=
  List.existsb (String.eqb x) l.

Fixpoint replace_from (old new : str) (skip : nat) (s : str) : str :=
  match s with
  | EmptyString => EmptyString
  | String c rest =>
      match skip with
      | S k => replace_from old new k rest
      | O =>
          if String.prefix old s
          then new ++ replace_from old new (String.length old - 1) rest
          else String c (replace_from old new 0 rest)
      end
  end.

Fixpoint interleave (new s : str) : str :=
  match s with
  | EmptyString => EmptyString
  | String c rest => String c (new ++ interleave new rest)
  end.

(** [s.replace(old, new)]: every occurrence, left to right, without
    overlap; an empty [old] matches before every character and at the
    end. *)
Definition str_replace (old new s : str) : str :=
  match old with
  | EmptyString => new ++ interleave new s
  | String _ _ => replace_from old new 0 s
  end.

(** [s.partition(sep)[0]]: the text before the first occurrence of
    [sep], the whole text when there is none.  ([sep] is never empty in
    the program; Python refuses an empty separator.) *)
Fixpoint partition_head (sep s : str) : str :=
  match s with
  | EmptyString => EmptyString
  | String c rest =>
      if String.prefix sep s then EmptyString
      else String c (partition_head sep rest)
  end.

Fixpoint char_in (c : ascii) (chars : str) : bool :=
  match chars with
  | EmptyString => false
  | String d rest => Ascii.eqb c d || char_in c rest
  end.

Fixpoint lstrip (chars s : str) : str :=
  match s with
  | EmptyString => EmptyString
  | String c rest => if char_in c chars then lstrip chars rest else s
  end.

Fixpoint rstrip (chars s : str) : str :=
  match s with
  | EmptyString => EmptyString
  | String c rest =>
      match rstrip chars rest with
      | EmptyString => if char_in c chars then EmptyString else String c EmptyString
      | r => String c r
      end
  end.

(** [s.strip(chars)] *)
Definition str_strip (chars s : str) : str := rstrip chars (lstrip chars s).

Definition upper_char (c : ascii) : ascii :=
  let n := N_of_ascii c in
  if (97 <=? n)%N && (n <=? 122)%N then ascii_of_N (n - 32) else c.

(** [s.upper()] on the ASCII letters.  The program applies it only to
    one of the three literals ["on"], ["off"], ["rootdse"]. *)
Fixpoint str_upper (s : str) : str :=
  match s with
  | EmptyString => EmptyString
  | String c rest => String (upper_char c) (str_upper rest)
  end.

(** [sep.join(l)] *)
Definition str_join (sep : str) (l : list str) : str := String.concat sep l.

(** *** UTF-8 *)

(** The decoder's state: between characters, or inside one, where the
    next byte has to lie in [lo..hi] and [more] plain continuation bytes
    follow it. *)
Inductive utf8_state :=
| U_start
| U_cont (lo hi : N) (more : nat).

Definition utf8_step (st : utf8_state) (c : ascii) : option utf8_state :=
  let b := N_of_ascii c in
  match st with
  | U_start =>
      if (b <=? 127)%N then Some U_start
      else if (194 <=? b)%N && (b <=? 223)%N then Some (U_cont 128 191 0)
      else if (b =? 224)%N then Some (U_cont 160 191 1)
      else if (b =? 237)%N then Some (U_cont 128 159 1)
      else if (225 <=? b)%N && (b <=? 239)%N then Some (U_cont 128 191 1)
      else if (b =? 240)%N then Some (U_cont 144 191 2)
      else if (241 <=? b)%N && (b <=? 243)%N then Some (U_cont 128 191 2)
      else if (b =? 244)%N then Some (U_cont 128 143 2)
      else None
  | U_cont lo hi more =>
      if (lo <=? b)%N && (b <=? hi)%N
      then Some (match more with
                 | O => U_start
                 | S k => U_cont 128 191 k
                 end)
      else None
  end.

Fixpoint utf8_run (st : utf8_state) (s : bytes) : bool :=
  match s with
  | EmptyString => match st with U_start => true | _ => false end
  | String c rest =>
      match utf8_step st c with
      | Some st' => utf8_run st' rest
      | None => false
      end
  end.

(** [b.decode("utf-8")] *)
Definition bytes_decode (b : bytes) : result str :=
  if utf8_run U_start b then Ret b else Raise UnicodeDecodeError.

(** *** [str(b)] for a [bytes] value: its [repr] *)

Definition hex_digit (n : N) : ascii :=
  if (n <? 10)%N then ascii_of_N (48 + n) else ascii_of_N (87 + n).

Definition repr_byte (quote c : ascii) : str :=
  let n := N_of_ascii c in
  if Ascii.eqb c quote || Ascii.eqb c "\"%char
  then String "\"%char (String c EmptyString)
  else if (n =? 9)%N then "\t"
  else if (n =? 10)%N then "\n"
  else if (n =? 13)%N then "\r"
  else if (n <? 32)%N || (127 <=? n)%N
       then String "\"%char (String "x"%char
              (String (hex_digit (n / 16)) (String (hex_digit (n mod 16)) EmptyString)))
  else String c EmptyString.

Fixpoint repr_body (quote : ascii) (b : bytes) : str :=
  match b with
  | EmptyString => EmptyString
  | String c rest => repr_byte quote c ++ repr_body quote rest
  end.

Definition squote : ascii := ascii_of_N 39.
Definition dquote : ascii := ascii_of_N 34.

(** The delimiter is the single quote unless the value holds a single
    quote and no double quote. *)
Definition bytes_repr (b : bytes) : str :=
  let quote :=
    if char_in squote b && negb (char_in dquote b)
    then dquote else squote in
  String "b"%char (String quote (repr_body quote b ++ String quote EmptyString)).

Arguments bytes_decode : simpl never.
Arguments bytes_repr : simpl never.
Arguments str_replace : simpl never.

End Py.
Export Py.


(** ** The directory, the bind and the resolver *)

Module LDAP.

Inductive scope := SCOPE_BASE | SCOPE_ONELEVEL | SCOPE_SUBTREE.

(** The errors of the client library that the program names, and any
    other one. *)
Inductive error :=
| SERVER_DOWN
| NO_SUCH_OBJECT
| INVALID_CREDENTIALS
| REFERRAL
| OTHER (desc : str).

(** An entry: its name and its attributes, each with a list of values. *)
Definition entry : Type := str * gmap str (list bytes).

(** The arguments of [search_s(base, scope, fltr, attrs)]. *)
Record query := Query {
  q_base : str;
  q_scope : scope;
  q_fltr : str;
  q_attrs : option (list str)
}.

Inductive reply :=
| Found (entries : list entry)
| Failed (e : error).

#[global] Instance scope_eq_dec : EqDecision scope.
Proof. solve_decision. Defined.

#[global] Instance query_eq_dec : EqDecision query.
Proof. solve_decision. Defined.

End LDAP.

(** What lies outside the program: the outcome of the bind ([None] when it
    succeeds), the answer of the directory to each search, and the answer
    of the resolver to an SRV lookup ([None] when the lookup fails with a
    DNS exception, otherwise the text of each record). *)
Record World := {
  bind : option LDAP.error;
  search_s : LDAP.query -> LDAP.reply;
  resolve_srv : str -> option (list str)
}.

(** ** class FreeIPAServer *)

Module FreeIPAServer.

Import LDAP.

(** The instance dictionary. *)
Abbreviation Object := (gmap str PyVal).

(** The object under construction and the searches issued so far, oldest
    first. *)
Record State := {
  self : Object;
  trace : list query
}.

(** A method: it may read and assign attributes, issue searches, and
    return or raise.  What was assigned before an exception stays
    assigned. *)
Definition M (A : Type) : Type := State -> State * result A.

Definition ret {A} (a : A) : M A := fun st => (st, Ret a).
Definition raise {A} (e : exn) : M A := fun st => (st, Raise e).
Definition bindM {A B} (c : M A) (k : A -> M B) : M B :=
  fun st =>
    match c st with
    | (st', Ret a) => k a st'
    | (st', Raise e) => (st', Raise e)
    end.

(** [try: c except Exception: h] *)
Definition try_except {A} (c : M A) (h : exn -> M A) : M A :=
  fun st =>
    match c st with
    | (st', Ret a) => (st', Ret a)
    | (st', Raise e) => h e st'
    end.

Declare Scope py_scope.
Delimit Scope py_scope with py.
Notation "x <- c ;; k" := (bindM c (fun x => k))
  (at level 100, c at next level, right associativity) : py_scope.
Notation "c ;; k" := (bindM c (fun _ => k))
  (at level 100, right associativity) : py_scope.
Local Open Scope py_scope.

Definition lift {A} (r : result A) : M A := fun st => (st, r).

(** [self.name] *)
Definition get (name : str) : M PyVal :=
  fun st =>
    match self st !! name with
    | Some v => (st, Ret v)
    | None => (st, Raise AttributeError)
    end.

(** [self.name = v] *)
Definition set (name : str) (v : PyVal) : M unit :=
  fun st => ({| self := <[name := v]> (self st); trace := trace st |}, Ret tt).

(** [str(v)], as an f-string inserts it. *)
Definition py_str (v : PyVal) : str :=
  match v with
  | PNone => "None"
  | PBool true => "True"
  | PBool false => "False"
  | PInt n => pretty n
  | PStr s => s
  | PObj r => r
  end.

(** The [int] that [len] returns. *)
Definition len {A} (l : list A) : Z := Z.of_nat (List.length l).

(** *** _get_conn *)

Definition _get_conn (W : World) : M PyVal :=
  match bind W with
  | None => ret (PObj "LDAPObject")
  | Some SERVER_DOWN | Some NO_SUCH_OBJECT | Some INVALID_CREDENTIALS => ret PNone
  | Some REFERRAL => raise (LDAPError "REFERRAL")
  | Some (OTHER desc) => raise (LDAPError desc)
  end.

(** *** _search

    [Some results] is the list that [search_s] returned, [None] is the
    [False] that stands for a failed search. *)
Definition _search (W : World) (base fltr : str) (attrs : option (list str))
    (scope : scope) : M (option (list entry)) :=
  conn <- get "_conn" ;;
  match conn with
  | PNone => ret None
  | _ =>
      let q := Query base scope fltr attrs in
      fun st =>
        let st := {| self := self st; trace := trace st ++ [q] |} in
        match search_s W q with
        | Found results => (st, Ret (Some results))
        | Failed NO_SUCH_OBJECT | Failed SERVER_DOWN => (st, Ret None)
        | Failed REFERRAL =>
            (* the message is built from self._fqdn before the raise *)
            (_ <- get "_fqdn" ;; raise LDAPReferralError) st
        | Failed INVALID_CREDENTIALS => (st, Raise (LDAPError "INVALID_CREDENTIALS"))
        | Failed (OTHER desc) => (st, Raise (LDAPError desc))
        end
  end.

(** [not results or not isinstance(results, list)] *)
Definition no_results (results : option (list entry)) : bool :=
  match results with
  | Some (_ :: _) => false
  | _ => true
  end.

(** *** _safe_decode *)

(** The argument is a [str], a [bytes], or a list of [bytes]. *)
Inductive text :=
| TextStr (s : str)
| TextBytes (b : bytes)
| TextList (l : list bytes).

Definition _safe_decode (value : text) : result str :=
  let value :=
    match value with
    | TextList [] => TextBytes EmptyString
    | TextList (b :: _) => TextBytes b
    | _ => value
    end in
  match value with
  | TextBytes b => bytes_decode b
  | TextStr s => Ret s
  | TextList _ => Ret EmptyString
  end.

(** [attrs.get(name, default)] where the directory's values are [bytes]. *)
Definition attrs_get (attrs : gmap str (list bytes)) (name : str)
    (default : list text) : list text :=
  match attrs !! name with
  | Some l => List.map TextBytes l
  | None => default
  end.

(** *** _get_fqdn, _get_context *)

Definition decode_or_unknown (v : text) : result str :=
  match v with
  | TextBytes b => bytes_decode b
  | _ => Ret "unknown"
  end.

Definition _get_fqdn (W : World) : M str :=
  conn <- get "_conn" ;;
  match conn with
  | PNone => ret "unknown"
  | _ =>
      results <- _search W "cn=config" "(objectClass=*)"
                   (Some ["nsslapd-localhost"]) SCOPE_BASE ;;
      match results with
      | Some ((dn, attrs) :: _) =>
          fqdn_bytes <- lift (index0 (attrs_get attrs "nsslapd-localhost"
                                        [TextBytes "unknown"])) ;;
          lift (decode_or_unknown fqdn_bytes)
      | _ => ret "unknown"
      end
  end.

Definition _get_context (W : World) : M str :=
  conn <- get "_conn" ;;
  match conn with
  | PNone => ret "unknown"
  | _ =>
      results <- _search W "cn=config" "(objectClass=*)"
                   (Some ["nsslapd-defaultnamingcontext"]) SCOPE_SUBTREE ;;
      match results with
      | Some ((dn, attrs) :: _) =>
          context_bytes <- lift (index0 (attrs_get attrs "nsslapd-defaultnamingcontext"
                                           [TextBytes "unknown"])) ;;
          lift (decode_or_unknown context_bytes)
      | _ => ret "unknown"
      end
  end.

(** *** The counters *)

(** The common tail of the entry counters:
    [0] for no result, otherwise [len(results)]. *)
Definition count_entries (results : option (list entry)) : PyVal :=
  if no_results results then PInt 0
  else match results with
       | Some l => PInt (len l)
       | None => PInt 0
       end.

(** The decoding of a [numSubordinates] reply. *)
Definition subordinates (results : option (list entry)) : result PyVal :=
  match results with
  | Some ((dn, attrs) :: _) =>
      rbind (index0 (attrs_get attrs "numSubordinates" [TextStr "0"]))
            (fun v => rbind (_safe_decode v) (fun r => Ret (PStr r)))
  | _ => Ret (PStr "0")
  end.

Definition _count_users (W : World) (user_base : str) : M PyVal :=
  base <- get ("_" ++ user_base ++ "_user_base") ;;
  results <- _search W (py_str base) "(objectClass=*)"
               (Some ["numSubordinates"]) SCOPE_SUBTREE ;;
  lift (subordinates results).

Definition _count_groups (W : World) : M PyVal :=
  base <- get "_groups_base" ;;
  results <- _search W (py_str base) "(objectClass=ipausergroup)" None SCOPE_SUBTREE ;;
  ret (count_entries results).

Definition _count_hosts (W : World) : M PyVal :=
  base_dn <- get "_base_dn" ;;
  results <- _search W ("cn=computers,cn=accounts," ++ py_str base_dn) "(fqdn=*)"
               (Some ["dn"]) SCOPE_SUBTREE ;;
  ret (count_entries results).

Definition _count_services (W : World) : M PyVal :=
  base_dn <- get "_base_dn" ;;
  results <- _search W ("cn=services,cn=accounts," ++ py_str base_dn)
               "(krbprincipalname=*)" (Some ["dn"]) SCOPE_SUBTREE ;;
  ret (count_entries results).

Definition _count_netgroups (W : World) : M PyVal :=
  base_dn <- get "_base_dn" ;;
  results <- _search W ("cn=ng,cn=alt," ++ py_str base_dn) "(ipaUniqueID=*)"
               (Some ["dn"]) SCOPE_ONELEVEL ;;
  ret (count_entries results).

Definition _count_hostgroups (W : World) : M PyVal :=
  base_dn <- get "_base_dn" ;;
  results <- _search W ("cn=hostgroups,cn=accounts," ++ py_str base_dn)
               "(objectClass=*)" (Some ["numSubordinates"]) SCOPE_BASE ;;
  lift (subordinates results).

Definition _count_hbac_rules (W : World) : M PyVal :=
  base_dn <- get "_base_dn" ;;
  results <- _search W ("cn=hbac," ++ py_str base_dn) "(ipaUniqueID=*)"
               None SCOPE_ONELEVEL ;;
  ret (count_entries results).

Definition _count_sudo_rules (W : World) : M PyVal :=
  base_dn <- get "_base_dn" ;;
  results <- _search W ("cn=sudorules,cn=sudo," ++ py_str base_dn) "(ipaUniqueID=*)"
               None SCOPE_ONELEVEL ;;
  ret (count_entries results).

Definition _count_dns_zones (W : World) : M PyVal :=
  base_dn <- get "_base_dn" ;;
  results <- _search W ("cn=dns," ++ py_str base_dn)
               "(|(objectClass=idnszone)(objectClass=idnsforwardzone))"
               None SCOPE_ONELEVEL ;;
  ret (count_entries results).

Definition _count_certificates (W : World) : M PyVal :=
  results <- _search W "ou=certificateRepository,ou=ca,o=ipaca" "(certStatus=*)"
               (Some ["subjectName"]) SCOPE_ONELEVEL ;;
  ret (count_entries results).

Definition _count_ldap_conflicts (W : World) : M PyVal :=
  base_dn <- get "_base_dn" ;;
  results <- _search W (py_str base_dn)
               "(|(nsds5ReplConflict=*)(&(objectclass=ldapsubentry)(nsds5ReplConflict=*)))"
               (Some ["nsds5ReplConflict"]) SCOPE_SUBTREE ;;
  ret (count_entries results).

(** *** _ghost_replicas *)

(** The loop over the values of [nscpentrywsi]; [r] is the running
    count. *)
Fixpoint ghost_loop (values : list bytes) (r : Z) : Z :=
  match values with
  | [] => r
  | attr :: rest =>
      let attr_str := bytes_repr attr in
      if str_contains "replica " attr_str && negb (str_contains "ldap" attr_str)
      then ghost_loop rest (r + 1)
      else ghost_loop rest r
  end.

Definition _ghost_replicas (W : World) : M PyVal :=
  base_dn <- get "_base_dn" ;;
  results <- _search W (py_str base_dn)
               "(&(objectclass=nstombstone)(nsUniqueId=ffffffff-ffffffff-ffffffff-ffffffff))"
               (Some ["nscpentrywsi"]) SCOPE_SUBTREE ;;
  let r := 0%Z in
  match results with
  | Some ((dn, attrs) :: _) =>
      match attrs !! "nscpentrywsi" with
      | Some values => ret (PInt (ghost_loop values r))
      | None => ret (PInt r)
      end
  | _ => ret (PInt r)
  end.

(** *** _anon_bind *)

Definition _anon_bind (W : World) : M PyVal :=
  results <- _search W "cn=config" "(objectClass=*)"
               (Some ["nsslapd-allow-anonymous-access"]) SCOPE_BASE ;;
  match results with
  | Some ((dn, attrs) :: _) =>
      match attrs !! "nsslapd-allow-anonymous-access" with
      | None => ret (PStr "ERROR")
      | Some values =>
          v <- lift (index0 values) ;;
          state <- lift (_safe_decode (TextBytes v)) ;;
          if str_in state ["on"; "off"; "rootdse"]
          then ret (PStr (str_upper state))
          else ret (PStr "ERROR")
      end
  | _ => ret (PStr "ERROR")
  end.

(** *** _ms_adtrust *)

(** The loop over the answers, left at the first one that names the
    server. *)
Fixpoint adtrust_loop (answers : list str) : M bool :=
  match answers with
  | [] => ret false
  | answer :: rest =>
      fqdn <- get "_fqdn" ;;
      if str_contains (py_str fqdn) answer then ret true
      else adtrust_loop rest
  end.

Definition _ms_adtrust (W : World) : M PyVal :=
  domain <- get "_domain" ;;
  let record :=
    "_kerberos._tcp.Default-First-Site-Name._sites.dc._msdcs." ++ py_str domain in
  match resolve_srv W record with
  | Some answers => r <- adtrust_loop answers ;; ret (PBool r)
  | None => ret (PBool false)
  end.

(** *** _replication_agreements *)

(** [status.replace("Error ", "").partition(" ")[0].strip("()")] *)
Definition normalize_status (status : str) : str :=
  str_strip "()" (partition_head " " (str_replace "Error " EmptyString status)).

(** The loop over the agreement entries; [msg] and [healthy] are the
    two variables it updates. *)
Fixpoint agreements_loop (results : list entry)
    (msg : list str) (healthy : bool) : M (list str * bool) :=
  match results with
  | [] => ret (msg, healthy)
  | (dn, attrs) :: rest =>
      match attrs !! "nsDS5ReplicaHost", attrs !! "nsds5replicaLastUpdateStatus" with
      | Some hosts, Some statuses =>
          h <- lift (index0 hosts) ;;
          host <- lift (_safe_decode (TextBytes h)) ;;
          domain <- get "_domain" ;;
          let host := str_replace ("." ++ py_str domain) EmptyString host in
          s <- lift (index0 statuses) ;;
          status <- lift (_safe_decode (TextBytes s)) ;;
          let status := normalize_status status in
          let healthy := if negb (str_in status ["0"; "18"]) then false else healthy in
          agreements_loop rest (msg ++ [host ++ " " ++ status]) healthy
      | _, _ => agreements_loop rest msg healthy
      end
  end.

Definition _replication_agreements (W : World) : M (PyVal * PyVal) :=
  let msg := [] in
  let healthy := true in
  base_dn <- get "_base_dn" ;;
  let suffix := str_replace "," "\2C" (str_replace "=" "\3D" (py_str base_dn)) in
  results <- _search W ("cn=replica,cn=" ++ suffix ++ ",cn=mapping tree,cn=config")
               "(objectClass=*)"
               (Some ["nsDS5ReplicaHost"; "nsds5replicaLastUpdateStatus"])
               SCOPE_ONELEVEL ;;
  match results with
  | Some ((e :: l) as results) =>
      out <- agreements_loop results msg healthy ;;
      let '(msg, healthy) := out in
      let r1 := match msg with
                | [] => "No replication agreements found"
                | _ => str_join (String (ascii_of_N 10) EmptyString) msg
                end in
      ret (PStr r1, PBool healthy)
  | _ => ret (PStr "No replication agreements found", PBool false)
  end.

(** *** __init__ *)

(** The statements inside the constructor's [try]. *)
Definition collect (W : World) (domain : str) : M unit :=
  fqdn <- _get_fqdn W ;;
  set "_fqdn" (PStr fqdn) ;;
  set "hostname_short" (PStr (str_replace ("." ++ domain) EmptyString fqdn)) ;;
  d <- get "_domain" ;;
  set "_base_dn" (PStr ("dc=" ++ str_replace "." ",dc=" (py_str d))) ;;
  context <- _get_context W ;;
  base_dn <- get "_base_dn" ;;
  if negb (py_eq base_dn (PStr context)) then raise ValueError
  else
    set "_active_user_base" (PStr ("cn=users,cn=accounts," ++ py_str base_dn)) ;;
    set "_stage_user_base"
        (PStr ("cn=staged users,cn=accounts,cn=provisioning," ++ py_str base_dn)) ;;
    set "_preserved_user_base"
        (PStr ("cn=deleted users,cn=accounts,cn=provisioning," ++ py_str base_dn)) ;;
    set "_groups_base" (PStr ("cn=groups,cn=accounts," ++ py_str base_dn)) ;;
    v <- _count_users W "active" ;; set "users" v ;;
    v <- _count_users W "stage" ;; set "susers" v ;;
    v <- _count_users W "preserved" ;; set "pusers" v ;;
    v <- _count_hosts W ;; set "hosts" v ;;
    v <- _count_services W ;; set "services" v ;;
    v <- _count_groups W ;; set "ugroups" v ;;
    v <- _count_hostgroups W ;; set "hgroups" v ;;
    v <- _count_netgroups W ;; set "ngroups" v ;;
    try_except (v <- _count_hbac_rules W ;; set "hbac" v)
               (fun e => set "hbac" (PInt 0)) ;;
    try_except (v <- _count_sudo_rules W ;; set "sudo" v)
               (fun e => set "sudo" (PInt 0)) ;;
    v <- _count_dns_zones W ;; set "zones" v ;;
    v <- _count_certificates W ;; set "certs" v ;;
    v <- _count_ldap_conflicts W ;; set "conflicts" v ;;
    v <- _ghost_replicas W ;; set "ghosts" v ;;
    v <- _anon_bind W ;; set "bind" v ;;
    v <- _ms_adtrust W ;; set "msdcs" v ;;
    p <- _replication_agreements W ;;
    set "replicas" (fst p) ;;
    set "healthy_agreements" (snd p).

(** The assignments at the head of the constructor. *)
Definition init_attributes (host domain binddn bindpw : str) : M unit :=
  set "_conn" PNone ;;
  set "users" PNone ;;
  set "susers" PNone ;;
  set "pusers" PNone ;;
  set "hosts" PNone ;;
  set "services" PNone ;;
  set "ugroups" PNone ;;
  set "hgroups" PNone ;;
  set "ngroups" PNone ;;
  set "hbac" (PInt 0) ;;
  set "sudo" PNone ;;
  set "zones" PNone ;;
  set "certs" PNone ;;
  set "conflicts" PNone ;;
  set "ghosts" PNone ;;
  set "bind" PNone ;;
  set "msdcs" PNone ;;
  set "replicas" PNone ;;
  set "healthy_agreements" (PBool false) ;;
  set "_binddn" (PStr binddn) ;;
  set "_bindpw" (PStr bindpw) ;;
  set "_domain" (PStr domain) ;;
  set "_url" (PStr ("ldaps://" ++ host)) ;;
  set "hostname_short" (PStr (str_replace ("." ++ domain) EmptyString host)).

Definition __init__ (W : World) (host domain binddn bindpw : str) : M unit :=
  init_attributes host domain binddn bindpw ;;
  conn <- _get_conn W ;;
  set "_conn" conn ;;
  if negb (truthy conn) then ret tt
  else try_except (collect W domain) (fun e => ret tt).

(** [FreeIPAServer(host, domain, binddn, bindpw)]: the constructor run on
    a fresh object.  The result is the object and the searches that
    were issued, or the exception that left the constructor. *)
Definition new (W : World) (host domain binddn bindpw : str)
    : result (Object * list query) :=
  match __init__ W host domain binddn bindpw {| self := ∅; trace := [] |} with
  | (st, Ret _) => Ret (self st, trace st)
  | (_, Raise e) => Raise e
  end.

End FreeIPAServer.

(** ** class ConsistencyChecker *)

Module ConsistencyChecker.

Abbreviation Object := (gmap str PyVal).

(** [self.servers] is a dictionary from host names to server objects; it
    is kept as the list of its items in insertion order, which is the
    order of [values()], [keys()] and [items()].  [self.args] only
    steers the printing and is left out. *)
Record Checker := {
  servers : list (str * Object);
  checks : list (str * str)
}.

Definition default_checks : list (str * str) :=
  [ ("users", "Active Users");
    ("susers", "Stage Users");
    ("pusers", "Preserved Users");
    ("hosts", "Hosts");
    ("services", "Services");
    ("ugroups", "User Groups");
    ("hgroups", "Host Groups");
    ("ngroups", "Netgroups");
    ("hbac", "HBAC Rules");
    ("sudo", "SUDO Rules");
    ("zones", "DNS Zones");
    ("certs", "Certificates");
    ("conflicts", "LDAP Conflicts");
    ("ghosts", "Ghost Replicas");
    ("bind", "Anonymous BIND");
    ("msdcs", "Microsoft ADTrust");
    ("replicas", "Replication Status") ].

Definition __init__ (servers : list (str * Object)) : result Checker :=
  match servers with
  | [] => Raise ValueError
  | _ => Ret {| servers := servers; checks := default_checks |}
  end.

(** [getattr(server, name)] *)
Definition getattr (server : Object) (name : str) : result PyVal :=
  match server !! name with
  | Some v => Ret v
  | None => Raise AttributeError
  end.

(** [[getattr(server, name) for server in self.servers.values()]] *)
Fixpoint getattr_all (name : str) (servers : list (str * Object))
    : result (list PyVal) :=
  match servers with
  | [] => Ret []
  | (_, server) :: rest =>
      rbind (getattr server name) (fun v =>
      rbind (getattr_all name rest) (fun vs => Ret (v :: vs)))
  end.

(** [l.count(l[0]) == len(l)] *)
Definition all_like_first (first : PyVal) (l : list PyVal) : bool :=
  Nat.eqb (count first l) (List.length l).

Definition is_consistent (self : Checker) (check : str)
    (check_results : list PyVal) : result PyVal :=
  match check_results with
  | [] => Ret (PBool false)
  | _ =>
      if String.eqb check "conflicts" then
        rbind (getattr_all "conflicts" (servers self)) (fun conflicts =>
        rbind (index0 conflicts) (fun first =>
        Ret (PBool (all_like_first first conflicts && py_eq first (PInt 0)))))
      else if String.eqb check "ghosts" then
        rbind (getattr_all "ghosts" (servers self)) (fun ghosts =>
        rbind (index0 ghosts) (fun first =>
        Ret (PBool (all_like_first first ghosts && py_eq first (PInt 0)))))
      else if String.eqb check "replicas" then
        rbind (getattr_all "healthy_agreements" (servers self)) (fun healths =>
        rbind (index0 healths) (fun first =>
        Ret (if all_like_first first healths then first else PBool false)))
      else
        rbind (index0 check_results) (fun first =>
        Ret (PBool (all_like_first first check_results
                    && negb (contains_val PNone check_results))))
  end.

(** *** get_structured_data *)

Record CheckData := {
  name : str;
  display_name : str;
  state : str;
  is_consistent_flag : PyVal;
  values : gmap str PyVal
}.

Record Summary := {
  total_checks : Z;
  consistent_checks : Z;
  inconsistent_checks : Z
}.

Record StructuredData := {
  timestamp : PyVal;
  domain : PyVal;
  servers_info : list (str * PyVal);
  checks_data : list CheckData;
  summary : Summary
}.

(** The loop that fills ["servers"] with the host name and the short
    host name of each server. *)
Fixpoint servers_loop (items : list (str * Object)) (acc : list (str * PyVal))
    : result (list (str * PyVal)) :=
  match items with
  | [] => Ret acc
  | (hostname, server) :: rest =>
      rbind (getattr server "hostname_short") (fun short =>
      servers_loop rest (acc ++ [(hostname, short)]))
  end.

(** A value that is a [str], an [int], a [bool] or [None] is kept; any
    other one is replaced by its [str]. *)
Definition serializable (value : PyVal) : PyVal :=
  match value with
  | PObj r => PStr r
  | _ => value
  end.

(** The loop [for i, hostname in enumerate(hostnames)] that fills
    ["values"]. *)
Fixpoint values_loop (hostnames : list str) (check_results : list PyVal)
    (acc : gmap str PyVal) : result (gmap str PyVal) :=
  match hostnames with
  | [] => Ret acc
  | hostname :: rest =>
      rbind (index0 check_results) (fun value =>
      values_loop rest (List.tl check_results)
                  (<[hostname := serializable value]> acc))
  end.

(** The loop over [self.checks]; [data] is the dictionary being
    filled. *)
Fixpoint checks_loop (self : Checker) (todo : list (str * str))
    (data : StructuredData) : result StructuredData :=
  match todo with
  | [] => Ret data
  | (check_name, display_name) :: rest =>
      rbind (getattr_all check_name (servers self)) (fun check_results =>
      let hostnames := List.map fst (servers self) in
      rbind (is_consistent self check_name check_results) (fun verdict =>
      let state := if truthy verdict then "OK" else "FAIL" in
      let sm := summary data in
      let sm :=
        if truthy verdict
        then {| total_checks := total_checks sm;
                consistent_checks := consistent_checks sm + 1;
                inconsistent_checks := inconsistent_checks sm |}
        else {| total_checks := total_checks sm;
                consistent_checks := consistent_checks sm;
                inconsistent_checks := inconsistent_checks sm + 1 |} in
      rbind (values_loop hostnames check_results ∅) (fun vals =>
      let check_data :=
        {| name := check_name;
           display_name := display_name;
           state := state;
           is_consistent_flag := verdict;
           values := vals |} in
      checks_loop self rest
        {| timestamp := timestamp data;
           domain := domain data;
           servers_info := servers_info data;
           checks_data := checks_data data ++ [check_data];
           summary := sm |})))
  end.

Definition get_structured_data (self : Checker) : result StructuredData :=
  let sm := {| total_checks := Z.of_nat (List.length (checks self));
               consistent_checks := 0;
               inconsistent_checks := 0 |} in
  rbind (servers_loop (servers self) []) (fun infos =>
  checks_loop self (checks self)
    {| timestamp := PNone;
       domain := PNone;
       servers_info := infos;
       checks_data := [];
       summary := sm |}).

End ConsistencyChecker.

(** ** Sample worlds and server objects *)

Module Samples.

Import LDAP.

Definition one_value (dn attr : str) (value : bytes) : list entry :=
  [(dn, {[ attr := [value] ]})].

Definition named (prefix : str) (n : nat) : list entry :=
  List.map (fun i => (prefix ++ pretty i, ∅)) (List.seq 0 n).

(** A healthy lab server of the domain [example.com]: 100 active users,
    three hosts, two HBAC rules, four sudo rules, one DNS zone,
    anonymous bind restricted to the root DSE, one replication
    agreement in sync. *)
Definition lab_search (q : query) : reply :=
  let base := q_base q in
  if String.eqb base "cn=config" then
    if bool_decide (q_attrs q = Some ["nsslapd-localhost"]) then
      Found (one_value "cn=config" "nsslapd-localhost" "ipa01.example.com")
    else if bool_decide (q_attrs q = Some ["nsslapd-defaultnamingcontext"]) then
      Found (one_value "cn=config" "nsslapd-defaultnamingcontext" "dc=example,dc=com")
    else
      Found (one_value "cn=config" "nsslapd-allow-anonymous-access" "rootdse")
  else if String.eqb base "cn=users,cn=accounts,dc=example,dc=com" then
    Found (one_value base "numSubordinates" "100")
  else if String.eqb base "cn=hostgroups,cn=accounts,dc=example,dc=com" then
    Found (one_value base "numSubordinates" "5")
  else if String.eqb base "cn=computers,cn=accounts,dc=example,dc=com" then
    Found (named "fqdn=host" 3)
  else if String.eqb base "cn=hbac,dc=example,dc=com" then
    Found (named "ipaUniqueID=hbac" 2)
  else if String.eqb base "cn=sudorules,cn=sudo,dc=example,dc=com" then
    Found (named "ipaUniqueID=sudo" 4)
  else if String.eqb base "cn=dns,dc=example,dc=com" then
    Found (named "idnsname=zone" 1)
  else if String.eqb base "cn=replica,cn=dc\3Dexample\2Cdc\3Dcom,cn=mapping tree,cn=config" then
    Found [("cn=meToipa02",
            {[ "nsDS5ReplicaHost" := ["ipa02.example.com"];
               "nsds5replicaLastUpdateStatus" :=
                 ["Error (0) Replica acquired successfully: Incremental update succeeded"] ]})]
  else if String.eqb base "cn=deleted users,cn=accounts,cn=provisioning,dc=example,dc=com" then
    Failed NO_SUCH_OBJECT
  else Found [].

Definition lab : World :=
  {| bind := None;
     search_s := lab_search;
     resolve_srv := fun _ => None |}.

(** The same server, answering the search named by [base] with a
    referral. *)
Definition redirecting (base : str) : World :=
  {| bind := None;
     search_s := fun q => if String.eqb (q_base q) base
                          then Failed REFERRAL else lab_search q;
     resolve_srv := fun _ => None |}.

(** The same server, with one replication conflict entry. *)
Definition conflicted : World :=
  {| bind := None;
     search_s := fun q =>
       if bool_decide (q_attrs q = Some ["nsds5ReplConflict"])
       then Found (named "nsuniqueid=conflict" 1) else lab_search q;
     resolve_srv := fun _ => None |}.

(** A server that cannot be reached. *)
Definition down : World :=
  {| bind := Some SERVER_DOWN;
     search_s := lab_search;
     resolve_srv := fun _ => None |}.

Definition construct (W : World) :=
  FreeIPAServer.new W "ipa01.example.com" "example.com" "cn=Directory Manager" "secret".

End Samples.

(** ** Vocabulary of the statements *)

Module Vocabulary.

Import ConsistencyChecker.

(** The declared type [Optional[int]] of the counters. *)
Definition optional_int (v : PyVal) : Prop :=
  v = PNone \/ exists n : Z, v = PInt n.

(** A list that does not hold a [bool] next to an [int].  Every list of
    per-server values of one metric is of this kind, each metric having
    one declared type. *)
Definition unmixed (l : list PyVal) : Prop :=
  (forall v, List.In v l -> py_type v <> TBool) \/
  (forall v, List.In v l -> py_type v <> TInt).

(** The keys of the fixed metric enumeration. *)
Definition metric_keys : list str := List.map fst default_checks.

(** The attributes that the evaluator reads from a server object. *)
Definition public_attributes : list str :=
  "hostname_short" :: "healthy_agreements" :: metric_keys.

Definition is_server_object (o : Object) : Prop :=
  forall k, List.In k public_attributes -> is_Some (o !! k).

Definition server_objectb (o : Object) : bool :=
  List.forallb (fun k => match o !! k with Some _ => true | None => false end)
               public_attributes.

(** A checker as the constructor builds it. *)
Definition checker (servers : list (str * Object)) : Checker :=
  {| servers := servers; checks := default_checks |}.

(** Server objects that carry one attribute each, with the given
    values, under the host names [server1], [server2], ... *)
Definition reports (attr : str) (vals : list PyVal) : list (str * Object) :=
  imap (fun i v => ("server" ++ pretty (S i), {[ attr := v ]})) vals.

(** Server objects with a replication status text and a health flag. *)
Definition replica_reports (l : list (str * bool)) : list (str * Object) :=
  imap (fun i p => ("server" ++ pretty (S i),
                    {[ "replicas" := PStr (fst p);
                       "healthy_agreements" := PBool (snd p) ]})) l.

(** Server objects with every public attribute: the given conflict
    counts, and otherwise the same values on every server. *)
Definition reports_all (conflicts : list PyVal) : list (str * Object) :=
  imap (fun i v =>
          ("server" ++ pretty (S i),
           <["conflicts" := v]>
             (<["hostname_short" := PStr ("server" ++ pretty (S i))]>
                (<["healthy_agreements" := PBool true]>
                   (list_to_map (List.map (fun k => (k, PInt 0)) metric_keys))))))
       conflicts.

(** The verdict on a metric when the servers report [vals] for it, the
    list of their values being passed as the callers build it. *)
Definition verdict_on (check : str) (vals : list PyVal) : result PyVal :=
  is_consistent (checker (reports check vals)) check vals.

Definition replicas_verdict_on (l : list (str * bool)) : result PyVal :=
  is_consistent (checker (replica_reports l)) "replicas"
                (List.map (fun p => PStr (fst p)) l).

(** The number of checks with a true verdict, and with a false one. *)
Definition consistent_count (l : list CheckData) : Z :=
  Z.of_nat (List.length (List.filter (fun d => truthy (is_consistent_flag d)) l)).

Definition inconsistent_count (l : list CheckData) : Z :=
  Z.of_nat (List.length (List.filter (fun d => negb (truthy (is_consistent_flag d))) l)).

(** An entry of ["checks"] carries the verdict of [is_consistent] on the
    servers' values of its metric, and the matching state. *)
Definition faithful (self : Checker) (d : CheckData) : Prop :=
  exists rs,
    getattr_all (name d) (servers self) = Ret rs /\
    is_consistent self (name d) rs = Ret (is_consistent_flag d) /\
    state d = (if truthy (is_consistent_flag d) then "OK" else "FAIL").

(** *** The collector *)

Import LDAP FreeIPAServer.

(** The object holds an open connection. *)
Definition connected (st : State) : Prop :=
  exists conn, self st !! "_conn" = Some conn /\ conn <> PNone.

(** The state after one more search. *)
Definition searched (st : State) (q : query) : State :=
  {| self := self st; trace := trace st ++ [q] |}.

(** A connected object of the lab server, as the metric collectors find
    it. *)
Definition session : State :=
  {| self := {[ "_conn" := PObj "LDAPObject";
                "_fqdn" := PStr "ipa01.example.com";
                "_domain" := PStr "example.com";
                "_base_dn" := PStr "dc=example,dc=com" ]};
     trace := [] |}.

(** The searches of three collectors. *)
Definition anon_bind_query : query :=
  Query "cn=config" SCOPE_BASE "(objectClass=*)"
        (Some ["nsslapd-allow-anonymous-access"]).

Definition ghost_query (base_dn : str) : query :=
  Query base_dn SCOPE_SUBTREE
        "(&(objectclass=nstombstone)(nsUniqueId=ffffffff-ffffffff-ffffffff-ffffffff))"
        (Some ["nscpentrywsi"]).

Definition agreements_query (base_dn : str) : query :=
  Query ("cn=replica,cn="
         ++ str_replace "," "\2C" (str_replace "=" "\3D" base_dn)
         ++ ",cn=mapping tree,cn=config")
        SCOPE_ONELEVEL "(objectClass=*)"
        (Some ["nsDS5ReplicaHost"; "nsds5replicaLastUpdateStatus"]).

(** A world that answers one search with the given reply and every
    other search with nothing. *)
Definition answering (q : query) (r : reply) : World :=
  {| bind := None;
     search_s := fun q' => if bool_decide (q' = q) then r else Found [];
     resolve_srv := fun _ => None |}.

(** The anonymous-bind rule in the words of the design document: the
    value is put in upper case and accepted when it then is one of ON,
    OFF and ROOTDSE; anything else, an absent value included, is
    ERROR. *)
Definition anon_bind_as_worded (value : option str) : str :=
  match value with
  | Some v =>
      let u := str_upper v in
      if str_in u ["ON"; "OFF"; "ROOTDSE"] then u else "ERROR"
  | None => "ERROR"
  end.

(** The test on the text of one value of the tombstone attribute. *)
Definition ghost_text (t : str) : bool :=
  str_contains "replica " t && negb (str_contains "ldap" t).

(** The value of every metric on a constructed object. *)
Definition report (r : result (Object * list query)) : list (str * option PyVal) :=
  match r with
  | Ret (o, _) => List.map (fun k => (k, o !! k)) metric_keys
  | Raise _ => []
  end.

(** The number of searches that the constructor issued. *)
Definition searches (r : result (Object * list query)) : nat :=
  match r with
  | Ret (_, t) => List.length t
  | Raise _ => O
  end.

(** The object of a construction that returned. *)
Definition object_of (r : result (Object * list query)) : Object :=
  match r with
  | Ret (o, _) => o
  | Raise _ => ∅
  end.

(** Three servers of one domain, the second with a replication conflict. *)
Definition fleet : list (str * Object) :=
  [ ("ipa01.example.com", object_of (Samples.construct Samples.lab));
    ("ipa02.example.com", object_of (Samples.construct Samples.conflicted));
    ("ipa03.example.com", object_of (Samples.construct Samples.lab)) ].

(** The name, the state and the verdict of each check of a result. *)
Definition verdicts (r : result StructuredData) : list (str * str * PyVal) :=
  match r with
  | Ret data =>
      List.map (fun d => (name d, state d, is_consistent_flag d)) (checks_data data)
  | Raise _ => []
  end.

Definition summary_of (r : result StructuredData) : option Summary :=
  match r with
  | Ret data => Some (summary data)
  | Raise _ => None
  end.

(** The declared type of each metric. *)
Definition metric_type (k : str) : PyType :=
  if str_in k ["users"; "susers"; "pusers"; "hgroups"; "bind"; "replicas"] then TStr
  else if String.eqb k "msdcs" then TBool
  else TInt.

(** [Optional[t]] *)
Definition optional (t : PyType) (v : PyVal) : Prop :=
  v = PNone \/ py_type v = t.

Definition of_type (t : PyType) (v : PyVal) : Prop := py_type v = t.

(** What the evaluator relies on in a server object: the short host name
    exists, the health flag is a boolean, and every metric exists and is
    [None] or a value of its declared type. *)
Definition well_formed (o : Object) : Prop :=
  is_Some (o !! "hostname_short") /\
  (exists b : bool, o !! "healthy_agreements" = Some (PBool b)) /\
  (forall k, List.In k metric_keys ->
             exists v, o !! k = Some v /\ optional (metric_type k) v).

(** An assignment that keeps an object well formed. *)
Definition typed_for (name : str) (v : PyVal) : Prop :=
  (List.In name metric_keys -> optional (metric_type name) v) /\
  (name = "healthy_agreements" -> exists b : bool, v = PBool b).

Definition any {A} : A -> Prop := fun _ => True.

(** A method keeps the object well formed, whether it returns or raises,
    and what it returns satisfies [Q]. *)
Definition keeps {A} (c : M A) (Q : A -> Prop) : Prop :=
  forall st, well_formed (self st) ->
    well_formed (self (fst (c st))) /\
    forall a, snd (c st) = Ret a -> Q a.

(** A printable ASCII character other than the quote and the
    backslash: [repr] shows it as it is. *)
Definition plain_char (c : ascii) : bool :=
  let n := N_of_ascii c in
  (32 <=? n)%N && (n <=? 126)%N && negb (n =? 39)%N && negb (n =? 92)%N.

Fixpoint plain (b : bytes) : bool :=
  match b with
  | EmptyString => true
  | String c rest => plain_char c && plain rest
  end.

(** The decoded host and status of the entries that carry both
    attributes; an error when one of these has no value or one that is
    not UTF-8. *)
Fixpoint agreement_rows (results : list entry) : result (list (str * str)) :=
  match results with
  | [] => Ret []
  | (dn, attrs) :: rest =>
      match attrs !! "nsDS5ReplicaHost", attrs !! "nsds5replicaLastUpdateStatus" with
      | Some hosts, Some statuses =>
          rbind (index0 hosts) (fun h =>
          rbind (bytes_decode h) (fun host =>
          rbind (index0 statuses) (fun s =>
          rbind (bytes_decode s) (fun status =>
          rbind (agreement_rows rest) (fun rows =>
          Ret ((host, status) :: rows))))))
      | _, _ => agreement_rows rest
      end
  end.

(** An agreement is healthy when its normalized status is 0 or 18. *)
Definition healthy_status (status : str) : bool :=
  str_in (normalize_status status) ["0"; "18"].

(** The line that reports one agreement. *)
Definition row_text (domain : str) (row : str * str) : str :=
  str_replace ("." ++ domain) EmptyString (fst row) ++ " " ++ normalize_status (snd row).

Definition agreements_text (domain : str) (rows : list (str * str)) : str :=
  match rows with
  | [] => "No replication agreements found"
  | _ => str_join (String (ascii_of_N 10) EmptyString) (List.map (row_text domain) rows)
  end.

(** A status code: no blank, no parenthesis and no capital E in it. *)
Fixpoint code_token (code : str) : bool :=
  match code with
  | EmptyString => true
  | String c rest => negb (char_in c " ()E") && code_token rest
  end.

End Vocabulary.
Import Vocabulary.

(** ** Further vocabulary *)

(** ** More of Python's [str] *)

Module PyText.

(** The number of bytes of the whitespace character at the head of a
    text, [0] when the text does not start with one.  Whitespace is what
    [str.split()] and [str.isspace()] take for it: U+0009 to U+000D,
    U+001C to U+0020, U+0085, U+00A0, U+1680, U+2000 to U+200A, U+2028,
    U+2029, U+202F, U+205F and U+3000, in their UTF-8 encoding. *)
Definition space_width (s : str) : nat :=
  match s with
  | EmptyString => 0
  | String c rest =>
      let b := N_of_ascii c in
      if ((9 <=? b) && (b <=? 13) || (28 <=? b) && (b <=? 32))%N then 1
      else
        match rest with
        | EmptyString => 0
        | String d rest' =>
            let b1 := N_of_ascii d in
            if (b =? 194)%N then
              if ((b1 =? 133) || (b1 =? 160))%N then 2 else 0
            else
              match rest' with
              | EmptyString => 0
              | String e _ =>
                  let b2 := N_of_ascii e in
                  if ((b =? 225) && (b1 =? 154) && (b2 =? 128))%N then 3
                  else if ((b =? 226) && (b1 =? 128) &&
                           ((128 <=? b2) && (b2 <=? 138) || (b2 =? 168) ||
                            (b2 =? 169) || (b2 =? 175)))%N then 3
                  else if ((b =? 226) && (b1 =? 129) && (b2 =? 159))%N then 3
                  else if ((b =? 227) && (b1 =? 128) && (b2 =? 128))%N then 3
                  else 0
              end
        end
  end.

(** [s.split()]: the words between runs of whitespace.  [word] is the
    word being read, [skip] the bytes left of a whitespace character that
    takes more than one. *)
Fixpoint split_from (skip : nat) (word : str) (s : str) : list str :=
  match s with
  | EmptyString =>
      match word with
      | EmptyString => []
      | _ => [word]
      end
  | String c rest =>
      match skip with
      | S k => split_from k word rest
      | O =>
          match space_width s with
          | O => split_from 0 (word ++ String c EmptyString) rest
          | S k =>
              match word with
              | EmptyString => split_from k EmptyString rest
              | _ => word :: split_from k EmptyString rest
              end
          end
      end
  end.

Definition str_split (s : str) : list str := split_from 0 EmptyString s.

Definition lower_char (c : ascii) : ascii :=
  let n := N_of_ascii c in
  if (65 <=? n)%N && (n <=? 90)%N then ascii_of_N (n + 32) else c.

(** [s.lower()] on the ASCII letters.  The program only compares the
    result with [json] and with [yaml]; no character outside ASCII has a
    lower case made of letters of these two words, so the two comparisons
    come out as in Python on every text. *)
Fixpoint str_lower (s : str) : str :=
  match s with
  | EmptyString => EmptyString
  | String c rest => String (lower_char c) (str_lower rest)
  end.

End PyText.
Export PyText.

(** ** utils/dns_utils.py *)

Module DNSUtils.

(** The loop over the answers of [find_ipa_servers]; an answer is given
    by its text, [answer.to_text()]. *)
Fixpoint hosts_loop (answers : list str) (hosts : list str) : list str :=
  match answers with
  | [] => hosts
  | answer_text :: rest =>
      let parts := str_split answer_text in
      if (4 <=? List.length parts)%nat
      then
        let hostname := rstrip "." (List.nth 3 parts EmptyString) in
        hosts_loop rest (hosts ++ [hostname])%list
      else hosts_loop rest hosts
  end.

(** [find_ipa_servers(domain, log)].  [resolve] stands for
    [dns.resolver.resolve(record, "SRV")]: the texts of the answers, or
    [None] when the resolver raises one of the DNS exceptions, which the
    function catches. *)
Definition find_ipa_servers (resolve : str -> option (list str)) (domain : str)
    : list str :=
  let record := "_ldap._tcp." ++ domain in
  let hosts := [] in
  match resolve record with
  | Some answers => hosts_loop answers hosts
  | None => hosts
  end.

End DNSUtils.

(** ** The reports of ConsistencyChecker *)

Module Reporting.

Import ConsistencyChecker.

(** The command-line arguments that the checker reads. *)
Record Args := {
  disable_header : bool;
  disable_border : bool;
  debug : bool;
  quiet : bool;
  output_format : option str
}.

(** A [PrettyTable]: the field names and the two switches given to its
    constructor, and the rows added one by one.  The layout of the text
    is the library's. *)
Record Table := {
  field_names : list PyVal;
  header : bool;
  border : bool;
  rows : list (list PyVal)
}.

(** [len(val) == len(set(val))], the library's test on the field
    names. *)
Fixpoint unique (val : list PyVal) : bool :=
  match val with
  | [] => true
  | x :: rest => negb (contains_val x rest) && unique rest
  end.

(** [PrettyTable(field_names, header=..., border=...)]: field names that
    are not unique are refused with [ValueError]. *)
Definition PrettyTable (field_names : list PyVal) (header border : bool)
    : result Table :=
  if unique field_names
  then Ret {| field_names := field_names;
              header := header;
              border := border;
              rows := [] |}
  else Raise ValueError.

(** [table.add_row(row)]: a row that has not as many values as there
    are field names is refused with [ValueError]. *)
Definition add_row (table : Table) (row : list PyVal) : result Table :=
  if Nat.eqb (List.length row) (List.length (field_names table))
  then Ret {| field_names := field_names table;
              header := header table;
              border := border table;
              rows := (rows table ++ [row])%list |}
  else Raise ValueError.

(** The loop over [self.checks] of [print_table]. *)
Fixpoint rows_loop (self : Checker) (todo : list (str * str)) (table : Table)
    : result Table :=
  match todo with
  | [] => Ret table
  | (check_name, display_name) :: rest =>
      rbind (getattr_all check_name (servers self)) (fun check_results =>
      rbind (is_consistent self check_name check_results) (fun verdict =>
      let state := if truthy verdict then "OK" else "FAIL" in
      rbind (add_row table
               ([PStr display_name] ++ check_results ++ [PStr state])%list)
            (fun table => rows_loop self rest table)))
  end.

(** [print_table], up to the table that is logged and printed. *)
Definition print_table (self : Checker) (args : Args) : result Table :=
  rbind (getattr_all "hostname_short" (servers self)) (fun shorts =>
  let headers := ([PStr "FreeIPA servers:"] ++ shorts ++ [PStr "STATE"])%list in
  rbind (PrettyTable headers (negb (disable_header args))
                     (negb (disable_border args)))
        (fun table => rows_loop self (checks self) table)).

(** What [output_structured_data] does with the data: it hands them to
    [json.dumps], to [yaml.dump], or reports the format as
    unsupported. *)
Inductive Emitted :=
| AsJson (data : StructuredData)
| AsYaml (data : StructuredData)
| Unsupported (message : str).

(** [output_structured_data(log, format_type)]; [now] is
    [datetime.datetime.now().isoformat()]. *)
Definition output_structured_data (self : Checker) (now : str) (format_type : str)
    : result Emitted :=
  rbind (get_structured_data self) (fun data =>
  let data :=
    {| timestamp := PStr now;
       domain := domain data;
       servers_info := servers_info data;
       checks_data := checks_data data;
       summary := summary data |} in
  let data :=
    match servers self with
    | (_, first_server) :: _ =>
        match first_server !! "domain" with
        | Some v =>
            {| timestamp := timestamp data;
               domain := v;
               servers_info := servers_info data;
               checks_data := checks_data data;
               summary := summary data |}
        | None => data
        end
    | [] => data
    end in
  if String.eqb (str_lower format_type) "json" then Ret (AsJson data)
  else if String.eqb (str_lower format_type) "yaml" then Ret (AsYaml data)
  else Ret (Unsupported ("Unsupported output format: " ++ format_type))).

End Reporting.

(** ** class Application *)

Module Application.

Import DNSUtils.

(** The values of the [Config] object that the application reads. *)
Record Config := {
  domain : str;
  hosts : list str;
  binddn : str;
  bindpw : str
}.

(** The network: the resolver of SRV records, and the directory server
    that answers under each host name. *)
Record Net := {
  resolve : str -> option (list str);
  directory : str -> World
}.

(** [d[k] = v] on a dictionary kept as the list of its items: a key that
    is present keeps its place. *)
Fixpoint dict_set {A} (k : str) (v : A) (d : list (str * A)) : list (str * A) :=
  match d with
  | [] => [(k, v)]
  | (k', v') :: rest =>
      if String.eqb k k' then (k, v) :: rest
      else (k', v') :: dict_set k v rest
  end.

(** The call [FreeIPAServer(host, self.config.domain, self.config.binddn,
    self.config.bindpw)] in the body of the loop over the hosts. *)
Definition connect (net : Net) (config : Config) (host : str)
    : result (FreeIPAServer.Object * list LDAP.query) :=
  FreeIPAServer.new (directory net host) host (domain config)
                    (binddn config) (bindpw config).

(** The loop [for host in self.config.hosts] with its [try]. *)
Fixpoint connect_loop
    (connect : str -> result (FreeIPAServer.Object * list LDAP.query))
    (todo : list str)
    (servers : list (str * FreeIPAServer.Object))
    (connection_errors : list (str * exn))
    : list (str * FreeIPAServer.Object) * list (str * exn) :=
  match todo with
  | [] => (servers, connection_errors)
  | host :: rest =>
      match connect host with
      | Ret (server, _) =>
          connect_loop connect rest (dict_set host server servers) connection_errors
      | Raise e =>
          connect_loop connect rest servers (connection_errors ++ [(host, e)])%list
      end
  end.

Record App := {
  app_hosts : list str;
  servers : list (str * FreeIPAServer.Object);
  checker : ConsistencyChecker.Checker
}.

(** An exception of the steps before the servers are contacted:
    [ConfigError] from [Config], the [SystemExit] of the argument parser,
    or one of another class. *)
Inductive early_exn :=
| ConfigError
| SystemExit
| OtherException (class_name : str).

(** How these steps end ([parse_arguments], [setup_logger] and
    [Config(...)], which belong to other modules): with the loaded
    configuration, or with an exception. *)
Inductive prelude :=
| Loaded (config : Config)
| NotLoaded (e : early_exn).

(** How the constructor ends. *)
Inductive outcome :=
| Started (app : App)
| Raised (e : exn)
| RaisedEarly (e : early_exn).

(** [Application.__init__].  An exception of the first steps leaves the
    constructor as it is; [ConfigError] is caught, logged and raised
    again.  [app_hosts] is [self.config.hosts] as the constructor leaves
    it. *)
Definition __init__ (net : Net) (loaded : prelude) : outcome :=
  match loaded with
  | NotLoaded e => RaisedEarly e
  | Loaded config =>
      match
        rbind (match hosts config with
               | [] =>
                   let dns_hosts := find_ipa_servers (resolve net) (domain config) in
                   match dns_hosts with
                   | [] => Raise ValueError
                   | _ => Ret dns_hosts
                   end
               | _ => Ret (hosts config)
               end) (fun hosts =>
        let '(servers, connection_errors) :=
          connect_loop (connect net config) hosts [] [] in
        match servers with
        | [] => Raise ValueError
        | _ =>
            rbind (ConsistencyChecker.__init__ servers) (fun checker =>
            Ret {| app_hosts := hosts; servers := servers; checker := checker |})
        end)
      with
      | Ret app => Started app
      | Raise e => Raised e
      end
  end.

End Application.

Module Terms.

Import ConsistencyChecker.

(** The three checks with a rule of their own. *)
Definition special (check : str) : Prop :=
  check = "conflicts" \/ check = "ghosts" \/ check = "replicas".

(** The attribute that [is_consistent] reads from every server for a
    special check. *)
Definition attribute_read (check : str) : str :=
  if String.eqb check "replicas" then "healthy_agreements" else check.

(** The short host name of a server object, [None] standing for a missing
    attribute. *)
Definition short_name (o : Object) : PyVal :=
  match o !! "hostname_short" with
  | Some v => v
  | None => PNone
  end.

(** The entry of a check holds, for each server, the value that the
    server has for the check. *)
Definition carries_values (self : Checker) (d : CheckData) : Prop :=
  exists rs,
    getattr_all (name d) (servers self) = Ret rs /\
    values_loop (List.map fst (servers self)) rs ∅ = Ret (values d).

(** The SRV record that [_ms_adtrust] resolves. *)
Definition msdcs_record (domain : str) : str :=
  "_kerberos._tcp.Default-First-Site-Name._sites.dc._msdcs." ++ domain.

(** The values of the tombstone attribute on the first entry of a
    reply; none when the search failed, found nothing, or the entry has
    no such attribute. *)
Definition tombstone_values (r : LDAP.reply) : list bytes :=
  match r with
  | LDAP.Found ((_, attrs) :: _) =>
      match attrs !! "nscpentrywsi" with
      | Some values => values
      | None => []
      end
  | _ => []
  end.

(** The replies that [_search] returns from: a result list, or one of
    the two errors that it turns into [False]. *)
Definition answered (r : LDAP.reply) : Prop :=
  match r with
  | LDAP.Found _ | LDAP.Failed LDAP.NO_SUCH_OBJECT | LDAP.Failed LDAP.SERVER_DOWN => True
  | _ => False
  end.

(** A reply without a first entry. *)
Definition nothing_found (r : LDAP.reply) : Prop :=
  r = LDAP.Found [] \/ r = LDAP.Failed LDAP.NO_SUCH_OBJECT \/
  r = LDAP.Failed LDAP.SERVER_DOWN.

(** The first two searches of the constructor. *)
Definition fqdn_query : LDAP.query :=
  LDAP.Query "cn=config" LDAP.SCOPE_BASE "(objectClass=*)" (Some ["nsslapd-localhost"]).

Definition context_query : LDAP.query :=
  LDAP.Query "cn=config" LDAP.SCOPE_SUBTREE "(objectClass=*)"
             (Some ["nsslapd-defaultnamingcontext"]).

(** The base DN that the constructor derives from the domain. *)
Definition base_dn_of (domain : str) : str :=
  "dc=" ++ str_replace "." ",dc=" domain.

(** The directory does not name the derived base DN as its default
    naming context: the context search finds nothing, or its first entry
    has no naming context, or the naming context is another text. *)
Definition context_differs (W : World) (domain : str) : Prop :=
  nothing_found (search_s W context_query) \/
  exists dn attrs rest,
    search_s W context_query = LDAP.Found ((dn, attrs) :: rest) /\
    (attrs !! "nsslapd-defaultnamingcontext" = None \/
     exists c cs context,
       attrs !! "nsslapd-defaultnamingcontext" = Some (c :: cs) /\
       bytes_decode c = Ret context /\
       context <> base_dn_of domain).

(** A character of visible ASCII, and a non-empty word of such
    characters. *)
Definition visible_char (c : ascii) : bool :=
  let n := N_of_ascii c in (33 <=? n)%N && (n <=? 126)%N.

Fixpoint visible (s : str) : bool :=
  match s with
  | EmptyString => true
  | String c rest => visible_char c && visible rest
  end.

Definition word (s : str) : Prop := s <> EmptyString /\ visible s = true.

(** An SRV record in its presentation format: priority, weight, port and
    target, separated by one blank. *)
Definition srv_text (r : str * str * str * str) : str :=
  let '(priority, weight, port, target) := r in
  priority ++ " " ++ weight ++ " " ++ port ++ " " ++ target.

Definition srv_target (r : str * str * str * str) : str :=
  let '(_, _, _, target) := r in target.

Definition srv_words (r : str * str * str * str) : Prop :=
  let '(priority, weight, port, target) := r in
  word priority /\ word weight /\ word port /\ word target.

(** A row of the table shows a check as an entry of the structured
    result has it: the display name, the servers' values in the order of
    the servers, and the state. *)
Definition row_of (self : Checker) (row : list PyVal) (d : CheckData) : Prop :=
  exists rs,
    getattr_all (name d) (servers self) = Ret rs /\
    row = ([PStr (display_name d)] ++ rs ++ [PStr (state d)])%list.

(** A method that assigns no attribute, and a method that leaves one
    attribute as it is. *)
Definition reads_only {A} (c : FreeIPAServer.M A) : Prop :=
  forall st, FreeIPAServer.self (fst (c st)) = FreeIPAServer.self st.

Definition leaves {A} (k : str) (c : FreeIPAServer.M A) : Prop :=
  forall st, FreeIPAServer.self (fst (c st)) !! k = FreeIPAServer.self st !! k.

(** An object that the constructor of [FreeIPAServer] returned. *)
Definition constructed (o : Object) : Prop :=
  exists (W : World) (host domain binddn bindpw : str) (t : list LDAP.query),
    FreeIPAServer.new W host domain binddn bindpw = Ret (o, t).

(** The hosts that the application connects to: those of the
    configuration, or else those found in DNS. *)
Definition effective_hosts (net : Application.Net) (config : Application.Config)
    : list str :=
  match Application.hosts config with
  | [] => DNSUtils.find_ipa_servers (Application.resolve net) (Application.domain config)
  | _ => Application.hosts config
  end.

(** A directory that cannot be reached: the bind ends in one of the
    three errors that [_get_conn] turns into [None]. *)
Definition unreachable (W : World) : Prop :=
  bind W = Some LDAP.SERVER_DOWN \/ bind W = Some LDAP.NO_SUCH_OBJECT \/
  bind W = Some LDAP.INVALID_CREDENTIALS.

(** A server object on which nothing was collected. *)
Definition idle (o : Object) : Prop :=
  is_Some (o !! "hostname_short") /\
  o !! "healthy_agreements" = Some (PBool false) /\
  o !! "hbac" = Some (PInt 0) /\
  forall k, List.In k metric_keys -> k <> "hbac" -> o !! k = Some PNone.

(** The report on servers on which nothing was collected: every check
    fails but [hbac]. *)
Definition idle_verdicts : list (str * str * PyVal) :=
  List.map (fun k => (k, if String.eqb k "hbac" then "OK" else "FAIL",
                      PBool (String.eqb k "hbac")))
           metric_keys.

(** The text of the first value of an attribute on the first entry of a
    reply: [default] when there is no entry or the entry has no such
    attribute, [IndexError] when the attribute has no value,
    [UnicodeDecodeError] when the value is not UTF-8. *)
Definition first_text (attr default : str) (r : LDAP.reply) : result str :=
  match r with
  | LDAP.Found ((_, attrs) :: _) =>
      match attrs !! attr with
      | None => Ret default
      | Some [] => Raise IndexError
      | Some (b :: _) => bytes_decode b
      end
  | _ => Ret default
  end.

(** The number of entries of a reply, [0] for a failed search. *)
Definition entry_count (r : LDAP.reply) : Z :=
  match r with
  | LDAP.Found results => FreeIPAServer.len results
  | LDAP.Failed _ => 0
  end.

End Terms.
Import Terms.

(** ** Facts about the primitives *)

Section PyFacts.

Lemma py_eq_key (v w : PyVal) : py_eq v w = true <-> py_key v = py_key w.
Proof.
  destruct v as [|a|a|a|a], w as [|b|b|b|b]; simpl; try (split; congruence).
  - rewrite Bool.eqb_true_iff. split; [congruence|].
    destruct a, b; simpl; congruence.
  - rewrite Z.eqb_eq. split; congruence.
  - rewrite Z.eqb_eq. split; congruence.
  - rewrite Z.eqb_eq. split; congruence.
  - rewrite String.eqb_eq. split; congruence.
  - rewrite String.eqb_eq. split; congruence.
Qed.

Lemma py_eq_refl (v : PyVal) : py_eq v v = true.
Proof. apply py_eq_key. reflexivity. Qed.

Lemma py_eq_sym (v w : PyVal) : py_eq v w = py_eq w v.
Proof.
  destruct (py_eq v w) eqn:E, (py_eq w v) eqn:F; try reflexivity.
  - apply py_eq_key in E. symmetry in E. apply py_eq_key in E. congruence.
  - apply py_eq_key in F. symmetry in F. apply py_eq_key in F. congruence.
Qed.

Lemma py_eq_trans (u v w : PyVal) :
  py_eq u v = true -> py_eq v w = true -> py_eq u w = true.
Proof. rewrite !py_eq_key. congruence. Qed.

Lemma py_eq_None (v : PyVal) : py_eq v PNone = true <-> v = PNone.
Proof. destruct v; simpl; split; congruence. Qed.

(** Apart from [bool] against [int], [==] is identity. *)
Lemma py_eq_same_type (v w : PyVal) :
  py_type v = py_type w -> (py_eq v w = true <-> v = w).
Proof.
  intros T. rewrite py_eq_key.
  destruct v, w; simpl in *; try discriminate; split; try congruence.
  intros E. injection E as E. f_equal.
  match goal with a : bool, b : bool |- _ => destruct a, b; simpl in *; congruence end.
Qed.

Lemma py_eq_types (v w : PyVal) :
  py_eq v w = true ->
  py_type v = py_type w \/
  (py_type v = TBool /\ py_type w = TInt) \/
  (py_type v = TInt /\ py_type w = TBool).
Proof. destruct v, w; simpl; try discriminate; auto. Qed.

(** [l.count(x) == len(l)] says that every element equals [x]. *)
Lemma count_all (x : PyVal) (l : list PyVal) :
  count x l = List.length l <-> (forall e, List.In e l -> py_eq e x = true).
Proof.
  unfold count. induction l as [|a l IH]; simpl.
  - split; [intros _ e []|reflexivity].
  - destruct (py_eq a x) eqn:E; simpl.
    + split.
      * intros H e [<-|Hin]; [assumption|].
        apply IH; [congruence|assumption].
      * intros H. f_equal. apply IH. intros e He. apply H. now right.
    + split.
      * intros H. pose proof (List.filter_length_le (fun e => py_eq e x) l). lia.
      * intros H. specialize (H a (or_introl eq_refl)). congruence.
Qed.

Lemma contains_val_In (x : PyVal) (l : list PyVal) :
  contains_val x l = true <-> exists e, List.In e l /\ py_eq e x = true.
Proof. unfold contains_val. apply List.existsb_exists. Qed.

Lemma contains_None (l : list PyVal) :
  contains_val PNone l = true <-> List.In PNone l.
Proof.
  rewrite contains_val_In. split.
  - intros (e & He & E). apply py_eq_None in E. congruence.
  - intros H. exists PNone. split; [assumption|reflexivity].
Qed.

End PyFacts.

(** ** The consistency rules *)

Section Rules.

Import ConsistencyChecker.

Lemma getattr_all_Ret (attr : str) (servers : list (str * Object)) :
  (forall h o, List.In (h, o) servers -> is_Some (o !! attr)) ->
  exists vs,
    getattr_all attr servers = Ret vs /\
    List.length vs = List.length servers /\
    (forall v, List.In v vs <->
               exists h o, List.In (h, o) servers /\ o !! attr = Some v).
Proof.
  induction servers as [|[h o] rest IH]; intros Hattr.
  - exists []. simpl. repeat split; try tauto.
    intros (? & ? & [] & _).
  - destruct (Hattr h o (or_introl eq_refl)) as [v Hv].
    destruct IH as (vs & Hvs & Hlen & Hin).
    { intros h' o' H'. apply (Hattr h' o'). now right. }
    exists (v :: vs). simpl. unfold getattr. rewrite Hv. simpl. rewrite Hvs. simpl.
    repeat split; [congruence| |].
    + intros [<-|Hw].
      * exists h, o. auto.
      * apply Hin in Hw as (h' & o' & ? & ?). exists h', o'. auto.
    + intros (h' & o' & [E|Hw] & Ho).
      * injection E as <- <-. left. congruence.
      * right. apply Hin. exists h', o'. auto.
Qed.

Lemma all_like_first_spec (first : PyVal) (l : list PyVal) :
  all_like_first first l = true <-> (forall e, List.In e l -> py_eq e first = true).
Proof. unfold all_like_first. rewrite Nat.eqb_eq. apply count_all. Qed.

(** The test of the two zero rules, on counters of the declared type. *)
Lemma zero_test (first : PyVal) (rest : list PyVal) :
  (forall e, List.In e (first :: rest) -> optional_int e) ->
  all_like_first first (first :: rest) && py_eq first (PInt 0) = true <->
  (forall e, List.In e (first :: rest) -> e = PInt 0).
Proof.
  intros Hty. rewrite andb_true_iff, all_like_first_spec. split.
  - intros [Hall H0] e He.
    assert (E : py_eq e (PInt 0) = true) by (eapply py_eq_trans; eauto).
    destruct (Hty e He) as [->|[n ->]]; simpl in E; [discriminate|].
    apply Z.eqb_eq in E. congruence.
  - intros H. assert (first = PInt 0) as -> by (apply H; now left).
    split; [|reflexivity].
    intros e He. rewrite (H e He). reflexivity.
Qed.

Lemma zero_rule (self : Checker) (attr : str) (check_results : list PyVal) :
  servers self <> [] ->
  (forall h o, List.In (h, o) (servers self) ->
               exists v, o !! attr = Some v /\ optional_int v) ->
  exists b,
    rbind (getattr_all attr (servers self)) (fun l =>
    rbind (index0 l) (fun first =>
    Ret (PBool (all_like_first first l && py_eq first (PInt 0))))) = Ret (PBool b) /\
    (b = true <->
     forall h o, List.In (h, o) (servers self) -> o !! attr = Some (PInt 0)).
Proof.
  intros Hne Hty.
  destruct (getattr_all_Ret attr (servers self)) as (vs & -> & Hlen & Hin).
  { intros h o Ho. destruct (Hty h o Ho) as (v & -> & _). eauto. }
  destruct vs as [|first rest].
  { destruct (servers self); [congruence|discriminate]. }
  simpl. eexists. split; [reflexivity|].
  rewrite zero_test.
  - split.
    + intros H h o Ho. destruct (Hty h o Ho) as (v & Hv & _).
      rewrite Hv. f_equal. apply H. apply Hin. eauto.
    + intros H e He. apply Hin in He as (h & o & Ho & Hv).
      rewrite (H h o Ho) in Hv. congruence.
  - intros e He. apply Hin in He as (h & o & Ho & Hv).
    destruct (Hty h o Ho) as (v & Hv' & T). congruence.
Qed.

(** C1.  For the checks [conflicts] and [ghosts], on a checker with at
    least one server whose counters have their declared type and on a
    non-empty list of results, [is_consistent] returns [True] exactly
    when every server's counter is [0].  Equal non-zero counts are
    inconsistent: all servers reporting 3 gives [False], [0,0,0] gives
    [True], [0,2,0] gives [False]. *)
Theorem is_consistent_conflicts_ghosts :
  (forall (self : Checker) (check : str) (check_results : list PyVal),
      check = "conflicts" \/ check = "ghosts" ->
      servers self <> [] ->
      check_results <> [] ->
      (forall h o, List.In (h, o) (servers self) ->
                   exists v, o !! check = Some v /\ optional_int v) ->
      exists b,
        is_consistent self check check_results = Ret (PBool b) /\
        (b = true <->
         forall h o, List.In (h, o) (servers self) -> o !! check = Some (PInt 0)))
  /\ verdict_on "conflicts" [PInt 3; PInt 3; PInt 3] = Ret (PBool false)
  /\ verdict_on "conflicts" [PInt 0; PInt 0; PInt 0] = Ret (PBool true)
  /\ verdict_on "conflicts" [PInt 0; PInt 2; PInt 0] = Ret (PBool false)
  /\ verdict_on "ghosts" [PInt 3; PInt 3; PInt 3] = Ret (PBool false)
  /\ verdict_on "ghosts" [PInt 0; PInt 0; PInt 0] = Ret (PBool true)
  /\ verdict_on "ghosts" [PInt 0; PInt 2; PInt 0] = Ret (PBool false).
Proof.
  split; [|repeat split; vm_compute; reflexivity].
  intros self check check_results Hcheck Hne Hres Hty.
  unfold is_consistent.
  destruct check_results as [|r0 rs]; [congruence|].
  destruct Hcheck as [-> | ->]; simpl String.eqb; cbv iota.
  - apply zero_rule; assumption.
  - apply zero_rule; assumption.
Qed.

Lemma is_consistent_conflicts_ghosts_witness :
  exists b,
    is_consistent (checker (reports "ghosts" [PInt 0; PNone])) "ghosts"
                  [PInt 0; PNone] = Ret (PBool b) /\
    (b = true <->
     forall h o, List.In (h, o) (servers (checker (reports "ghosts" [PInt 0; PNone]))) ->
                 o !! "ghosts" = Some (PInt 0)).
Proof.
  apply (proj1 is_consistent_conflicts_ghosts).
  - right. reflexivity.
  - discriminate.
  - discriminate.
  - intros h o H. simpl in H. destruct H as [E|[E|[]]]; injection E as <- <-.
    + exists (PInt 0). split; [reflexivity|]. right. exists 0%Z. reflexivity.
    + exists PNone. split; [reflexivity|]. left. reflexivity.
Defined.

(** The branch that [is_consistent] takes outside the three special
    checks. *)
Lemma is_consistent_default (self : Checker) (check : str) (rs : list PyVal) :
  check <> "conflicts" -> check <> "ghosts" -> check <> "replicas" ->
  is_consistent self check rs =
  match rs with
  | [] => Ret (PBool false)
  | first :: _ =>
      Ret (PBool (all_like_first first rs && negb (contains_val PNone rs)))
  end.
Proof.
  intros H1 H2 H3. unfold is_consistent.
  apply String.eqb_neq in H1, H2, H3. rewrite H1, H2, H3.
  destruct rs; reflexivity.
Qed.

Lemma default_test (first : PyVal) (rest : list PyVal) :
  let rs := first :: rest in
  all_like_first first rs && negb (contains_val PNone rs) = true <->
  (forall v w, List.In v rs -> List.In w rs -> py_eq v w = true) /\
  ~ List.In PNone rs.
Proof.
  intros rs. rewrite andb_true_iff, negb_true_iff, all_like_first_spec.
  rewrite <- contains_None, not_true_iff_false.
  split; intros [Hall Hnone]; split; try assumption.
  - intros v w Hv Hw. apply py_eq_trans with first; [now apply Hall|].
    rewrite py_eq_sym. now apply Hall.
  - intros e He. apply Hall; [assumption|now left].
Qed.

Lemma unmixed_eq (l : list PyVal) (v w : PyVal) :
  unmixed l -> List.In v l -> List.In w l -> (py_eq v w = true <-> v = w).
Proof.
  intros U Hv Hw. split; [|intros ->; apply py_eq_refl].
  intros E. destruct (py_eq_types _ _ E) as [T|[[T1 T2]|[T1 T2]]].
  - now apply py_eq_same_type.
  - destruct U as [U|U]; [destruct (U v Hv T1)|destruct (U w Hw T2)].
  - destruct U as [U|U]; [destruct (U w Hw T2)|destruct (U v Hv T1)].
Qed.

(** C2.  For a check other than [conflicts], [ghosts] and [replicas],
    [is_consistent] returns [True] exactly when the list of results is
    not empty, its values are all equal and none of them is [None].
    Equality is Python's [==] on the decoded values; on a list that does
    not mix [bool] with [int] (as the values of one metric never do) it
    is identity.  A list of [n >= 1] copies of a value other than [None]
    is consistent and the empty list is not. *)
Theorem is_consistent_default_rule :
  forall (self : Checker) (check : str),
    check <> "conflicts" -> check <> "ghosts" -> check <> "replicas" ->
    (forall rs, exists b,
        is_consistent self check rs = Ret (PBool b) /\
        (b = true <->
         rs <> [] /\
         (forall v w, List.In v rs -> List.In w rs -> py_eq v w = true) /\
         ~ List.In PNone rs))
    /\ (forall rs, unmixed rs ->
        (is_consistent self check rs = Ret (PBool true) <->
         rs <> [] /\
         (forall v w, List.In v rs -> List.In w rs -> v = w) /\
         ~ List.In PNone rs))
    /\ (forall x n, x <> PNone -> (1 <= n)%nat ->
        is_consistent self check (List.repeat x n) = Ret (PBool true))
    /\ is_consistent self check [] = Ret (PBool false).
Proof.
  intros self check H1 H2 H3.
  assert (General : forall rs, exists b,
        is_consistent self check rs = Ret (PBool b) /\
        (b = true <->
         rs <> [] /\
         (forall v w, List.In v rs -> List.In w rs -> py_eq v w = true) /\
         ~ List.In PNone rs)).
  { intros rs. rewrite is_consistent_default by assumption.
    destruct rs as [|first rest].
    - exists false. split; [reflexivity|]. split; [discriminate|]. intros [H _]. congruence.
    - eexists. split; [reflexivity|]. rewrite default_test.
      split; [intros H; split; [discriminate|exact H]|intros [_ H]; exact H]. }
  split; [exact General|]. split; [|split].
  - intros rs U. destruct (General rs) as (b & -> & Hb). split.
    + intros E. injection E as ->. destruct Hb as [Hb _].
      destruct (Hb eq_refl) as (Hne & Hall & Hnone). repeat split; try assumption.
      intros v w Hv Hw. apply (unmixed_eq rs); auto.
    + intros (Hne & Hall & Hnone). do 2 f_equal. apply Hb. repeat split; try assumption.
      intros v w Hv Hw. rewrite (Hall v w Hv Hw). apply py_eq_refl.
  - intros x n Hx Hn. destruct (General (List.repeat x n)) as (b & -> & Hb).
    do 2 f_equal. apply Hb. split; [|split].
    + destruct n; [lia|discriminate].
    + intros v w Hv Hw. apply List.repeat_spec in Hv, Hw. subst. apply py_eq_refl.
    + intros Hin. apply List.repeat_spec in Hin. congruence.
  - rewrite is_consistent_default by assumption. reflexivity.
Qed.

Lemma is_consistent_default_rule_witness :
  is_consistent (checker (reports "users" [PStr "100"; PStr "100"])) "users"
                (List.repeat (PStr "100") 2) = Ret (PBool true).
Proof.
  refine (proj1 (proj2 (proj2
    (is_consistent_default_rule (checker (reports "users" [PStr "100"; PStr "100"]))
       "users" _ _ _))) (PStr "100") 2%nat _ _); try discriminate.
  lia.
Defined.

Lemma getattr_all_ext (attr : str) (s1 s2 : list (str * Object)) :
  List.map (fun p => snd p !! attr) s1 = List.map (fun p => snd p !! attr) s2 ->
  getattr_all attr s1 = getattr_all attr s2.
Proof.
  revert s2. induction s1 as [|[h1 o1] r1 IH]; intros [|[h2 o2] r2] E;
    simpl in E; try discriminate; [reflexivity|].
  injection E as E1 E2. simpl. unfold getattr. rewrite E1, (IH r2 E2). reflexivity.
Qed.

(** C3.  For the check [replicas], on a checker with at least one server
    whose health flags are booleans and on a non-empty list of results,
    [is_consistent] returns [True] exactly when every server's
    [healthy_agreements] is [True]; the verdict is the same for any two
    collections of servers with the same health flags, whatever the status
    texts.  Two servers with different texts, both healthy, are
    consistent; two servers with the same text, one unhealthy, are
    not. *)
Theorem is_consistent_replicas :
  (forall (self : Checker) (check_results : list PyVal),
      servers self <> [] ->
      check_results <> [] ->
      (forall h o, List.In (h, o) (servers self) ->
                   exists b : bool, o !! "healthy_agreements" = Some (PBool b)) ->
      exists b,
        is_consistent self "replicas" check_results = Ret (PBool b) /\
        (b = true <->
         forall h o, List.In (h, o) (servers self) ->
                     o !! "healthy_agreements" = Some (PBool true)))
  /\ (forall (self1 self2 : Checker) (rs1 rs2 : list PyVal),
      rs1 <> [] -> rs2 <> [] ->
      List.map (fun p => snd p !! "healthy_agreements") (servers self1) =
      List.map (fun p => snd p !! "healthy_agreements") (servers self2) ->
      is_consistent self1 "replicas" rs1 = is_consistent self2 "replicas" rs2)
  /\ replicas_verdict_on [("ipa02 0", true); ("ipa01 0", true)] = Ret (PBool true)
  /\ replicas_verdict_on [("ipa03 0", true); ("ipa03 0", false)] = Ret (PBool false).
Proof.
  split; [|split; [|split; vm_compute; reflexivity]].
  - intros self check_results Hne Hres Hty.
    unfold is_consistent. destruct check_results as [|r0 rs]; [congruence|].
    simpl String.eqb. cbv iota.
    destruct (getattr_all_Ret "healthy_agreements" (servers self)) as (vs & -> & Hlen & Hin).
    { intros h o Ho. destruct (Hty h o Ho) as (b & ->). eauto. }
    destruct vs as [|first rest].
    { destruct (servers self); [congruence|discriminate]. }
    assert (Hbool : forall e, List.In e (first :: rest) -> exists b : bool, e = PBool b).
    { intros e He. apply Hin in He as (h & o & Ho & Hv).
      destruct (Hty h o Ho) as (b & Hb). exists b. congruence. }
    destruct (Hbool first (or_introl eq_refl)) as (b0 & ->).
    simpl. destruct (all_like_first (PBool b0) (PBool b0 :: rest)) eqn:A.
    + exists b0. split; [reflexivity|].
      rewrite all_like_first_spec in A. split.
      * intros -> h o Ho. destruct (Hty h o Ho) as (b & Hb). rewrite Hb.
        assert (Hi : List.In (PBool b) (PBool true :: rest)) by (apply Hin; eauto).
        specialize (A _ Hi). simpl in A. apply Bool.eqb_prop in A. congruence.
      * intros H. assert (Hi : List.In (PBool b0) (PBool b0 :: rest)) by now left.
        apply Hin in Hi as (h & o & Ho & Hv). rewrite (H h o Ho) in Hv. congruence.
    + exists false. split; [reflexivity|]. split; [discriminate|].
      intros H. exfalso.
      assert (Hall : forall e, List.In e (PBool b0 :: rest) -> e = PBool true).
      { intros e He. apply Hin in He as (h & o & Ho & Hv).
        rewrite (H h o Ho) in Hv. congruence. }
      apply not_true_iff_false in A. apply A. apply all_like_first_spec.
      intros e He. rewrite (Hall e He), (Hall (PBool b0) (or_introl eq_refl)).
      reflexivity.
  - intros self1 self2 rs1 rs2 H1 H2 E.
    unfold is_consistent.
    destruct rs1; [congruence|]. destruct rs2; [congruence|].
    simpl String.eqb. cbv iota.
    rewrite (getattr_all_ext _ _ _ E). reflexivity.
Qed.

Lemma is_consistent_replicas_witness :
  exists b,
    is_consistent (checker (replica_reports [("ipa02 0", true); ("ipa01 18", true)]))
                  "replicas" [PStr "ipa02 0"; PStr "ipa01 18"] = Ret (PBool b) /\
    (b = true <->
     forall h o,
       List.In (h, o)
         (servers (checker (replica_reports [("ipa02 0", true); ("ipa01 18", true)]))) ->
       o !! "healthy_agreements" = Some (PBool true)).
Proof.
  apply (proj1 is_consistent_replicas).
  - discriminate.
  - discriminate.
  - intros h o H. simpl in H. destruct H as [E|[E|[]]]; injection E as <- <-;
      exists true; reflexivity.
Defined.

End Rules.

(** ** The collector *)

Section Collector.

Import LDAP FreeIPAServer.
Local Open Scope py_scope.

(** A search on an open connection is recorded and answered by the
    directory. *)
Lemma search_connected (W : World) (base fltr : str) (attrs : option (list str))
    (scope : scope) (st : State) :
  connected st ->
  _search W base fltr attrs scope st =
  let q := Query base scope fltr attrs in
  match search_s W q with
  | Found results => (searched st q, Ret (Some results))
  | Failed NO_SUCH_OBJECT | Failed SERVER_DOWN => (searched st q, Ret None)
  | Failed REFERRAL => (_ <- get "_fqdn" ;; raise LDAPReferralError) (searched st q)
  | Failed INVALID_CREDENTIALS => (searched st q, Raise (LDAPError "INVALID_CREDENTIALS"))
  | Failed (OTHER desc) => (searched st q, Raise (LDAPError desc))
  end.
Proof.
  intros (conn & Hconn & Hne). unfold _search, bindM, get. rewrite Hconn.
  destruct conn; [congruence| | | |]; reflexivity.
Qed.

Lemma get_attr (name : str) (v : PyVal) (st : State) :
  self st !! name = Some v -> get name st = (st, Ret v).
Proof. intros H. unfold get. rewrite H. reflexivity. Qed.

Lemma safe_decode_bytes (b : bytes) : _safe_decode (TextBytes b) = bytes_decode b.
Proof. reflexivity. Qed.

(** *** Anonymous bind *)

Lemma str_in_three (state a b c : str) :
  state <> a -> state <> b -> state <> c -> str_in state [a; b; c] = false.
Proof.
  intros Ha Hb Hc. unfold str_in. simpl.
  apply String.eqb_neq in Ha, Hb, Hc. rewrite Ha, Hb, Hc. reflexivity.
Qed.

(** C6, as the code has it.  The collector issues one search for the
    attribute [nsslapd-allow-anonymous-access] of [cn=config].  When the
    first value of the attribute decodes to exactly [on], [off] or
    [rootdse] (in lower case) the result is that word in upper case; when
    it decodes to any other text, when the attribute is absent, and when
    the search finds nothing or fails with [NO_SUCH_OBJECT] or
    [SERVER_DOWN], the result is [ERROR]. *)
Theorem anon_bind_lowercase_rule :
  forall (W : World) (st : State),
    connected st ->
    let out := _anon_bind W st in
    let after := searched st anon_bind_query in
    (search_s W anon_bind_query = Found [] \/
     search_s W anon_bind_query = Failed NO_SUCH_OBJECT \/
     search_s W anon_bind_query = Failed SERVER_DOWN ->
     out = (after, Ret (PStr "ERROR")))
    /\ (forall dn attrs rest,
        search_s W anon_bind_query = Found ((dn, attrs) :: rest) ->
        (attrs !! "nsslapd-allow-anonymous-access" = None ->
         out = (after, Ret (PStr "ERROR")))
        /\ (forall v vs state,
            attrs !! "nsslapd-allow-anonymous-access" = Some (v :: vs) ->
            bytes_decode v = Ret state ->
            (state = "on" -> out = (after, Ret (PStr "ON")))
            /\ (state = "off" -> out = (after, Ret (PStr "OFF")))
            /\ (state = "rootdse" -> out = (after, Ret (PStr "ROOTDSE")))
            /\ (state <> "on" -> state <> "off" -> state <> "rootdse" ->
                out = (after, Ret (PStr "ERROR"))))).
Proof.
  intros W st Hconn out after. subst out after.
  unfold _anon_bind, bindM. rewrite search_connected by assumption.
  cbv zeta. fold anon_bind_query. split.
  - intros [-> | [-> | ->]]; reflexivity.
  - intros dn attrs rest ->. split.
    + intros ->. reflexivity.
    + intros v vs state -> Hdec. unfold lift. cbn [index0].
      rewrite safe_decode_bytes, Hdec.
      repeat split.
      * intros ->. reflexivity.
      * intros ->. reflexivity.
      * intros ->. reflexivity.
      * intros H1 H2 H3. rewrite str_in_three by assumption. reflexivity.
Qed.

Lemma anon_bind_lowercase_rule_witness :
  _anon_bind Samples.lab session = (searched session anon_bind_query, Ret (PStr "ROOTDSE")).
Proof.
  refine (proj1 (proj2 (proj2
    (proj2 (proj2 (anon_bind_lowercase_rule Samples.lab session _)
                  "cn=config" {[ "nsslapd-allow-anonymous-access" := ["rootdse"] ]} [] _)
           "rootdse" [] "rootdse" _ _))) _); try reflexivity.
  exists (PObj "LDAPObject"). split; [reflexivity|discriminate].
Defined.

(** C6, as the design document words it, fails: a server whose attribute
    reads [ON] is reported as [ERROR], where upper-casing first and then
    accepting ON would report [ON]. *)
Lemma anon_bind_uppercase_value_is_error :
  let W := answering anon_bind_query
             (Found [("cn=config", {[ "nsslapd-allow-anonymous-access" := ["ON"] ]})]) in
  snd (_anon_bind W session) = Ret (PStr "ERROR") /\
  anon_bind_as_worded (Some "ON") = "ON" /\
  snd (_anon_bind W session) <> Ret (PStr (anon_bind_as_worded (Some "ON"))).
Proof. vm_compute. repeat split. discriminate. Qed.

(** *** Ghost replicas *)

Lemma ghost_loop_count (values : list bytes) (r : Z) :
  ghost_loop values r =
  (r + Z.of_nat (List.length (List.filter (fun v => ghost_text (bytes_repr v)) values)))%Z.
Proof.
  revert r. induction values as [|v rest IH]; intros r;
    cbn [ghost_loop List.filter List.length].
  - lia.
  - unfold ghost_text at 1.
    destruct (str_contains "replica " (bytes_repr v) && negb (str_contains "ldap" (bytes_repr v)));
      rewrite IH; cbn [List.length]; lia.
Qed.

Lemma prefix_app_char (p w : str) (q : ascii) :
  char_in q p = false ->
  String.prefix p (w ++ String q EmptyString) = String.prefix p w.
Proof.
  revert w. induction p as [|a p IH]; intros w Hq.
  - destruct w; reflexivity.
  - simpl in Hq. apply orb_false_iff in Hq as [Hqa Hqp].
    destruct w as [|c w]; simpl.
    + destruct (ascii_dec a q) as [->|]; [|reflexivity].
      rewrite Ascii.eqb_refl in Hqa. discriminate.
    + destruct (ascii_dec a c); [apply IH; assumption|reflexivity].
Qed.

Lemma contains_app_char (a : ascii) (p s : str) (q : ascii) :
  char_in q (String a p) = false ->
  str_contains (String a p) (s ++ String q EmptyString) = str_contains (String a p) s.
Proof.
  intros Hq. induction s as [|c s IH].
  - change (EmptyString ++ String q EmptyString) with (String q EmptyString).
    assert (E := prefix_app_char (String a p) EmptyString q Hq).
    change (EmptyString ++ String q EmptyString) with (String q EmptyString) in E.
    cbn [str_contains]. rewrite E. reflexivity.
  - change (String c s ++ String q EmptyString) with (String c (s ++ String q EmptyString)).
    cbn [str_contains]. rewrite IH.
    assert (E := prefix_app_char (String a p) (String c s) q Hq).
    change (String c s ++ String q EmptyString)
      with (String c (s ++ String q EmptyString)) in E.
    rewrite E. reflexivity.
Qed.

Lemma contains_skip (a : ascii) (p s : str) (c : ascii) :
  a <> c ->
  str_contains (String a p) (String c s) = str_contains (String a p) s.
Proof.
  intros Hne. cbn [str_contains]. simpl String.prefix.
  destruct (ascii_dec a c); [contradiction|reflexivity].
Qed.

Lemma repr_byte_plain (c : ascii) :
  plain_char c = true ->
  repr_byte squote c = String c EmptyString /\ Ascii.eqb c squote = false.
Proof.
  destruct c as [[] [] [] [] [] [] [] []]; vm_compute; intros H;
    (discriminate H || (split; reflexivity)).
Qed.

Lemma repr_plain (b : bytes) :
  plain b = true ->
  bytes_repr b = String "b" (String squote (b ++ String squote EmptyString)).
Proof.
  intros Hb.
  assert (Hq : char_in squote b = false /\ repr_body squote b = b).
  { induction b as [|c b IH]; [split; reflexivity|].
    cbn [plain] in Hb. apply andb_true_iff in Hb as [Hc Hb].
    destruct (repr_byte_plain c Hc) as [Hr Hs]. destruct (IH Hb) as [IH1 IH2].
    split.
    - cbn [char_in]. rewrite Ascii.eqb_sym, Hs, IH1. reflexivity.
    - cbn [repr_body]. rewrite Hr, IH2. reflexivity. }
  destruct Hq as [Hq1 Hq2]. unfold bytes_repr. rewrite Hq1. cbn [andb].
  rewrite Hq2. reflexivity.
Qed.

(** On a plain value the test sees the value itself. *)
Lemma ghost_text_plain (b : bytes) :
  plain b = true -> ghost_text (bytes_repr b) = ghost_text b.
Proof.
  intros Hb. rewrite (repr_plain b Hb). unfold ghost_text.
  rewrite !contains_skip by (vm_compute; discriminate).
  rewrite !contains_app_char by reflexivity.
  reflexivity.
Qed.

Lemma filter_ghost_plain (values : list bytes) :
  List.Forall (fun v => plain v = true) values ->
  List.filter (fun v => ghost_text (bytes_repr v)) values = List.filter ghost_text values.
Proof.
  induction 1 as [|v rest Hv _ IH]; [reflexivity|].
  simpl. rewrite (ghost_text_plain v Hv), IH. reflexivity.
Qed.

(** C7.  When the tombstone search finds entries, the result is the number
    of values of [nscpentrywsi] on the first entry whose text, as [str]
    gives it, contains [replica ] and does not contain [ldap]; the other
    entries do not count.  For values of printable characters without
    quote or backslash this is the same test on the value itself.  The
    value [replica ldap://server1] is not counted and [replica foo-bar]
    is. *)
Theorem ghost_replicas_count :
  (forall (W : World) (st : State) (base_dn : str) dn attrs rest values,
      connected st ->
      self st !! "_base_dn" = Some (PStr base_dn) ->
      search_s W (ghost_query base_dn) = Found ((dn, attrs) :: rest) ->
      attrs !! "nscpentrywsi" = Some values ->
      _ghost_replicas W st =
        (searched st (ghost_query base_dn),
         Ret (PInt (Z.of_nat (List.length
                (List.filter (fun v => ghost_text (bytes_repr v)) values)))))
      /\ (List.Forall (fun v => plain v = true) values ->
          _ghost_replicas W st =
            (searched st (ghost_query base_dn),
             Ret (PInt (Z.of_nat (List.length (List.filter ghost_text values)))))))
  /\ ghost_text (bytes_repr "replica ldap://server1") = false
  /\ ghost_text (bytes_repr "replica foo-bar") = true.
Proof.
  split; [|split; vm_compute; reflexivity].
  intros W st base_dn dn attrs rest values Hconn Hbase Hsearch Hattr.
  assert (E : _ghost_replicas W st =
        (searched st (ghost_query base_dn),
         Ret (PInt (Z.of_nat (List.length
                (List.filter (fun v => ghost_text (bytes_repr v)) values)))))).
  { unfold _ghost_replicas, bindM. rewrite (get_attr _ _ _ Hbase).
    rewrite search_connected by assumption.
    cbv zeta. simpl py_str. fold (ghost_query base_dn). rewrite Hsearch, Hattr.
    rewrite ghost_loop_count. reflexivity. }
  split; [exact E|].
  intros Hplain. rewrite E, (filter_ghost_plain values Hplain). reflexivity.
Qed.

Lemma ghost_replicas_count_witness :
  let values := ["nsds50ruv: {replica 4 ldap://ipa01.example.com:389} 5f";
                 "nsds50ruv: {replica 7 foo-bar} 5a";
                 "objectClass: nsTombstone"] in
  let q := ghost_query "dc=example,dc=com" in
  _ghost_replicas
    (answering q (Found [("cn=replica", {[ "nscpentrywsi" := values ]});
                         ("cn=other", {[ "nscpentrywsi" := ["replica 9 stale"] ]})]))
    session
  = (searched session q, Ret (PInt 1)).
Proof.
  intros values q.
  refine (proj1 (proj1 ghost_replicas_count
    (answering q (Found [("cn=replica", {[ "nscpentrywsi" := values ]});
                         ("cn=other", {[ "nscpentrywsi" := ["replica 9 stale"] ]})]))
    session "dc=example,dc=com" "cn=replica" {[ "nscpentrywsi" := values ]}
    [("cn=other", {[ "nscpentrywsi" := ["replica 9 stale"] ]})] values _ _ _ _));
    try reflexivity.
  exists (PObj "LDAPObject"). split; [reflexivity|discriminate].
Defined.

(** *** Replication agreements *)

Lemma prefix_empty (s : str) : String.prefix EmptyString s = true.
Proof. destruct s; reflexivity. Qed.

Lemma append_empty (s : str) : s ++ EmptyString = s.
Proof.
  induction s as [|c s IH]; [reflexivity|].
  change (String c s ++ EmptyString) with (String c (s ++ EmptyString)).
  now rewrite IH.
Qed.

Lemma code_token_cons (c : ascii) (code : str) :
  code_token (String c code) = true ->
  c <> " "%char /\ c <> "("%char /\ c <> ")"%char /\ c <> "E"%char /\
  char_in c "()" = false /\ code_token code = true.
Proof.
  cbn [code_token char_in]. rewrite andb_true_iff, negb_true_iff, !orb_false_iff.
  intros [(H1 & H2 & H3 & H4 & _) Hrest].
  rewrite H2, H3. repeat split; try assumption;
    intros ->; rewrite Ascii.eqb_refl in *; discriminate.
Qed.

Lemma prefix_cons (a : ascii) (p : str) (c : ascii) (s : str) :
  String.prefix (String a p) (String c s) =
  if ascii_dec a c then String.prefix p s else false.
Proof. reflexivity. Qed.

(** No match of [Error ] starts inside a code. *)
Lemma replace_code (code s : str) :
  code_token code = true ->
  replace_from "Error " EmptyString 0 (code ++ s) =
  code ++ replace_from "Error " EmptyString 0 s.
Proof.
  induction code as [|c code IH]; intros H; [reflexivity|].
  apply code_token_cons in H as (_ & _ & _ & HE & _ & Hrest).
  change (String c code ++ s) with (String c (code ++ s)).
  cbn [replace_from]. rewrite prefix_cons.
  destruct (ascii_dec "E" c) as [E|_]; [congruence|].
  rewrite (IH Hrest). reflexivity.
Qed.

Lemma partition_code (code s : str) :
  code_token code = true ->
  partition_head " " (code ++ s) = code ++ partition_head " " s.
Proof.
  induction code as [|c code IH]; intros H; [reflexivity|].
  apply code_token_cons in H as (Hsp & _ & _ & _ & _ & Hrest).
  change (String c code ++ s) with (String c (code ++ s)).
  cbn [partition_head]. rewrite prefix_cons.
  destruct (ascii_dec " " c) as [E|_]; [congruence|].
  rewrite (IH Hrest). reflexivity.
Qed.

Lemma lstrip_code (code s : str) :
  code_token code = true -> code <> EmptyString ->
  lstrip "()" (code ++ s) = code ++ s.
Proof.
  destruct code as [|c code]; [congruence|]. intros H _.
  apply code_token_cons in H as (_ & _ & _ & _ & Hc & _).
  change (String c code ++ s) with (String c (code ++ s)).
  cbn [lstrip]. rewrite Hc. reflexivity.
Qed.

Lemma rstrip_code (code : str) :
  code_token code = true -> rstrip "()" code = code.
Proof.
  induction code as [|c code IH]; intros H; [reflexivity|].
  apply code_token_cons in H as (_ & _ & _ & _ & Hc & Hrest).
  cbn [rstrip]. rewrite (IH Hrest), Hc. destruct code; reflexivity.
Qed.

Lemma rstrip_code_paren (code : str) :
  code_token code = true -> rstrip "()" (code ++ ")") = code.
Proof.
  induction code as [|c code IH]; intros H; [reflexivity|].
  apply code_token_cons in H as (_ & _ & _ & _ & Hc & Hrest).
  change (String c code ++ ")") with (String c (code ++ ")")).
  cbn [rstrip]. rewrite (IH Hrest), Hc. destruct code; reflexivity.
Qed.

Lemma replace_error_paren (t : str) :
  replace_from "Error " EmptyString 0 ("Error (" ++ t) =
  String "(" (replace_from "Error " EmptyString 0 t).
Proof. reflexivity. Qed.

Lemma replace_paren_blank (t : str) :
  replace_from "Error " EmptyString 0 (") " ++ t) =
  String ")" (String " " (replace_from "Error " EmptyString 0 t)).
Proof. reflexivity. Qed.

Lemma replace_blank (t : str) :
  replace_from "Error " EmptyString 0 (" " ++ t) =
  String " " (replace_from "Error " EmptyString 0 t).
Proof. reflexivity. Qed.

Lemma partition_paren_blank (t : str) :
  partition_head " " (String ")" (String " " t)) = ")".
Proof. destruct t; reflexivity. Qed.

Lemma partition_blank (t : str) : partition_head " " (String " " t) = EmptyString.
Proof. destruct t; reflexivity. Qed.

(** The two forms of a status line: [Error (code) text] and
    [code text]. *)
Lemma normalize_error_form (code rest : str) :
  code_token code = true ->
  normalize_status ("Error (" ++ code ++ ") " ++ rest) = code.
Proof.
  intros H. unfold normalize_status, str_replace.
  rewrite replace_error_paren, (replace_code code _ H), replace_paren_blank.
  change (partition_head " " (String "(" ?t))
    with (String "(" (partition_head " " t)).
  rewrite (partition_code code _ H), partition_paren_blank.
  unfold str_strip.
  change (lstrip "()" (String "(" ?t)) with (lstrip "()" t).
  destruct code as [|c code]; [reflexivity|].
  rewrite lstrip_code by (assumption || discriminate).
  apply rstrip_code_paren. assumption.
Qed.

Lemma normalize_plain_form (code rest : str) :
  code_token code = true ->
  normalize_status (code ++ " " ++ rest) = code.
Proof.
  intros H. unfold normalize_status, str_replace.
  rewrite (replace_code code _ H), replace_blank.
  rewrite (partition_code code _ H), partition_blank, append_empty.
  unfold str_strip.
  destruct code as [|c code]; [reflexivity|].
  rewrite <- (append_empty (String c code)) at 1.
  rewrite lstrip_code by (assumption || discriminate).
  rewrite append_empty. apply rstrip_code. assumption.
Qed.

Lemma str_in_two (x a b : str) : str_in x [a; b] = true <-> x = a \/ x = b.
Proof.
  unfold str_in. simpl. rewrite !orb_true_iff, !String.eqb_eq.
  split; [intros [?|[?|?]]; auto; discriminate|intros [?|?]; auto].
Qed.

(** The loop leaves the object alone, appends one line per entry that
    carries both attributes, and keeps [healthy] only while every such
    entry is healthy. *)
Lemma agreements_loop_rows (st : State) (domain : str) :
  self st !! "_domain" = Some (PStr domain) ->
  forall (results : list entry) (rows : list (str * str)) (msg : list str)
         (healthy : bool),
    agreement_rows results = Ret rows ->
    agreements_loop results msg healthy st =
    (st, Ret ((msg ++ List.map (row_text domain) rows)%list,
              healthy && List.forallb (fun row => healthy_status (snd row)) rows)).
Proof.
  intros Hdom. induction results as [|[dn attrs] rest IH]; intros rows msg healthy Hrows;
    cbn [agreement_rows agreements_loop] in *.
  - injection Hrows as <-. cbn [List.map List.forallb].
    rewrite List.app_nil_r, andb_true_r. reflexivity.
  - destruct (attrs !! "nsDS5ReplicaHost") as [hosts|]; [|now apply IH].
    destruct (attrs !! "nsds5replicaLastUpdateStatus") as [statuses|]; [|now apply IH].
    destruct hosts as [|h hs]; [discriminate|].
    cbn [index0 rbind] in Hrows.
    destruct (bytes_decode h) as [host|] eqn:Hh; [|discriminate].
    destruct statuses as [|s ss]; [discriminate|].
    cbn [index0 rbind] in Hrows.
    destruct (bytes_decode s) as [status|] eqn:Hs; [|discriminate].
    cbn [rbind] in Hrows.
    destruct (agreement_rows rest) as [rows'|] eqn:Hr; [|discriminate].
    injection Hrows as <-.
    unfold bindM at 1. unfold lift at 1. cbn [index0].
    unfold bindM at 1. unfold lift at 1. rewrite safe_decode_bytes, Hh.
    unfold bindM at 1. rewrite (get_attr _ _ _ Hdom).
    unfold bindM at 1. unfold lift at 1. cbn [index0].
    unfold bindM at 1. unfold lift at 1. rewrite safe_decode_bytes, Hs.
    cbv zeta. rewrite (IH rows' _ _ eq_refl).
    cbn [List.map List.forallb py_str snd fst].
    rewrite <- List.app_assoc. cbn [List.app].
    unfold row_text at 2. unfold healthy_status at 2. cbn [fst snd].
    destruct (str_in (normalize_status status) ["0"; "18"]), healthy; reflexivity.
Qed.

Lemma replication_agreements_found (W : World) (st : State) (base_dn domain : str)
    (results : list entry) (rows : list (str * str)) :
  connected st ->
  self st !! "_base_dn" = Some (PStr base_dn) ->
  self st !! "_domain" = Some (PStr domain) ->
  search_s W (agreements_query base_dn) = Found results ->
  results <> [] ->
  agreement_rows results = Ret rows ->
  _replication_agreements W st =
  (searched st (agreements_query base_dn),
   Ret (PStr (agreements_text domain rows),
        PBool (List.forallb (fun row => healthy_status (snd row)) rows))).
Proof.
  intros Hconn Hbase Hdom Hsearch Hne Hrows.
  unfold _replication_agreements. cbv zeta.
  unfold bindM at 1. rewrite (get_attr _ _ _ Hbase).
  unfold bindM at 1. rewrite search_connected by assumption.
  cbv zeta. cbn [py_str]. fold (agreements_query base_dn). rewrite Hsearch.
  destruct results as [|e l]; [congruence|].
  unfold bindM at 1.
  rewrite (agreements_loop_rows (searched st (agreements_query base_dn)) domain Hdom
             (e :: l) rows [] true Hrows).
  cbn [List.app andb]. unfold agreements_text, ret.
  destruct rows; reflexivity.
Qed.

(** C8.  On a non-empty answer whose agreement entries decode, the health
    flag is [True] exactly when the normalized status of every entry that
    carries both attributes is [0] or [18], and the text lists these
    entries.  The status is normalized by deleting [Error ], keeping the
    text before the first blank and stripping parentheses: a status line
    [Error (code) text] or [code text] yields [code], so
    [Error (5) incremental update failed] yields [5], which is unhealthy.
    When the search finds nothing or fails, the result is the text
    [No replication agreements found] with the flag [False]. *)
Theorem replication_agreements_health :
  (forall (W : World) (st : State) (base_dn domain : str)
          (results : list entry) (rows : list (str * str)),
      connected st ->
      self st !! "_base_dn" = Some (PStr base_dn) ->
      self st !! "_domain" = Some (PStr domain) ->
      search_s W (agreements_query base_dn) = Found results ->
      results <> [] ->
      agreement_rows results = Ret rows ->
      exists healthy,
        _replication_agreements W st =
          (searched st (agreements_query base_dn),
           Ret (PStr (agreements_text domain rows), PBool healthy)) /\
        (healthy = true <->
         forall host status, List.In (host, status) rows ->
           normalize_status status = "0" \/ normalize_status status = "18"))
  /\ (forall (W : World) (st : State) (base_dn : str),
      connected st ->
      self st !! "_base_dn" = Some (PStr base_dn) ->
      search_s W (agreements_query base_dn) = Found [] \/
      search_s W (agreements_query base_dn) = Failed NO_SUCH_OBJECT \/
      search_s W (agreements_query base_dn) = Failed SERVER_DOWN ->
      _replication_agreements W st =
        (searched st (agreements_query base_dn),
         Ret (PStr "No replication agreements found", PBool false)))
  /\ (forall code rest : str,
      code_token code = true ->
      normalize_status ("Error (" ++ code ++ ") " ++ rest) = code /\
      normalize_status (code ++ " " ++ rest) = code)
  /\ normalize_status "Error (5) incremental update failed" = "5"
  /\ healthy_status "Error (5) incremental update failed" = false.
Proof.
  split; [|split; [|split; [|split; reflexivity]]].
  - intros W st base_dn domain results rows Hconn Hbase Hdom Hsearch Hne Hrows.
    eexists. split.
    + apply (replication_agreements_found W st base_dn domain results rows); assumption.
    + rewrite List.forallb_forall. split.
      * intros H host status Hin. apply str_in_two. apply (H (host, status) Hin).
      * intros H [host status] Hin. apply str_in_two. apply (H host status Hin).
  - intros W st base_dn Hconn Hbase Hsearch.
    unfold _replication_agreements. cbv zeta.
    unfold bindM at 1. rewrite (get_attr _ _ _ Hbase).
    unfold bindM at 1. rewrite search_connected by assumption.
    cbv zeta. cbn [py_str]. fold (agreements_query base_dn).
    destruct Hsearch as [-> | [-> | ->]]; reflexivity.
  - intros code rest H. split.
    + apply normalize_error_form. assumption.
    + apply normalize_plain_form. assumption.
Qed.

Lemma replication_agreements_health_witness :
  exists healthy,
    _replication_agreements Samples.lab session =
      (searched session (agreements_query "dc=example,dc=com"),
       Ret (PStr "ipa02 0", PBool healthy)) /\
    (healthy = true <->
     forall host status,
       List.In (host, status)
         [("ipa02.example.com",
           "Error (0) Replica acquired successfully: Incremental update succeeded")] ->
       normalize_status status = "0" \/ normalize_status status = "18").
Proof.
  refine (proj1 replication_agreements_health Samples.lab session
            "dc=example,dc=com" "example.com"
            [("cn=meToipa02",
              {[ "nsDS5ReplicaHost" := ["ipa02.example.com"];
                 "nsds5replicaLastUpdateStatus" :=
                   ["Error (0) Replica acquired successfully: Incremental update succeeded"] ]})]
            [("ipa02.example.com",
              "Error (0) Replica acquired successfully: Incremental update succeeded")]
            _ _ _ _ _ _); try reflexivity.
  - exists (PObj "LDAPObject"). split; [reflexivity|discriminate].
  - discriminate.
Defined.

Lemma agreement_rows_none (results : list entry) :
  (forall dn attrs, List.In (dn, attrs) results ->
     attrs !! "nsDS5ReplicaHost" = None \/
     attrs !! "nsds5replicaLastUpdateStatus" = None) ->
  agreement_rows results = Ret [].
Proof.
  induction results as [|[dn attrs] rest IH]; intros H; [reflexivity|].
  cbn [agreement_rows].
  destruct (H dn attrs (or_introl eq_refl)) as [-> | ->].
  - apply IH. intros dn' attrs' Hin. apply (H dn' attrs'). now right.
  - destruct (attrs !! "nsDS5ReplicaHost");
      apply IH; intros dn' attrs' Hin; apply (H dn' attrs'); now right.
Qed.

(** C10.  When the search returns entries and none of them carries both
    [nsDS5ReplicaHost] and [nsds5replicaLastUpdateStatus], the result is
    the text [No replication agreements found] with the flag [True]: the
    entries are skipped and the flag keeps its initial value. *)
Theorem replication_agreements_without_attributes :
  forall (W : World) (st : State) (base_dn domain : str) (results : list entry),
    connected st ->
    self st !! "_base_dn" = Some (PStr base_dn) ->
    self st !! "_domain" = Some (PStr domain) ->
    search_s W (agreements_query base_dn) = Found results ->
    results <> [] ->
    (forall dn attrs, List.In (dn, attrs) results ->
       attrs !! "nsDS5ReplicaHost" = None \/
       attrs !! "nsds5replicaLastUpdateStatus" = None) ->
    _replication_agreements W st =
      (searched st (agreements_query base_dn),
       Ret (PStr "No replication agreements found", PBool true)).
Proof.
  intros W st base_dn domain results Hconn Hbase Hdom Hsearch Hne Hnone.
  apply (replication_agreements_found W st base_dn domain results []); try assumption.
  apply agreement_rows_none. assumption.
Qed.

Lemma replication_agreements_without_attributes_witness :
  let q := agreements_query "dc=example,dc=com" in
  let results : list entry :=
    [("cn=meToipa02", {[ "nsDS5ReplicaHost" := ["ipa02.example.com"] ]});
     ("cn=meToipa03", {[ "nsds5replicaLastUpdateStatus" := ["Error (1) failed"] ]});
     ("cn=meToipa04", ∅)] in
  _replication_agreements (answering q (Found results)) session =
    (searched session q, Ret (PStr "No replication agreements found", PBool true)).
Proof.
  intros q results.
  refine (replication_agreements_without_attributes (answering q (Found results)) session
            "dc=example,dc=com" "example.com" results _ _ _ _ _ _); try reflexivity.
  - exists (PObj "LDAPObject"). split; [reflexivity|discriminate].
  - discriminate.
  - intros dn attrs H. simpl in H.
    destruct H as [E|[E|[E|[]]]]; injection E as <- <-.
    + right. reflexivity.
    + left. reflexivity.
    + left. reflexivity.
Defined.

(** *** The constructor *)

(** C5, as the code has it.  When the bind fails with [SERVER_DOWN],
    [NO_SUCH_OBJECT] or [INVALID_CREDENTIALS], the constructor returns an
    object on which every metric except [hbac] is [None], [hbac] is its
    initial [0] and the health flag is [False], and it issues no
    search. *)
Theorem connect_failure_leaves_defaults :
  forall (W : World) (host domain binddn bindpw : str) (e : error),
    bind W = Some e ->
    e = SERVER_DOWN \/ e = NO_SUCH_OBJECT \/ e = INVALID_CREDENTIALS ->
    exists o,
      FreeIPAServer.new W host domain binddn bindpw = Ret (o, []) /\
      o !! "hbac" = Some (PInt 0) /\
      (forall k, List.In k metric_keys -> k <> "hbac" -> o !! k = Some PNone) /\
      o !! "healthy_agreements" = Some (PBool false).
Proof.
  intros W host domain binddn bindpw e Hbind He.
  assert (Hconn : _get_conn W = ret PNone).
  { unfold _get_conn. rewrite Hbind. destruct He as [-> | [-> | ->]]; reflexivity. }
  unfold FreeIPAServer.new, FreeIPAServer.__init__. rewrite Hconn.
  cbv [init_attributes bindM set ret self trace truthy negb].
  eexists. split; [reflexivity|].
  split; [vm_compute; reflexivity|]. split; [|vm_compute; reflexivity].
  intros k Hk Hne. unfold metric_keys in Hk. simpl in Hk.
  repeat (destruct Hk as [<- | Hk]; [try (vm_compute; reflexivity); congruence|]).
  destruct Hk.
Qed.

Lemma connect_failure_leaves_defaults_witness :
  exists o,
    Samples.construct Samples.down = Ret (o, []) /\
    o !! "hbac" = Some (PInt 0) /\
    (forall k, List.In k metric_keys -> k <> "hbac" -> o !! k = Some PNone) /\
    o !! "healthy_agreements" = Some (PBool false).
Proof.
  apply (connect_failure_leaves_defaults Samples.down _ _ _ _ SERVER_DOWN).
  - reflexivity.
  - left. reflexivity.
Defined.

(** C5, as the design document words it, fails: after a failed connection
    the metric [hbac] is [0], not [None]. *)
Lemma connect_failure_hbac_not_unavailable :
  searches (Samples.construct Samples.down) = 0%nat /\
  List.In ("hbac", Some (PInt 0)) (report (Samples.construct Samples.down)) /\
  ~ (forall k v, List.In (k, v) (report (Samples.construct Samples.down)) ->
                 v = Some PNone).
Proof.
  assert (E : report (Samples.construct Samples.down) =
    [ ("users", Some PNone); ("susers", Some PNone); ("pusers", Some PNone);
      ("hosts", Some PNone); ("services", Some PNone); ("ugroups", Some PNone);
      ("hgroups", Some PNone); ("ngroups", Some PNone); ("hbac", Some (PInt 0));
      ("sudo", Some PNone); ("zones", Some PNone); ("certs", Some PNone);
      ("conflicts", Some PNone); ("ghosts", Some PNone); ("bind", Some PNone);
      ("msdcs", Some PNone); ("replicas", Some PNone) ])
    by (vm_compute; reflexivity).
  assert (Hin : List.In ("hbac", Some (PInt 0)) (report (Samples.construct Samples.down))).
  { rewrite E. do 8 right. left. reflexivity. }
  split; [vm_compute; reflexivity|]. split; [exact Hin|].
  intros H. specialize (H _ _ Hin). discriminate H.
Qed.

(** C4 on the code: a referral on the DNS-zones search.  The constructor
    stops at that search: [zones] and the six metrics after it stay
    [None] and the five searches after it are not issued, whereas the same
    server without the referral reports all of them.  A referral on the
    sudo search is caught where it happens: [sudo] is [0] and every other
    metric is as without the referral. *)
Theorem referral_on_zones_aborts_collection :
  report (Samples.construct (Samples.redirecting "cn=dns,dc=example,dc=com")) =
    [ ("users", Some (PStr "100")); ("susers", Some (PStr "0"));
      ("pusers", Some (PStr "0")); ("hosts", Some (PInt 3));
      ("services", Some (PInt 0)); ("ugroups", Some (PInt 0));
      ("hgroups", Some (PStr "5")); ("ngroups", Some (PInt 0));
      ("hbac", Some (PInt 2)); ("sudo", Some (PInt 4));
      ("zones", Some PNone); ("certs", Some PNone);
      ("conflicts", Some PNone); ("ghosts", Some PNone);
      ("bind", Some PNone); ("msdcs", Some PNone);
      ("replicas", Some PNone) ]
  /\ searches (Samples.construct (Samples.redirecting "cn=dns,dc=example,dc=com")) = 13%nat
  /\ report (Samples.construct Samples.lab) =
    [ ("users", Some (PStr "100")); ("susers", Some (PStr "0"));
      ("pusers", Some (PStr "0")); ("hosts", Some (PInt 3));
      ("services", Some (PInt 0)); ("ugroups", Some (PInt 0));
      ("hgroups", Some (PStr "5")); ("ngroups", Some (PInt 0));
      ("hbac", Some (PInt 2)); ("sudo", Some (PInt 4));
      ("zones", Some (PInt 1)); ("certs", Some (PInt 0));
      ("conflicts", Some (PInt 0)); ("ghosts", Some (PInt 0));
      ("bind", Some (PStr "ROOTDSE")); ("msdcs", Some (PBool false));
      ("replicas", Some (PStr "ipa02 0")) ]
  /\ searches (Samples.construct Samples.lab) = 18%nat
  /\ report (Samples.construct (Samples.redirecting "cn=sudorules,cn=sudo,dc=example,dc=com")) =
    [ ("users", Some (PStr "100")); ("susers", Some (PStr "0"));
      ("pusers", Some (PStr "0")); ("hosts", Some (PInt 3));
      ("services", Some (PInt 0)); ("ugroups", Some (PInt 0));
      ("hgroups", Some (PStr "5")); ("ngroups", Some (PInt 0));
      ("hbac", Some (PInt 2)); ("sudo", Some (PInt 0));
      ("zones", Some (PInt 1)); ("certs", Some (PInt 0));
      ("conflicts", Some (PInt 0)); ("ghosts", Some (PInt 0));
      ("bind", Some (PStr "ROOTDSE")); ("msdcs", Some (PBool false));
      ("replicas", Some (PStr "ipa02 0")) ].
Proof. repeat split; vm_compute; reflexivity. Qed.

End Collector.

(** ** The structured result *)

Section Structured.

Import ConsistencyChecker.

Lemma is_consistent_returns (self : Checker) (check : str) (rs : list PyVal) :
  servers self <> [] ->
  (forall h o, List.In (h, o) (servers self) -> is_server_object o) ->
  exists v, is_consistent self check rs = Ret v.
Proof.
  intros Hne Hobj.
  assert (Hattr : forall attr, List.In attr public_attributes ->
            exists first rest, getattr_all attr (servers self) = Ret (first :: rest)).
  { intros attr Hin.
    destruct (getattr_all_Ret attr (servers self)) as (vs & Hvs & Hlen & _).
    - intros h o Ho. apply (Hobj h o Ho). assumption.
    - destruct vs as [|first rest]; [|eauto].
      destruct (servers self); [congruence|discriminate]. }
  unfold is_consistent. destruct rs as [|r0 rs]; [eauto|].
  destruct (String.eqb check "conflicts").
  { destruct (Hattr "conflicts") as (first & rest & ->); [|simpl; eauto].
    unfold public_attributes, metric_keys. simpl. tauto. }
  destruct (String.eqb check "ghosts").
  { destruct (Hattr "ghosts") as (first & rest & ->); [|simpl; eauto].
    unfold public_attributes, metric_keys. simpl. tauto. }
  destruct (String.eqb check "replicas").
  { destruct (Hattr "healthy_agreements") as (first & rest & ->); [|simpl; eauto].
    unfold public_attributes. simpl. tauto. }
  simpl. eauto.
Qed.

Lemma values_loop_returns (hostnames : list str) (rs : list PyVal)
    (acc : gmap str PyVal) :
  List.length hostnames = List.length rs ->
  exists vals, values_loop hostnames rs acc = Ret vals.
Proof.
  revert rs acc. induction hostnames as [|h rest IH]; intros rs acc Hlen.
  - simpl. eauto.
  - destruct rs as [|r rs]; [discriminate|]. simpl. apply IH. simpl in Hlen. lia.
Qed.

Lemma servers_loop_returns (items : list (str * Object)) (acc : list (str * PyVal)) :
  (forall h o, List.In (h, o) items -> is_server_object o) ->
  exists infos, servers_loop items acc = Ret infos.
Proof.
  revert acc. induction items as [|[h o] rest IH]; intros acc Hobj.
  - simpl. eauto.
  - cbn [servers_loop]. unfold getattr.
    destruct (Hobj h o (or_introl eq_refl) "hostname_short") as [v ->].
    { left. reflexivity. }
    cbn [rbind]. apply IH. intros h' o' H'. apply (Hobj h' o'). now right.
Qed.

Lemma consistent_count_cons (d : CheckData) (l : list CheckData) :
  consistent_count (d :: l) =
  ((if truthy (is_consistent_flag d) then 1 else 0) + consistent_count l)%Z.
Proof.
  unfold consistent_count. cbn [List.filter].
  destruct (truthy (is_consistent_flag d)); cbn [List.length]; lia.
Qed.

Lemma inconsistent_count_cons (d : CheckData) (l : list CheckData) :
  inconsistent_count (d :: l) =
  ((if truthy (is_consistent_flag d) then 0 else 1) + inconsistent_count l)%Z.
Proof.
  unfold inconsistent_count. cbn [List.filter].
  destruct (truthy (is_consistent_flag d)); cbn [negb List.length]; lia.
Qed.

(** The loop over the checks: one entry per check, in order, each counted
    once, on the side of its verdict. *)
Lemma checks_loop_spec (self : Checker) :
  servers self <> [] ->
  (forall h o, List.In (h, o) (servers self) -> is_server_object o) ->
  forall (todo : list (str * str)) (data : StructuredData),
    (forall c, List.In c todo -> List.In (fst c) metric_keys) ->
    exists data' new,
      checks_loop self todo data = Ret data' /\
      total_checks (summary data') = total_checks (summary data) /\
      checks_data data' = (checks_data data ++ new)%list /\
      List.map name new = List.map fst todo /\
      consistent_checks (summary data') =
        (consistent_checks (summary data) + consistent_count new)%Z /\
      inconsistent_checks (summary data') =
        (inconsistent_checks (summary data) + inconsistent_count new)%Z /\
      List.Forall (faithful self) new.
Proof.
  intros Hne Hobj. induction todo as [|[check_name display] rest IH]; intros data Htodo.
  - exists data, []. cbn [checks_loop]. rewrite List.app_nil_r.
    unfold consistent_count, inconsistent_count. cbn.
    repeat split; try lia. constructor.
  - cbn [checks_loop].
    destruct (getattr_all_Ret check_name (servers self)) as (rs & Hrs & Hlen & _).
    { intros h o Ho. apply (Hobj h o Ho). right. right.
      apply (Htodo (check_name, display)). now left. }
    rewrite Hrs. cbn [rbind].
    destruct (is_consistent_returns self check_name rs Hne Hobj) as (v & Hv).
    rewrite Hv. cbn [rbind].
    destruct (values_loop_returns (List.map fst (servers self)) rs ∅) as (vals & Hvals).
    { rewrite List.length_map. congruence. }
    rewrite Hvals. cbn [rbind].
    match goal with |- context [checks_loop self rest ?d] =>
      destruct (IH d) as (data' & new & Hloop & Htot & Hdata & Hnames & Hc & Hi & Hf)
    end.
    { intros c Hc. apply Htodo. now right. }
    set (d := {| name := check_name; display_name := display;
                 state := if truthy v then "OK" else "FAIL";
                 is_consistent_flag := v; values := vals |}) in *.
    exists data', (d :: new). rewrite Hloop.
    cbn [summary checks_data] in Htot, Hdata, Hc, Hi.
    rewrite consistent_count_cons, inconsistent_count_cons.
    cbn [is_consistent_flag d].
    repeat split.
    + rewrite Htot. destruct (truthy v); reflexivity.
    + rewrite Hdata, <- List.app_assoc. reflexivity.
    + cbn [List.map]. rewrite Hnames. reflexivity.
    + rewrite Hc. subst d. cbn [is_consistent_flag].
      destruct (truthy v); cbn [consistent_checks]; lia.
    + rewrite Hi. subst d. cbn [is_consistent_flag].
      destruct (truthy v); cbn [inconsistent_checks]; lia.
    + constructor; [|assumption].
      exists rs. subst d. cbn [name is_consistent_flag state]. auto.
Qed.

Lemma server_objectb_ok (o : Object) :
  server_objectb o = true -> is_server_object o.
Proof.
  unfold server_objectb, is_server_object. rewrite List.forallb_forall.
  intros H k Hk. specialize (H k Hk). destruct (o !! k); [eauto|discriminate].
Qed.

Lemma counts_partition (l : list CheckData) :
  (consistent_count l + inconsistent_count l)%Z = Z.of_nat (List.length l).
Proof.
  induction l as [|d l IH]; [reflexivity|].
  rewrite consistent_count_cons, inconsistent_count_cons. cbn [List.length].
  destruct (truthy (is_consistent_flag d)); lia.
Qed.

(** C9.  For a non-empty collection of server objects the checker is
    built and [get_structured_data] returns; the summary's
    [total_checks] is 17, there is one entry per metric of the
    enumeration, in order, each entry carries the verdict of
    [is_consistent] on the servers' values, [consistent_checks] counts the
    entries with a true verdict and [inconsistent_checks] the others, so
    the two add up to [total_checks].  On three servers of which one
    reports one conflict the [conflicts] entry is [FAIL] and the summary
    is 17 checks, 16 consistent, 1 inconsistent.  An empty collection is
    refused by the checker's constructor. *)
Theorem structured_summary_counts :
  (forall servers : list (str * Object),
      servers <> [] ->
      (forall h o, List.In (h, o) servers -> is_server_object o) ->
      exists self data,
        ConsistencyChecker.__init__ servers = Ret self /\
        get_structured_data self = Ret data /\
        total_checks (summary data) = 17%Z /\
        (consistent_checks (summary data) + inconsistent_checks (summary data))%Z
          = total_checks (summary data) /\
        List.map name (checks_data data) = metric_keys /\
        consistent_checks (summary data) = consistent_count (checks_data data) /\
        inconsistent_checks (summary data) = inconsistent_count (checks_data data) /\
        List.Forall (faithful self) (checks_data data))
  /\ summary_of (get_structured_data (checker fleet)) =
       Some {| total_checks := 17; consistent_checks := 16; inconsistent_checks := 1 |}
  /\ verdicts (get_structured_data (checker fleet)) =
       [ ("users", "OK", PBool true); ("susers", "OK", PBool true);
         ("pusers", "OK", PBool true); ("hosts", "OK", PBool true);
         ("services", "OK", PBool true); ("ugroups", "OK", PBool true);
         ("hgroups", "OK", PBool true); ("ngroups", "OK", PBool true);
         ("hbac", "OK", PBool true); ("sudo", "OK", PBool true);
         ("zones", "OK", PBool true); ("certs", "OK", PBool true);
         ("conflicts", "FAIL", PBool false); ("ghosts", "OK", PBool true);
         ("bind", "OK", PBool true); ("msdcs", "OK", PBool true);
         ("replicas", "OK", PBool true) ]
  /\ ConsistencyChecker.__init__ [] = Raise ValueError.
Proof.
  split; [|repeat split; vm_compute; reflexivity].
  intros servers Hne Hobj.
  exists (checker servers).
  assert (Hinit : ConsistencyChecker.__init__ servers = Ret (checker servers)).
  { destruct servers; [congruence|reflexivity]. }
  unfold get_structured_data.
  destruct (servers_loop_returns servers [] Hobj) as (infos & Hinfos).
  cbn [ConsistencyChecker.servers checker checks]. rewrite Hinfos. cbn [rbind].
  match goal with |- context [checks_loop _ _ ?d] =>
    destruct (checks_loop_spec (checker servers) Hne Hobj default_checks d)
      as (data & new & Hloop & Htot & Hdata & Hnames & Hc & Hi & Hf)
  end.
  { intros c Hin. unfold metric_keys. apply List.in_map. assumption. }
  exists data. cbn [summary checks_data total_checks consistent_checks
                    inconsistent_checks List.app] in *.
  rewrite Hdata, Hc, Hi, Htot.
  assert (Hlen : List.length new = 17%nat).
  { rewrite <- (List.length_map name), Hnames. reflexivity. }
  repeat split; try assumption.
  pose proof (counts_partition new) as P. rewrite Hlen in P.
  change (Z.of_nat (List.length default_checks)) with 17%Z.
  change (Z.of_nat 17) with 17%Z in P. lia.
Qed.

Lemma structured_summary_counts_witness :
  exists self data,
    ConsistencyChecker.__init__ (reports_all [PInt 0; PInt 1; PInt 0]) = Ret self /\
    get_structured_data self = Ret data /\
    total_checks (summary data) = 17%Z /\
    (consistent_checks (summary data) + inconsistent_checks (summary data))%Z
      = total_checks (summary data) /\
    List.map name (checks_data data) = metric_keys /\
    consistent_checks (summary data) = consistent_count (checks_data data) /\
    inconsistent_checks (summary data) = inconsistent_count (checks_data data) /\
    List.Forall (faithful self) (checks_data data).
Proof.
  apply (proj1 structured_summary_counts).
  - discriminate.
  - assert (F : List.Forall (fun p => is_server_object (snd p))
                  (reports_all [PInt 0; PInt 1; PInt 0])).
    { repeat constructor; apply server_objectb_ok; vm_compute; reflexivity. }
    intros h o H. apply (proj1 (List.Forall_forall _ _) F (h, o) H).
Defined.

End Structured.

(** ** The objects that the constructor builds *)

Section Invariant.

Import LDAP FreeIPAServer.
Local Open Scope py_scope.

Lemma keeps_ret {A} (a : A) (Q : A -> Prop) : Q a -> keeps (ret a) Q.
Proof. intros H st Hst. split; [exact Hst|]. intros a' E. injection E as <-. exact H. Qed.

Lemma keeps_raise {A} (e : exn) (Q : A -> Prop) : keeps (raise e) Q.
Proof. intros st Hst. split; [exact Hst|]. intros a E. discriminate E. Qed.

Lemma keeps_lift {A} (r : result A) (Q : A -> Prop) :
  (forall a, r = Ret a -> Q a) -> keeps (lift r) Q.
Proof. intros H st Hst. split; [exact Hst|]. exact H. Qed.

Lemma keeps_get (name : str) : keeps (get name) any.
Proof.
  intros st Hst. unfold get. destruct (self st !! name); split; try exact Hst;
    intros; exact I.
Qed.

Lemma keeps_bind {A B} (c : M A) (k : A -> M B) (Q : A -> Prop) (R : B -> Prop) :
  keeps c Q -> (forall a, Q a -> keeps (k a) R) -> keeps (bindM c k) R.
Proof.
  intros Hc Hk st Hst. unfold bindM.
  destruct (Hc st Hst) as [H1 H2]. destruct (c st) as [st' [a|e]]; cbn [fst snd] in *.
  - apply (Hk a (H2 a eq_refl) st' H1).
  - split; [exact H1|]. intros a E. discriminate E.
Qed.

Lemma keeps_try {A} (c : M A) (h : exn -> M A) (Q : A -> Prop) :
  keeps c Q -> (forall e, keeps (h e) Q) -> keeps (try_except c h) Q.
Proof.
  intros Hc Hh st Hst. unfold try_except.
  destruct (Hc st Hst) as [H1 H2]. destruct (c st) as [st' [a|e]]; cbn [fst snd] in *.
  - split; [exact H1|exact H2].
  - apply (Hh e st' H1).
Qed.

Lemma well_formed_insert (o : Object) (name : str) (v : PyVal) :
  well_formed o -> typed_for name v -> well_formed (<[name := v]> o).
Proof.
  intros (Hshort & Hh & Hm) [Hty Hbool]. repeat split.
  - apply lookup_insert_is_Some.
    destruct (decide (name = "hostname_short")); [now left|right]. now split.
  - destruct (decide (name = "healthy_agreements")) as [->|Hne].
    + destruct (Hbool eq_refl) as [b ->]. exists b. now rewrite lookup_insert_eq.
    + rewrite lookup_insert_ne by assumption. exact Hh.
  - intros k Hk. destruct (decide (name = k)) as [->|Hne].
    + exists v. rewrite lookup_insert_eq. split; [reflexivity|]. now apply Hty.
    + rewrite lookup_insert_ne by assumption. now apply Hm.
Qed.

Lemma keeps_set (name : str) (v : PyVal) : typed_for name v -> keeps (set name v) any.
Proof.
  intros Hty st Hst. unfold set. cbn [fst snd self]. split; [|intros; exact I].
  now apply well_formed_insert.
Qed.

Lemma keeps_search (W : World) (base fltr : str) (attrs : option (list str))
    (scope : scope) : keeps (_search W base fltr attrs scope) any.
Proof.
  intros st Hst. split; [|intros; exact I].
  unfold _search, bindM, get, raise.
  destruct (self st !! "_conn") as [conn|]; [|exact Hst].
  destruct conn; cbn [self fst]; try exact Hst;
    (destruct (search_s W _) as [results|[| | | |desc]]; cbn [self fst]; try exact Hst;
     destruct (self st !! "_fqdn"); exact Hst).
Qed.

Ltac keeps_reads :=
  repeat (eapply keeps_bind; [first [apply keeps_get | apply keeps_search]|intros ? _]).

Ltac not_a_metric H :=
  exfalso; revert H; unfold metric_keys; simpl; intuition discriminate.

Ltac typed :=
  split;
  [ let Hin := fresh "Hin" in
    intros Hin;
    first [ right; match goal with H : of_type _ _ |- _ => exact H end
          | right; reflexivity
          | left; reflexivity
          | not_a_metric Hin ]
  | let E := fresh "E" in
    intros E;
    first [ discriminate E
          | match goal with H : exists b : bool, _ |- _ => exact H end
          | eexists; reflexivity ] ].

Lemma count_entries_int (results : option (list entry)) :
  of_type TInt (count_entries results).
Proof.
  unfold count_entries. destruct (no_results results); [reflexivity|].
  destruct results; reflexivity.
Qed.

Lemma subordinates_str (results : option (list entry)) (v : PyVal) :
  subordinates results = Ret v -> of_type TStr v.
Proof.
  unfold subordinates. destruct results as [[|[dn attrs] rest]|];
    try (intros E; injection E as <-; reflexivity).
  destruct (index0 _) as [t|]; [|discriminate]. cbn [rbind].
  destruct (_safe_decode t); [|discriminate]. cbn [rbind].
  intros E. injection E as <-. reflexivity.
Qed.

Lemma keeps_get_fqdn (W : World) : keeps (_get_fqdn W) any.
Proof.
  unfold _get_fqdn. eapply keeps_bind; [apply keeps_get|intros conn _].
  assert (H : keeps
    (results <- _search W "cn=config" "(objectClass=*)" (Some ["nsslapd-localhost"]) SCOPE_BASE ;;
     match results with
     | Some ((dn, attrs) :: _) =>
         fqdn_bytes <- lift (index0 (attrs_get attrs "nsslapd-localhost" [TextBytes "unknown"])) ;;
         lift (decode_or_unknown fqdn_bytes)
     | _ => ret "unknown"
     end) any).
  { keeps_reads. destruct a as [[|[dn attrs] rest]|]; try (apply keeps_ret; exact I).
    eapply keeps_bind; [apply keeps_lift; intros; exact I|intros ? _].
    apply keeps_lift; intros; exact I. }
  destruct conn; try exact H. apply keeps_ret. exact I.
Qed.

Lemma keeps_get_context (W : World) : keeps (_get_context W) any.
Proof.
  unfold _get_context. eapply keeps_bind; [apply keeps_get|intros conn _].
  assert (H : keeps
    (results <- _search W "cn=config" "(objectClass=*)"
                  (Some ["nsslapd-defaultnamingcontext"]) SCOPE_SUBTREE ;;
     match results with
     | Some ((dn, attrs) :: _) =>
         context_bytes <- lift (index0 (attrs_get attrs "nsslapd-defaultnamingcontext"
                                          [TextBytes "unknown"])) ;;
         lift (decode_or_unknown context_bytes)
     | _ => ret "unknown"
     end) any).
  { keeps_reads. destruct a as [[|[dn attrs] rest]|]; try (apply keeps_ret; exact I).
    eapply keeps_bind; [apply keeps_lift; intros; exact I|intros ? _].
    apply keeps_lift; intros; exact I. }
  destruct conn; try exact H. apply keeps_ret. exact I.
Qed.

Lemma keeps_count_users (W : World) (user_base : str) :
  keeps (_count_users W user_base) (of_type TStr).
Proof. unfold _count_users. keeps_reads. apply keeps_lift, subordinates_str. Qed.

Lemma keeps_count_hostgroups (W : World) : keeps (_count_hostgroups W) (of_type TStr).
Proof. unfold _count_hostgroups. keeps_reads. apply keeps_lift, subordinates_str. Qed.

Lemma keeps_count_groups (W : World) : keeps (_count_groups W) (of_type TInt).
Proof. unfold _count_groups. keeps_reads. apply keeps_ret, count_entries_int. Qed.

Lemma keeps_count_hosts (W : World) : keeps (_count_hosts W) (of_type TInt).
Proof. unfold _count_hosts. keeps_reads. apply keeps_ret, count_entries_int. Qed.

Lemma keeps_count_services (W : World) : keeps (_count_services W) (of_type TInt).
Proof. unfold _count_services. keeps_reads. apply keeps_ret, count_entries_int. Qed.

Lemma keeps_count_netgroups (W : World) : keeps (_count_netgroups W) (of_type TInt).
Proof. unfold _count_netgroups. keeps_reads. apply keeps_ret, count_entries_int. Qed.

Lemma keeps_count_hbac_rules (W : World) : keeps (_count_hbac_rules W) (of_type TInt).
Proof. unfold _count_hbac_rules. keeps_reads. apply keeps_ret, count_entries_int. Qed.

Lemma keeps_count_sudo_rules (W : World) : keeps (_count_sudo_rules W) (of_type TInt).
Proof. unfold _count_sudo_rules. keeps_reads. apply keeps_ret, count_entries_int. Qed.

Lemma keeps_count_dns_zones (W : World) : keeps (_count_dns_zones W) (of_type TInt).
Proof. unfold _count_dns_zones. keeps_reads. apply keeps_ret, count_entries_int. Qed.

Lemma keeps_count_certificates (W : World) : keeps (_count_certificates W) (of_type TInt).
Proof. unfold _count_certificates. keeps_reads. apply keeps_ret, count_entries_int. Qed.

Lemma keeps_count_ldap_conflicts (W : World) : keeps (_count_ldap_conflicts W) (of_type TInt).
Proof. unfold _count_ldap_conflicts. keeps_reads. apply keeps_ret, count_entries_int. Qed.

Lemma keeps_ghost_replicas (W : World) : keeps (_ghost_replicas W) (of_type TInt).
Proof.
  unfold _ghost_replicas. keeps_reads. cbv zeta.
  destruct a0 as [[|[dn attrs] rest]|]; try (apply keeps_ret; reflexivity).
  destruct (attrs !! "nscpentrywsi"); apply keeps_ret; reflexivity.
Qed.

Lemma keeps_anon_bind (W : World) : keeps (_anon_bind W) (of_type TStr).
Proof.
  unfold _anon_bind. keeps_reads.
  destruct a as [[|[dn attrs] rest]|]; try (apply keeps_ret; reflexivity).
  destruct (attrs !! "nsslapd-allow-anonymous-access"); [|apply keeps_ret; reflexivity].
  eapply keeps_bind; [apply keeps_lift; intros; exact I|intros ? _].
  eapply keeps_bind; [apply keeps_lift; intros; exact I|intros state _].
  destruct (str_in state ["on"; "off"; "rootdse"]); apply keeps_ret; reflexivity.
Qed.

Lemma keeps_adtrust_loop (answers : list str) : keeps (adtrust_loop answers) any.
Proof.
  induction answers as [|answer rest IH]; cbn [adtrust_loop].
  - apply keeps_ret. exact I.
  - keeps_reads. destruct (str_contains (py_str a) answer); [apply keeps_ret; exact I|exact IH].
Qed.

Lemma keeps_ms_adtrust (W : World) : keeps (_ms_adtrust W) (of_type TBool).
Proof.
  unfold _ms_adtrust. keeps_reads. cbv zeta.
  destruct (resolve_srv W _); [|apply keeps_ret; reflexivity].
  eapply keeps_bind; [apply keeps_adtrust_loop|intros ? _]. apply keeps_ret. reflexivity.
Qed.

Lemma keeps_agreements_loop (results : list entry) (msg : list str) (healthy : bool) :
  keeps (agreements_loop results msg healthy) any.
Proof.
  revert msg healthy. induction results as [|[dn attrs] rest IH]; intros msg healthy;
    cbn [agreements_loop].
  - apply keeps_ret. exact I.
  - destruct (attrs !! "nsDS5ReplicaHost"); [|apply IH].
    destruct (attrs !! "nsds5replicaLastUpdateStatus"); [|apply IH].
    eapply keeps_bind; [apply keeps_lift; intros; exact I|intros ? _].
    eapply keeps_bind; [apply keeps_lift; intros; exact I|intros ? _].
    eapply keeps_bind; [apply keeps_get|intros ? _].
    eapply keeps_bind; [apply keeps_lift; intros; exact I|intros ? _].
    eapply keeps_bind; [apply keeps_lift; intros; exact I|intros ? _].
    apply IH.
Qed.

Lemma keeps_replication_agreements (W : World) :
  keeps (_replication_agreements W)
        (fun p => of_type TStr (fst p) /\ exists b : bool, snd p = PBool b).
Proof.
  unfold _replication_agreements. cbv zeta. keeps_reads.
  destruct a0 as [[|e l]|]; try (apply keeps_ret; split; [reflexivity|eexists; reflexivity]).
  eapply keeps_bind; [apply keeps_agreements_loop|intros [msg healthy] _].
  apply keeps_ret. split; [reflexivity|eexists; reflexivity].
Qed.

Ltac keeps_assign lemma :=
  eapply keeps_bind; [apply lemma|intros ? ?];
  eapply keeps_bind; [apply keeps_set; typed|intros _ _].

Lemma keeps_collect (W : World) (domain : str) : keeps (collect W domain) any.
Proof.
  unfold collect.
  eapply keeps_bind; [apply keeps_get_fqdn|intros fqdn _].
  do 2 (eapply keeps_bind; [apply keeps_set; typed|intros _ _]).
  eapply keeps_bind; [apply keeps_get|intros d _].
  eapply keeps_bind; [apply keeps_set; typed|intros _ _].
  eapply keeps_bind; [apply keeps_get_context|intros context _].
  eapply keeps_bind; [apply keeps_get|intros base_dn _].
  destruct (negb (py_eq base_dn (PStr context))); [apply keeps_raise|].
  do 4 (eapply keeps_bind; [apply keeps_set; typed|intros _ _]).
  keeps_assign keeps_count_users.
  keeps_assign keeps_count_users.
  keeps_assign keeps_count_users.
  keeps_assign keeps_count_hosts.
  keeps_assign keeps_count_services.
  keeps_assign keeps_count_groups.
  keeps_assign keeps_count_hostgroups.
  keeps_assign keeps_count_netgroups.
  eapply keeps_bind.
  { apply keeps_try.
    - eapply keeps_bind; [apply keeps_count_hbac_rules|intros ? ?].
      apply keeps_set. typed.
    - intros e. apply keeps_set. typed. }
  intros _ _.
  eapply keeps_bind.
  { apply keeps_try.
    - eapply keeps_bind; [apply keeps_count_sudo_rules|intros ? ?].
      apply keeps_set. typed.
    - intros e. apply keeps_set. typed. }
  intros _ _.
  keeps_assign keeps_count_dns_zones.
  keeps_assign keeps_count_certificates.
  keeps_assign keeps_count_ldap_conflicts.
  keeps_assign keeps_ghost_replicas.
  keeps_assign keeps_anon_bind.
  keeps_assign keeps_ms_adtrust.
  eapply keeps_bind; [apply keeps_replication_agreements|intros p [Hp1 Hp2]].
  eapply keeps_bind; [apply keeps_set; typed|intros _ _].
  apply keeps_set. typed.
Qed.

Lemma keeps_get_conn (W : World) : keeps (_get_conn W) any.
Proof.
  unfold _get_conn. destruct (bind W) as [[]|];
    first [apply keeps_ret; exact I | apply keeps_raise].
Qed.

(** Every object that the constructor returns is well formed, whatever the
    directory answers. *)
Lemma new_well_formed (W : World) (host domain binddn bindpw : str)
    (o : Object) (t : list query) :
  FreeIPAServer.new W host domain binddn bindpw = Ret (o, t) -> well_formed o.
Proof.
  unfold FreeIPAServer.new, FreeIPAServer.__init__.
  unfold bindM at 1.
  assert (E0 : exists o0,
    init_attributes host domain binddn bindpw {| self := ∅; trace := [] |} =
      ({| self := o0; trace := [] |}, Ret tt) /\ well_formed o0).
  { eexists. split.
    - cbv [init_attributes bindM set ret self trace]. reflexivity.
    - split; [|split].
      + eexists. vm_compute. reflexivity.
      + eexists. vm_compute. reflexivity.
      + intros k Hk. unfold metric_keys in Hk. simpl in Hk.
        repeat (destruct Hk as [<- | Hk];
                [eexists; split; [vm_compute; reflexivity|];
                 first [left; reflexivity | right; reflexivity]|]).
        destruct Hk. }
  destruct E0 as (o0 & -> & S0).
  set (st0 := {| self := o0; trace := [] |}).
  change (well_formed (self st0)) in S0. clearbody st0.
  match goal with |- context [bindM (_get_conn W) ?k st0] =>
    assert (K : keeps (bindM (_get_conn W) k) any)
  end.
  { eapply keeps_bind; [apply keeps_get_conn|intros conn _].
    eapply keeps_bind; [apply keeps_set; typed|intros _ _].
    destruct (negb (truthy conn)); [apply keeps_ret; exact I|].
    apply keeps_try; [apply keeps_collect|].
    intros e. apply keeps_ret. exact I. }
  destruct (K _ S0) as [Hwf _]. revert Hwf.
  match goal with |- context [bindM (_get_conn W) ?k st0] =>
    destruct (bindM (_get_conn W) k st0) as [st' [u|e]]
  end; cbn [fst]; intros Hwf E; [|discriminate E].
  injection E as <- _. exact Hwf.
Qed.

(** What the rules of the evaluator assume holds of well-formed objects,
    hence of every object that the constructor returns. *)
Lemma well_formed_server_object (o : Object) : well_formed o -> is_server_object o.
Proof.
  intros (Hshort & [b Hb] & Hm) k [<-|[<-|Hk]].
  - exact Hshort.
  - rewrite Hb. eauto.
  - destruct (Hm k Hk) as (v & -> & _). eauto.
Qed.

Lemma optional_int_iff (v : PyVal) : optional TInt v <-> optional_int v.
Proof.
  unfold optional, optional_int. split; intros [->|H]; auto.
  - destruct v; try discriminate H. right. eauto.
  - destruct H as [n ->]. right. reflexivity.
Qed.

Lemma well_formed_counter (o : Object) (k : str) :
  well_formed o -> k = "conflicts" \/ k = "ghosts" ->
  exists v, o !! k = Some v /\ optional_int v.
Proof.
  intros (_ & _ & Hm) Hk.
  assert (Hin : List.In k metric_keys /\ metric_type k = TInt).
  { destruct Hk as [-> | ->]; (split; [unfold metric_keys; simpl; tauto|reflexivity]). }
  destruct Hin as [Hin Hty]. destruct (Hm k Hin) as (v & Hv & Hopt).
  exists v. split; [assumption|]. apply optional_int_iff. now rewrite <- Hty.
Qed.

Lemma well_formed_unmixed (servers : list (str * Object)) (k : str) (rs : list PyVal) :
  (forall h o, List.In (h, o) servers -> well_formed o) ->
  List.In k metric_keys ->
  ConsistencyChecker.getattr_all k servers = Ret rs ->
  unmixed rs.
Proof.
  intros Hwf Hk Hrs.
  destruct (getattr_all_Ret k servers) as (vs & Hvs & _ & Hin).
  { intros h o Ho. destruct (Hwf h o Ho) as (_ & _ & Hm).
    destruct (Hm k Hk) as (v & -> & _). eauto. }
  rewrite Hrs in Hvs. injection Hvs as <-.
  assert (Hopt : forall v, List.In v rs -> optional (metric_type k) v).
  { intros v Hv. apply Hin in Hv as (h & o & Ho & Hov).
    destruct (Hwf h o Ho) as (_ & _ & Hm). destruct (Hm k Hk) as (v' & Hv' & Hopt).
    congruence. }
  destruct (metric_type k) eqn:T.
  - left. intros v Hv. destruct (Hopt v Hv) as [->|E]; [discriminate|]. rewrite E. discriminate.
  - right. intros v Hv. destruct (Hopt v Hv) as [->|E]; [discriminate|]. rewrite E. discriminate.
  - left. intros v Hv. destruct (Hopt v Hv) as [->|E]; [discriminate|]. rewrite E. discriminate.
  - left. intros v Hv. destruct (Hopt v Hv) as [->|E]; [discriminate|]. rewrite E. discriminate.
  - left. intros v Hv. destruct (Hopt v Hv) as [->|E]; [discriminate|]. rewrite E. discriminate.
Qed.

End Invariant.

(** ** Further properties of the evaluator *)

Section MoreRules.

Import ConsistencyChecker.

(** The comprehension over the servers raises nothing but
    [AttributeError]. *)
Lemma getattr_all_outcome (attr : str) (servers : list (str * Object)) :
  (exists vs, getattr_all attr servers = Ret vs /\
              List.length vs = List.length servers) \/
  getattr_all attr servers = Raise AttributeError.
Proof.
  induction servers as [|[h o] rest IH]; [left; exists []; auto|].
  cbn [getattr_all]. unfold getattr. destruct (o !! attr) as [v|]; [|right; reflexivity].
  cbn [rbind]. destruct IH as [(vs & -> & Hlen) | ->]; [|right; reflexivity].
  left. exists (v :: vs). cbn [rbind List.length]. auto.
Qed.

Lemma getattr_all_missing (attr : str) (before after : list (str * Object))
    (h : str) (o : Object) :
  (forall p, List.In p before -> is_Some (snd p !! attr)) ->
  o !! attr = None ->
  getattr_all attr (before ++ (h, o) :: after) = Raise AttributeError.
Proof.
  intros Hbefore Ho. induction before as [|[h' o'] rest IH]; cbn [List.app getattr_all].
  - unfold getattr. rewrite Ho. reflexivity.
  - unfold getattr. destruct (Hbefore (h', o') (or_introl eq_refl)) as [v Hv].
    cbn [snd] in Hv. rewrite Hv. cbn [rbind].
    rewrite IH; [reflexivity|]. intros p Hp. apply Hbefore. now right.
Qed.

(** The special branches of [is_consistent], on a non-empty list. *)
Lemma is_consistent_special (self : Checker) (check : str) (r : PyVal) (rs : list PyVal) :
  special check ->
  is_consistent self check (r :: rs) =
  rbind (getattr_all (attribute_read check) (servers self)) (fun l =>
  rbind (index0 l) (fun first =>
  Ret (if String.eqb check "replicas"
       then (if all_like_first first l then first else PBool false)
       else PBool (all_like_first first l && py_eq first (PInt 0))))).
Proof.
  intros [-> | [-> | ->]]; reflexivity.
Qed.

(** X1.  For the three special checks and a non-empty list of results,
    [is_consistent] raises [IndexError] when the checker holds no server,
    and [AttributeError] when some server lacks the attribute that the
    check reads ([healthy_agreements] for [replicas], the counter
    otherwise).  On an empty list of results it returns [False] for every
    check without reading any server. *)
Theorem is_consistent_raises :
  (forall (self : Checker) (check : str) (rs : list PyVal),
      special check -> rs <> [] -> servers self = [] ->
      is_consistent self check rs = Raise IndexError)
  /\ (forall (self : Checker) (check : str) (rs : list PyVal)
             (before after : list (str * Object)) (h : str) (o : Object),
      special check -> rs <> [] ->
      servers self = (before ++ (h, o) :: after)%list ->
      (forall p, List.In p before -> is_Some (snd p !! attribute_read check)) ->
      o !! attribute_read check = None ->
      is_consistent self check rs = Raise AttributeError)
  /\ (forall (self : Checker) (check : str),
      is_consistent self check [] = Ret (PBool false)).
Proof.
  split; [|split].
  - intros self check [|r rs] Hs Hne Hempty; [congruence|].
    rewrite is_consistent_special by assumption. rewrite Hempty. reflexivity.
  - intros self check [|r rs] before after h o Hs Hne Hservers Hbefore Ho; [congruence|].
    rewrite is_consistent_special by assumption.
    rewrite Hservers, (getattr_all_missing _ _ _ _ _ Hbefore Ho). reflexivity.
  - reflexivity.
Qed.

Lemma is_consistent_raises_witness :
  is_consistent (checker (reports "conflicts" [PInt 0] ++ reports "ghosts" [PInt 0]))
                "conflicts" [PInt 0; PInt 0] = Raise AttributeError.
Proof.
  refine (proj1 (proj2 is_consistent_raises)
            (checker (reports "conflicts" [PInt 0] ++ reports "ghosts" [PInt 0]))
            "conflicts" [PInt 0; PInt 0]
            (reports "conflicts" [PInt 0]) [] "server1" {[ "ghosts" := PInt 0 ]}
            _ _ _ _ _).
  - left. reflexivity.
  - discriminate.
  - reflexivity.
  - intros p [<-|[]]. exists (PInt 0). reflexivity.
  - reflexivity.
Defined.

(** X2.  For the three special checks the values that are passed in play
    no part: any two non-empty lists of results get the same outcome, be
    it a verdict or an exception. *)
Theorem is_consistent_special_ignores_results :
  forall (self : Checker) (check : str) (rs1 rs2 : list PyVal),
    special check -> rs1 <> [] -> rs2 <> [] ->
    is_consistent self check rs1 = is_consistent self check rs2.
Proof.
  intros self check [|r1 rs1] [|r2 rs2] Hs H1 H2; try congruence.
  rewrite !is_consistent_special by assumption. reflexivity.
Qed.

Lemma is_consistent_special_ignores_results_witness :
  is_consistent (checker (reports "ghosts" [PInt 0; PInt 0])) "ghosts" [PInt 7] =
  is_consistent (checker (reports "ghosts" [PInt 0; PInt 0])) "ghosts" [PNone; PStr "x"].
Proof.
  apply is_consistent_special_ignores_results.
  - right. left. reflexivity.
  - discriminate.
  - discriminate.
Defined.

Lemma forallb_permutation {A} (f : A -> bool) (l l' : list A) :
  Permutation l l' -> List.forallb f l = List.forallb f l'.
Proof.
  induction 1 as [|x l l' _ IH|x y l|l l' l'' _ IH1 _ IH2]; cbn [List.forallb].
  - reflexivity.
  - now rewrite IH.
  - destruct (f x), (f y); reflexivity.
  - congruence.
Qed.

(** The test of the two zero rules says that every counter equals 0. *)
Lemma zero_test_forallb (first : PyVal) (rest : list PyVal) :
  all_like_first first (first :: rest) && py_eq first (PInt 0) =
  List.forallb (fun e => py_eq e (PInt 0)) (first :: rest).
Proof.
  apply eq_true_iff_eq.
  rewrite andb_true_iff, all_like_first_spec, List.forallb_forall. split.
  - intros [Hall H0] e He. apply py_eq_trans with first; auto.
  - intros H. assert (H0 : py_eq first (PInt 0) = true) by (apply H; now left).
    split; [|exact H0]. intros e He. apply py_eq_trans with (PInt 0); [now apply H|].
    now rewrite py_eq_sym.
Qed.

(** The test of the replication rule, on boolean flags, says that every
    flag is [True]. *)
Lemma replicas_test_forallb (first : PyVal) (rest : list PyVal) :
  (forall e, List.In e (first :: rest) -> exists b : bool, e = PBool b) ->
  (if all_like_first first (first :: rest) then first else PBool false) =
  PBool (List.forallb (fun e => py_eq e (PBool true)) (first :: rest)).
Proof.
  intros Hbool. destruct (Hbool first (or_introl eq_refl)) as [b0 ->].
  destruct (all_like_first (PBool b0) (PBool b0 :: rest)) eqn:A.
  - f_equal. apply eq_true_iff_eq. rewrite List.forallb_forall.
    rewrite all_like_first_spec in A. split.
    + intros -> e He. now apply A.
    + intros H. specialize (H (PBool b0) (or_introl eq_refl)).
      simpl in H. now apply Bool.eqb_prop in H.
  - f_equal. symmetry. apply not_true_iff_false. intros H.
    rewrite List.forallb_forall in H.
    apply not_true_iff_false in A. apply A. apply all_like_first_spec.
    intros e He. apply py_eq_trans with (PBool true); [now apply H|].
    rewrite py_eq_sym. apply H. now left.
Qed.

Lemma getattr_all_permutation (attr : str) (s1 s2 : list (str * Object)) :
  Permutation s1 s2 ->
  (exists v1 v2, getattr_all attr s1 = Ret v1 /\ getattr_all attr s2 = Ret v2 /\
                 Permutation v1 v2) \/
  (getattr_all attr s1 = Raise AttributeError /\
   getattr_all attr s2 = Raise AttributeError).
Proof.
  induction 1 as [|[h o] l l' _ IH|[h1 o1] [h2 o2] l|l l' l'' _ IH1 _ IH2].
  - left. exists [], []. auto.
  - cbn [getattr_all]. unfold getattr. destruct (o !! attr) as [v|]; [|right; auto].
    cbn [rbind]. destruct IH as [(v1 & v2 & -> & -> & Hp) | [-> ->]]; [|right; auto].
    left. exists (v :: v1), (v :: v2). cbn [rbind]. auto.
  - cbn [getattr_all]. unfold getattr.
    destruct (getattr_all_outcome attr l) as [(vs & E & _) | E]; rewrite E;
      destruct (o1 !! attr) as [a|], (o2 !! attr) as [b|]; cbn [rbind];
      try (right; split; reflexivity).
    left. exists (b :: a :: vs), (a :: b :: vs). repeat split. apply perm_swap.
  - destruct IH1 as [(v1 & v2 & E1 & E2 & Hp) | [E1 E2]],
             IH2 as [(w1 & w2 & F1 & F2 & Hq) | [F1 F2]]; try congruence.
    + left. exists v1, w2. repeat split; try assumption.
      assert (v2 = w1) by congruence. subst. now apply perm_trans with w1.
    + right. auto.
Qed.

(** X3.  The verdict does not depend on the order of the servers.  Outside
    the three special checks a permutation of the list of results leaves
    the verdict as it is; for [conflicts] and [ghosts] a permutation of
    the servers does, and so it does for [replicas] when the health flags
    are booleans. *)
Theorem is_consistent_order_insensitive :
  (forall (self : Checker) (check : str) (rs rs' : list PyVal),
      ~ special check -> Permutation rs rs' ->
      is_consistent self check rs = is_consistent self check rs')
  /\ (forall (self1 self2 : Checker) (check : str) (rs1 rs2 : list PyVal),
      check = "conflicts" \/ check = "ghosts" ->
      rs1 <> [] -> rs2 <> [] ->
      Permutation (servers self1) (servers self2) ->
      is_consistent self1 check rs1 = is_consistent self2 check rs2)
  /\ (forall (self1 self2 : Checker) (rs1 rs2 : list PyVal),
      rs1 <> [] -> rs2 <> [] ->
      Permutation (servers self1) (servers self2) ->
      (forall h o, List.In (h, o) (servers self1) ->
                   exists b : bool, o !! "healthy_agreements" = Some (PBool b)) ->
      is_consistent self1 "replicas" rs1 = is_consistent self2 "replicas" rs2).
Proof.
  split; [|split].
  - intros self check rs rs' Hns Hperm.
    assert (H1 : check <> "conflicts") by (intros ->; apply Hns; left; reflexivity).
    assert (H2 : check <> "ghosts") by (intros ->; apply Hns; right; left; reflexivity).
    assert (H3 : check <> "replicas") by (intros ->; apply Hns; right; right; reflexivity).
    rewrite !is_consistent_default by assumption.
    destruct rs as [|r rs], rs' as [|r' rs'].
    + reflexivity.
    + apply Permutation_nil in Hperm. discriminate.
    + apply Permutation_sym, Permutation_nil in Hperm. discriminate.
    + do 2 f_equal. apply eq_true_iff_eq.
      rewrite (default_test r rs), (default_test r' rs'). cbv zeta.
      assert (Hin : forall v, List.In v (r :: rs) <-> List.In v (r' :: rs')).
      { intros v. split; apply Permutation_in; [assumption|now apply Permutation_sym]. }
      split; intros [Hall Hnone]; split.
      * intros v w Hv Hw. apply Hall; now apply Hin.
      * intros Hn. apply Hnone. now apply Hin.
      * intros v w Hv Hw. apply Hall; now apply Hin.
      * intros Hn. apply Hnone. now apply Hin.
  - intros self1 self2 check [|r1 rs1] [|r2 rs2] Hc H1 H2 Hperm; try congruence.
    assert (Hs : special check) by (destruct Hc; [left|right; left]; assumption).
    assert (Hr : String.eqb check "replicas" = false) by (destruct Hc; subst; reflexivity).
    rewrite !is_consistent_special by assumption. rewrite Hr.
    destruct (getattr_all_permutation (attribute_read check) _ _ Hperm)
      as [(v1 & v2 & -> & -> & Hp) | [-> ->]]; [|reflexivity].
    destruct v1 as [|a v1], v2 as [|b v2].
    + reflexivity.
    + apply Permutation_nil in Hp. discriminate.
    + apply Permutation_sym, Permutation_nil in Hp. discriminate.
    + cbn [rbind index0]. rewrite !zero_test_forallb.
      now rewrite (forallb_permutation _ _ _ Hp).
  - intros self1 self2 [|r1 rs1] [|r2 rs2] H1 H2 Hperm Hbool; try congruence.
    rewrite !is_consistent_special by (right; right; reflexivity).
    change (String.eqb "replicas" "replicas") with true. cbv iota.
    change (attribute_read "replicas") with "healthy_agreements".
    assert (Hvals : forall vs v, getattr_all "healthy_agreements" (servers self1) = Ret vs ->
                                 List.In v vs -> exists b : bool, v = PBool b).
    { intros vs v Hvs Hv.
      destruct (getattr_all_Ret "healthy_agreements" (servers self1)) as (vs' & E & _ & Hin).
      - intros h o Ho. destruct (Hbool h o Ho) as [b ->]. eauto.
      - rewrite Hvs in E. injection E as <-. apply Hin in Hv as (h & o & Ho & Hov).
        destruct (Hbool h o Ho) as [b Hb]. exists b. congruence. }
    destruct (getattr_all_permutation "healthy_agreements" _ _ Hperm)
      as [(v1 & v2 & E1 & E2 & Hp) | [-> ->]]; [|reflexivity].
    rewrite E1, E2. destruct v1 as [|a v1], v2 as [|b v2].
    + reflexivity.
    + apply Permutation_nil in Hp. discriminate.
    + apply Permutation_sym, Permutation_nil in Hp. discriminate.
    + cbn [rbind index0]. rewrite !replicas_test_forallb.
      * now rewrite (forallb_permutation _ _ _ Hp).
      * intros e He. apply (Hvals _ _ E1). apply Permutation_in with (b :: v2);
          [now apply Permutation_sym|assumption].
      * intros e He. now apply (Hvals _ _ E1).
Qed.

Lemma is_consistent_order_insensitive_witness :
  is_consistent (checker (reports "users" [PStr "7"])) "users" [PStr "7"; PStr "8"] =
  is_consistent (checker (reports "users" [PStr "7"])) "users" [PStr "8"; PStr "7"].
Proof.
  apply (proj1 is_consistent_order_insensitive).
  - intros [H|[H|H]]; discriminate H.
  - apply perm_swap.
Defined.

(** *** What the structured result holds *)

Lemma values_loop_spec (hostnames : list str) :
  forall (rs : list PyVal) (acc : gmap str PyVal),
    List.length hostnames = List.length rs ->
    List.NoDup hostnames ->
    exists m,
      values_loop hostnames rs acc = Ret m /\
      (forall h v, List.In (h, v) (List.combine hostnames rs) ->
                   m !! h = Some (serializable v)) /\
      (forall h, ~ List.In h hostnames -> m !! h = acc !! h).
Proof.
  induction hostnames as [|h0 hs IH]; intros rs acc Hlen Hnd.
  - exists acc. cbn. repeat split; tauto.
  - destruct rs as [|r0 rs]; [discriminate|].
    inversion Hnd as [|? ? Hnotin Hnd']; subst.
    destruct (IH rs (<[h0 := serializable r0]> acc)) as (m & Hm & Hin & Hout);
      [simpl in Hlen; lia|assumption|].
    exists m. cbn [values_loop index0 rbind List.tl]. split; [exact Hm|]. split.
    + intros h v [E|Hc].
      * injection E as <- <-. rewrite (Hout h0 Hnotin). apply lookup_insert_eq.
      * now apply Hin.
    + intros h Hh. rewrite Hout by (intros Hc; apply Hh; now right).
      apply lookup_insert_ne. intros ->. apply Hh. now left.
Qed.

Lemma getattr_all_combine (attr : str) (servers : list (str * Object))
    (rs : list PyVal) :
  getattr_all attr servers = Ret rs ->
  List.length rs = List.length servers /\
  forall h o, List.In (h, o) servers ->
    exists v, o !! attr = Some v /\
              List.In (h, v) (List.combine (List.map fst servers) rs).
Proof.
  revert rs. induction servers as [|[h0 o0] rest IH]; intros rs Hrs.
  - injection Hrs as <-. split; [reflexivity|]. intros h o [].
  - cbn [getattr_all] in Hrs. unfold getattr in Hrs.
    destruct (o0 !! attr) as [v0|] eqn:E0; [|discriminate]. cbn [rbind] in Hrs.
    destruct (getattr_all attr rest) as [vs|] eqn:Er; [|discriminate].
    injection Hrs as <-. destruct (IH vs eq_refl) as [Hlen Hin].
    split; [cbn [List.length]; congruence|].
    intros h o [E|Ho].
    + injection E as <- <-. exists v0. split; [assumption|]. now left.
    + destruct (Hin h o Ho) as (v & Hv & Hc). exists v. split; [assumption|]. now right.
Qed.

Lemma servers_loop_spec (items : list (str * Object)) (acc : list (str * PyVal)) :
  (forall h o, List.In (h, o) items -> is_server_object o) ->
  servers_loop items acc =
  Ret (acc ++ List.map (fun p => (fst p, short_name (snd p))) items)%list.
Proof.
  revert acc. induction items as [|[h o] rest IH]; intros acc Hobj.
  - cbn. now rewrite List.app_nil_r.
  - cbn [servers_loop List.map fst snd]. unfold getattr, short_name.
    destruct (Hobj h o (or_introl eq_refl) "hostname_short") as [v ->]; [now left|].
    cbn [rbind]. rewrite IH by (intros h' o' H'; apply (Hobj h' o'); now right).
    now rewrite <- List.app_assoc.
Qed.

(** The loop over the checks touches nothing but ["checks"] and the two
    counters, and every entry that it appends carries the servers'
    values. *)
Lemma checks_loop_values (self : Checker) (todo : list (str * str)) :
  forall data data',
    checks_loop self todo data = Ret data' ->
    timestamp data' = timestamp data /\
    domain data' = domain data /\
    servers_info data' = servers_info data /\
    exists new,
      checks_data data' = (checks_data data ++ new)%list /\
      List.map display_name new = List.map snd todo /\
      List.Forall (carries_values self) new.
Proof.
  induction todo as [|[check_name display] rest IH]; intros data data' H.
  - injection H as <-. repeat split. exists []. rewrite List.app_nil_r. auto.
  - cbn [checks_loop] in H.
    destruct (getattr_all check_name (servers self)) as [rs|] eqn:Ers; [|discriminate].
    cbn [rbind] in H.
    destruct (is_consistent self check_name rs) as [v|]; [|discriminate].
    cbn [rbind] in H.
    destruct (values_loop (List.map fst (servers self)) rs ∅) as [vals|] eqn:Ev;
      [|discriminate].
    cbn [rbind] in H.
    apply IH in H as (Ht & Hd & Hs & new & Hdata & Hnames & Hf).
    cbn [timestamp domain servers_info checks_data] in *.
    repeat split; try assumption.
    eexists (_ :: new). split; [|split].
    + rewrite Hdata, <- List.app_assoc. reflexivity.
    + cbn [List.map display_name snd]. now rewrite Hnames.
    + constructor; [|assumption]. exists rs. cbn [name values]. auto.
Qed.

(** X4.  For a non-empty collection of server objects under distinct host
    names, the structured result leaves the time stamp and the domain
    empty, lists every server with its short name in the order of the
    collection, has the display names of the 17 checks in order, and in
    every check maps each host name to that server's value (an object
    that is not a string, number, boolean or [None] replaced by its
    text) and holds no other key. *)
Theorem structured_data_contents :
  forall servers : list (str * Object),
    servers <> [] ->
    (forall h o, List.In (h, o) servers -> is_server_object o) ->
    List.NoDup (List.map fst servers) ->
    exists data,
      get_structured_data (checker servers) = Ret data /\
      timestamp data = PNone /\
      domain data = PNone /\
      servers_info data = List.map (fun p => (fst p, short_name (snd p))) servers /\
      List.map display_name (checks_data data) = List.map snd default_checks /\
      forall d, List.In d (checks_data data) ->
        (forall h o, List.In (h, o) servers ->
           exists v, o !! name d = Some v /\ values d !! h = Some (serializable v)) /\
        (forall h, ~ List.In h (List.map fst servers) -> values d !! h = None).
Proof.
  intros servers Hne Hobj Hnd.
  unfold get_structured_data. cbn [ConsistencyChecker.servers checker checks].
  rewrite (servers_loop_spec servers [] Hobj). cbn [rbind List.app].
  match goal with |- context [checks_loop ?c ?t ?d] =>
    destruct (checks_loop_spec c Hne Hobj t d) as (data & new0 & Hloop & _);
    [intros c0 Hin; unfold metric_keys; now apply List.in_map|]
  end.
  exists data. split; [exact Hloop|].
  apply checks_loop_values in Hloop as (Ht & Hd & Hs & new & Hdata & Hnames & Hf).
  cbn [timestamp domain servers_info checks_data List.app] in *.
  repeat split; try assumption.
  - congruence.
  - rewrite Hdata in H. rewrite List.Forall_forall in Hf.
    destruct (Hf d H) as (rs & Hrs & Hvals).
    cbn [ConsistencyChecker.servers checker] in *.
    destruct (getattr_all_combine _ _ _ Hrs) as [Hlen Hin].
    destruct (values_loop_spec (List.map fst servers) rs ∅) as (m & Hm & Hmin & _);
      [rewrite List.length_map; congruence|assumption|].
    rewrite Hvals in Hm. injection Hm as <-.
    intros h o Ho. destruct (Hin h o Ho) as (v & Hv & Hc).
    exists v. split; [assumption|]. now apply Hmin.
  - rewrite Hdata in H. rewrite List.Forall_forall in Hf.
    destruct (Hf d H) as (rs & Hrs & Hvals).
    cbn [ConsistencyChecker.servers checker] in *.
    destruct (getattr_all_combine _ _ _ Hrs) as [Hlen Hin].
    destruct (values_loop_spec (List.map fst servers) rs ∅) as (m & Hm & _ & Hout);
      [rewrite List.length_map; congruence|assumption|].
    rewrite Hvals in Hm. injection Hm as <-.
    intros h Hh. rewrite (Hout h Hh). apply lookup_empty.
Qed.

Lemma structured_data_contents_witness :
  exists data,
    get_structured_data (checker (reports_all [PInt 0; PInt 1])) = Ret data /\
    timestamp data = PNone /\
    domain data = PNone /\
    servers_info data =
      List.map (fun p => (fst p, short_name (snd p))) (reports_all [PInt 0; PInt 1]) /\
    List.map display_name (checks_data data) = List.map snd default_checks /\
    forall d, List.In d (checks_data data) ->
      (forall h o, List.In (h, o) (reports_all [PInt 0; PInt 1]) ->
         exists v, o !! name d = Some v /\ values d !! h = Some (serializable v)) /\
      (forall h, ~ List.In h (List.map fst (reports_all [PInt 0; PInt 1])) ->
         values d !! h = None).
Proof.
  apply structured_data_contents.
  - discriminate.
  - assert (F : List.Forall (fun p => is_server_object (snd p))
                  (reports_all [PInt 0; PInt 1])).
    { repeat constructor; apply server_objectb_ok; vm_compute; reflexivity. }
    intros h o H. apply (proj1 (List.Forall_forall _ _) F (h, o) H).
  - change (List.NoDup ["server1"; "server2"]).
    repeat constructor; simpl; intuition discriminate.
Defined.

End MoreRules.

(** ** Further properties of the collector *)

Section MoreCollector.

Import LDAP FreeIPAServer.
Local Open Scope py_scope.

(** X5.  [_search] never assigns an attribute.  On an object whose
    connection is [None] it issues no search and returns [False]; on a
    connected object it issues exactly one search, whatever the answer.
    An empty answer is returned as the empty list, a missing base or a
    server that went down as [False].  A referral raises
    [LDAPReferralError] when the object knows its [_fqdn] and
    [AttributeError] when it does not yet. *)
Theorem search_frame :
  forall (W : World) (base fltr : str) (attrs : option (list str)) (scope : scope)
         (st : State),
    let q := Query base scope fltr attrs in
    let out := _search W base fltr attrs scope st in
    self (fst out) = self st
    /\ (self st !! "_conn" = Some PNone -> out = (st, Ret None))
    /\ (connected st ->
        trace (fst out) = (trace st ++ [q])%list
        /\ (forall results, search_s W q = Found results -> snd out = Ret (Some results))
        /\ (search_s W q = Failed NO_SUCH_OBJECT \/ search_s W q = Failed SERVER_DOWN ->
            snd out = Ret None)
        /\ (search_s W q = Failed REFERRAL ->
            (is_Some (self st !! "_fqdn") -> snd out = Raise LDAPReferralError)
            /\ (self st !! "_fqdn" = None -> snd out = Raise AttributeError))).
Proof.
  intros W base fltr attrs scope st q out. subst out. split; [|split].
  - unfold _search, bindM, get, raise.
    destruct (self st !! "_conn") as [conn|]; [|reflexivity].
    destruct conn; cbn [self fst]; try reflexivity;
      (destruct (search_s W _) as [results|[| | | |desc]]; cbn [self fst]; try reflexivity;
       destruct (self st !! "_fqdn"); reflexivity).
  - intros Hconn. unfold _search, bindM, get. rewrite Hconn. reflexivity.
  - intros Hconn. rewrite search_connected by assumption. cbv zeta. fold q.
    split; [|split; [|split]].
    + unfold bindM, get, raise.
      destruct (search_s W q) as [results|[| | | |desc]]; cbn [fst trace searched];
        try reflexivity.
      unfold searched; cbn [self]. destruct (self st !! "_fqdn"); reflexivity.
    + intros results ->. reflexivity.
    + intros [-> | ->]; reflexivity.
    + intros ->. unfold bindM, get, raise. cbn [searched self]. split.
      * intros [v ->]. reflexivity.
      * intros ->. reflexivity.
Qed.

Lemma search_frame_witness :
  let st := {| self := {[ "_conn" := PObj "LDAPObject" ]}; trace := [] |} in
  let out := _search (Samples.redirecting "cn=config") "cn=config" "(objectClass=*)"
               (Some ["nsslapd-localhost"]) SCOPE_BASE st in
  snd out = Raise AttributeError.
Proof.
  intros st out.
  refine (proj2 (proj2 (proj2 (proj2 (proj2 (proj2
    (search_frame (Samples.redirecting "cn=config") "cn=config" "(objectClass=*)"
       (Some ["nsslapd-localhost"]) SCOPE_BASE st)) _))) _) _).
  - exists (PObj "LDAPObject"). split; [reflexivity|discriminate].
  - reflexivity.
  - reflexivity.
Defined.

(** *** The constructor as a whole *)

Lemma init_attributes_returns (host domain binddn bindpw : str) (st : State) :
  snd (init_attributes host domain binddn bindpw st) = Ret tt.
Proof. cbv [init_attributes bindM set ret self trace]. reflexivity. Qed.

Lemma try_except_returns (c : M unit) (st : State) :
  snd (try_except c (fun _ => ret tt) st) = Ret tt.
Proof. unfold try_except. destruct (c st) as [st' [[]|e]]; reflexivity. Qed.

Lemma new_after_init (W : World) (host domain binddn bindpw : str) :
  exists st0,
    FreeIPAServer.new W host domain binddn bindpw =
      match (conn <- _get_conn W ;;
             set "_conn" conn ;;
             if negb (truthy conn) then ret tt
             else try_except (collect W domain) (fun e => ret tt)) st0 with
      | (st, Ret _) => Ret (self st, trace st)
      | (_, Raise e) => Raise e
      end.
Proof.
  unfold FreeIPAServer.new, FreeIPAServer.__init__.
  unfold bindM at 1.
  pose proof (init_attributes_returns host domain binddn bindpw
                {| self := ∅; trace := [] |}) as E0.
  destruct (init_attributes host domain binddn bindpw {| self := ∅; trace := [] |})
    as [st0 r0].
  cbn [snd] in E0. subst r0. exists st0. reflexivity.
Qed.

Lemma new_outcome (W : World) (host domain binddn bindpw : str) :
  match bind W with
  | Some (OTHER desc) =>
      FreeIPAServer.new W host domain binddn bindpw = Raise (LDAPError desc)
  | Some REFERRAL =>
      FreeIPAServer.new W host domain binddn bindpw = Raise (LDAPError "REFERRAL")
  | _ => exists o t, FreeIPAServer.new W host domain binddn bindpw = Ret (o, t)
  end.
Proof.
  destruct (new_after_init W host domain binddn bindpw) as [st0 ->].
  unfold bindM at 1, _get_conn.
  destruct (bind W) as [e|].
  - destruct e as [| | | |desc].
    + unfold ret at 1. unfold bindM at 1, set at 1. cbn [truthy negb].
      unfold ret. eexists; eexists; reflexivity.
    + unfold ret at 1. unfold bindM at 1, set at 1. cbn [truthy negb].
      unfold ret. eexists; eexists; reflexivity.
    + unfold ret at 1. unfold bindM at 1, set at 1. cbn [truthy negb].
      unfold ret. eexists; eexists; reflexivity.
    + reflexivity.
    + reflexivity.
  - unfold ret at 1. unfold bindM at 1, set at 1. cbn [truthy negb].
    unfold bindM.
    match goal with |- context [try_except ?c ?h ?st] =>
      pose proof (try_except_returns c st) as E1;
      destruct (try_except c h st) as [st1 r1]
    end.
    cbn [snd] in E1. subst r1. exists (self st1), (trace st1). reflexivity.
Qed.

(** X6.  The constructor raises only when the bind fails with an error
    other than [SERVER_DOWN], [NO_SUCH_OBJECT] and [INVALID_CREDENTIALS],
    and then raises that error.  In every other case it returns an
    object: whatever is raised during the collection, a context mismatch
    and a referral included, is caught inside. *)
Theorem constructor_raises_only_on_bind :
  forall (W : World) (host domain binddn bindpw : str),
    (forall desc, bind W = Some (OTHER desc) ->
       FreeIPAServer.new W host domain binddn bindpw = Raise (LDAPError desc))
    /\ (bind W = Some REFERRAL ->
        FreeIPAServer.new W host domain binddn bindpw = Raise (LDAPError "REFERRAL"))
    /\ (bind W = None \/ bind W = Some SERVER_DOWN \/ bind W = Some NO_SUCH_OBJECT \/
        bind W = Some INVALID_CREDENTIALS ->
        exists o t, FreeIPAServer.new W host domain binddn bindpw = Ret (o, t)).
Proof.
  intros W host domain binddn bindpw.
  pose proof (new_outcome W host domain binddn bindpw) as H.
  split; [|split].
  - intros desc E. rewrite E in H. exact H.
  - intros E. rewrite E in H. exact H.
  - intros [E | [E | [E | E]]]; rewrite E in H; exact H.
Qed.

Lemma constructor_raises_only_on_bind_witness :
  exists o t,
    Samples.construct (Samples.redirecting "cn=config") = Ret (o, t).
Proof.
  refine (proj2 (proj2 (constructor_raises_only_on_bind
            (Samples.redirecting "cn=config") _ _ _ _)) _).
  left. reflexivity.
Defined.

(** *** The trust records *)

Lemma adtrust_loop_exists (fqdn : str) (answers : list str) (st : State) :
  self st !! "_fqdn" = Some (PStr fqdn) ->
  adtrust_loop answers st = (st, Ret (List.existsb (str_contains fqdn) answers)).
Proof.
  intros Hfqdn. induction answers as [|answer rest IH]; cbn [adtrust_loop List.existsb].
  - reflexivity.
  - unfold bindM. rewrite (get_attr _ _ _ Hfqdn). cbn [py_str].
    destruct (str_contains fqdn answer); [reflexivity|exact IH].
Qed.

(** X7.  [_ms_adtrust] resolves the record
    [_kerberos._tcp.Default-First-Site-Name._sites.dc._msdcs.<domain>] and
    returns [True] exactly when the text of some answer contains the
    server's FQDN; a failed resolution gives [False].  It issues no LDAP
    search and assigns no attribute. *)
Theorem ms_adtrust_answers :
  forall (W : World) (st : State) (domain fqdn : str),
    self st !! "_domain" = Some (PStr domain) ->
    self st !! "_fqdn" = Some (PStr fqdn) ->
    _ms_adtrust W st =
      (st, Ret (PBool match resolve_srv W (msdcs_record domain) with
                      | Some answers => List.existsb (str_contains fqdn) answers
                      | None => false
                      end)).
Proof.
  intros W st domain fqdn Hdom Hfqdn.
  unfold _ms_adtrust, bindM. rewrite (get_attr _ _ _ Hdom). cbn [py_str].
  fold (msdcs_record domain).
  destruct (resolve_srv W (msdcs_record domain)) as [answers|]; [|reflexivity].
  rewrite (adtrust_loop_exists fqdn answers st Hfqdn). reflexivity.
Qed.

Lemma ms_adtrust_answers_witness :
  let W := {| bind := None;
              search_s := fun _ => Found [];
              resolve_srv := fun _ =>
                Some ["0 100 88 dc01.ad.example.com."; "0 100 88 ipa01.example.com."] |} in
  _ms_adtrust W session = (session, Ret (PBool true)).
Proof.
  intros W.
  apply (ms_adtrust_answers W session "example.com" "ipa01.example.com");
    reflexivity.
Defined.

(** *** Bounds of the ghost count *)

(** X8.  Whenever the tombstone search returns, [_ghost_replicas] returns
    a number between [0] and the number of values of [nscpentrywsi] on
    the first entry found: [0] when the search fails, finds nothing, or
    the first entry has no such attribute.  It issues that one search. *)
Theorem ghost_replicas_bounds :
  forall (W : World) (st : State) (base_dn : str),
    connected st ->
    self st !! "_base_dn" = Some (PStr base_dn) ->
    answered (search_s W (ghost_query base_dn)) ->
    exists n : Z,
      _ghost_replicas W st = (searched st (ghost_query base_dn), Ret (PInt n)) /\
      (0 <= n <= len (tombstone_values (search_s W (ghost_query base_dn))))%Z.
Proof.
  intros W st base_dn Hconn Hbase Hans.
  unfold _ghost_replicas, bindM. rewrite (get_attr _ _ _ Hbase).
  rewrite search_connected by assumption.
  cbv zeta. cbn [py_str]. fold (ghost_query base_dn).
  destruct (search_s W (ghost_query base_dn)) as [[|[dn attrs] rest]|[| | | |desc]];
    cbn [answered] in Hans; try contradiction; cbn [tombstone_values];
    try (exists 0%Z; split; [reflexivity|unfold len; simpl; lia]).
  destruct (attrs !! "nscpentrywsi") as [values|].
  - eexists. split; [reflexivity|].
    rewrite ghost_loop_count. unfold len.
    pose proof (List.filter_length_le (fun v => ghost_text (bytes_repr v)) values).
    lia.
  - exists 0%Z. split; [reflexivity|unfold len; simpl; lia].
Qed.

Lemma ghost_replicas_bounds_witness :
  exists n : Z,
    _ghost_replicas (answering (ghost_query "dc=example,dc=com") (Failed NO_SUCH_OBJECT))
                    session =
      (searched session (ghost_query "dc=example,dc=com"), Ret (PInt n)) /\
    (0 <= n <= 0)%Z.
Proof.
  apply (ghost_replicas_bounds
           (answering (ghost_query "dc=example,dc=com") (Failed NO_SUCH_OBJECT))
           session "dc=example,dc=com").
  - exists (PObj "LDAPObject"). split; [reflexivity|discriminate].
  - reflexivity.
  - vm_compute. exact I.
Defined.

(** *** Escaping of the mapping-tree entry *)

Lemma contains_char_cons (x c : ascii) (s : str) :
  str_contains (String x EmptyString) (String c s) =
  (if ascii_dec x c then true else false) || str_contains (String x EmptyString) s.
Proof.
  cbn [str_contains]. rewrite prefix_cons, prefix_empty. reflexivity.
Qed.

Lemma contains_char_app (x : ascii) (a b : str) :
  str_contains (String x EmptyString) (a ++ b) =
  str_contains (String x EmptyString) a || str_contains (String x EmptyString) b.
Proof.
  induction a as [|c a IH].
  - change (EmptyString ++ b) with b. destruct b; reflexivity.
  - change (String c a ++ b) with (String c (a ++ b)).
    rewrite !contains_char_cons, IH, orb_assoc. reflexivity.
Qed.

Lemma replace_char_cons (c : ascii) (new : str) (d : ascii) (s : str) :
  replace_from (String c EmptyString) new 0 (String d s) =
  if ascii_dec c d then new ++ replace_from (String c EmptyString) new 0 s
  else String d (replace_from (String c EmptyString) new 0 s).
Proof.
  cbn [replace_from]. rewrite prefix_cons, prefix_empty.
  destruct (ascii_dec c d); reflexivity.
Qed.

(** What a character of the result of replacing one character comes
    from. *)
Lemma replace_char_contains (c x : ascii) (new s : str) :
  str_contains (String x EmptyString) (str_replace (String c EmptyString) new s) = true ->
  str_contains (String x EmptyString) new = true \/
  (x <> c /\ str_contains (String x EmptyString) s = true).
Proof.
  unfold str_replace. induction s as [|d s IH]; [discriminate|].
  rewrite replace_char_cons. destruct (ascii_dec c d) as [->|Hne].
  - rewrite contains_char_app, orb_true_iff. intros [H|H]; [now left|].
    destruct (IH H) as [H'|[H1 H2]]; [now left|right].
    split; [assumption|]. rewrite contains_char_cons, H2. apply orb_true_r.
  - rewrite contains_char_cons, orb_true_iff.
    destruct (ascii_dec x d) as [->|Hxd].
    + intros _. right. split; [congruence|].
      rewrite contains_char_cons. destruct (ascii_dec d d); [reflexivity|contradiction].
    + intros [H|H]; [discriminate|].
      destruct (IH H) as [H'|[H1 H2]]; [now left|right].
      split; [assumption|]. rewrite contains_char_cons, H2. apply orb_true_r.
Qed.

(** X9.  The base of the replication-agreements search is
    [cn=replica,cn=<suffix>,cn=mapping tree,cn=config], where the suffix is
    the base DN with every [=] and [,] escaped: the suffix contains
    neither character.  The base DN that the constructor derives from the
    domain contains no dot. *)
Theorem mapping_tree_suffix_escaped :
  (forall base_dn : str,
     exists suffix,
       q_base (agreements_query base_dn) =
         "cn=replica,cn=" ++ suffix ++ ",cn=mapping tree,cn=config" /\
       str_contains "=" suffix = false /\
       str_contains "," suffix = false)
  /\ (forall domain : str, str_contains "." (base_dn_of domain) = false).
Proof.
  split.
  - intros base_dn.
    exists (str_replace "," "\2C" (str_replace "=" "\3D" base_dn)).
    split; [reflexivity|]. split.
    + destruct (str_contains "=" (str_replace "," "\2C" (str_replace "=" "\3D" base_dn)))
        eqn:E; [|reflexivity].
      apply replace_char_contains in E as [E|[_ E]]; [discriminate E|].
      apply replace_char_contains in E as [E|[E _]]; [discriminate E|].
      contradiction.
    + destruct (str_contains "," (str_replace "," "\2C" (str_replace "=" "\3D" base_dn)))
        eqn:E; [|reflexivity].
      apply replace_char_contains in E as [E|[E _]]; [discriminate E|].
      contradiction.
  - intros domain. unfold base_dn_of.
    destruct (str_contains "." ("dc=" ++ str_replace "." ",dc=" domain)) eqn:E;
      [|reflexivity].
    rewrite contains_char_app, orb_true_iff in E. destruct E as [E|E]; [discriminate E|].
    apply replace_char_contains in E as [E|[E _]]; [discriminate E|].
    contradiction.
Qed.

(** *** A directory with another naming context *)

Lemma bind_ret_eq {A B} (c : M A) (k : A -> M B) (st st' : State) (a : A) :
  c st = (st', Ret a) -> bindM c k st = k a st'.
Proof. intros H. unfold bindM. rewrite H. reflexivity. Qed.

Lemma bind_raise_eq {A B} (c : M A) (k : A -> M B) (st st' : State) (e : exn) :
  c st = (st', Raise e) -> bindM c k st = (st', Raise e).
Proof. intros H. unfold bindM. rewrite H. reflexivity. Qed.

Lemma set_eq (name : str) (v : PyVal) (st : State) :
  set name v st = ({| self := <[name := v]> (self st); trace := trace st |}, Ret tt).
Proof. reflexivity. Qed.

Lemma connected_insert (k : str) (v : PyVal) (o : Object) (t t' : list query) :
  k <> "_conn" ->
  connected {| self := o; trace := t |} ->
  connected {| self := <[k := v]> o; trace := t' |}.
Proof.
  intros Hk (conn & Hconn & Hne). exists conn. split; [|assumption].
  cbn [self] in *. rewrite lookup_insert_ne by assumption. assumption.
Qed.

Lemma get_fqdn_found (W : World) (st : State) dn attrs rest b bs fqdn :
  connected st ->
  search_s W fqdn_query = Found ((dn, attrs) :: rest) ->
  attrs !! "nsslapd-localhost" = Some (b :: bs) ->
  bytes_decode b = Ret fqdn ->
  _get_fqdn W st = (searched st fqdn_query, Ret fqdn).
Proof.
  intros Hconn Hsearch Hattr Hdec. unfold _get_fqdn.
  destruct Hconn as (conn & Hc & Hne).
  rewrite (bind_ret_eq _ _ _ _ _ (get_attr _ _ _ Hc)).
  assert (Hconn : connected st) by (exists conn; split; assumption).
  destruct conn; [congruence| | | |];
    (erewrite bind_ret_eq
       by (rewrite search_connected by assumption; cbv zeta;
           fold fqdn_query; rewrite Hsearch; reflexivity);
     unfold attrs_get; rewrite Hattr; cbn [List.map index0];
     unfold bindM, lift; cbn [decode_or_unknown]; rewrite Hdec; reflexivity).
Qed.

Lemma unknown_differs (domain : str) : "unknown" <> base_dn_of domain.
Proof. unfold base_dn_of. intros H. discriminate H. Qed.

Lemma get_context_differs (W : World) (domain : str) (st : State) :
  connected st ->
  context_differs W domain ->
  exists context,
    _get_context W st = (searched st context_query, Ret context) /\
    context <> base_dn_of domain.
Proof.
  intros Hconn Hdiff. unfold _get_context.
  destruct Hconn as (conn & Hc & Hne).
  rewrite (bind_ret_eq _ _ _ _ _ (get_attr _ _ _ Hc)).
  assert (Hconn : connected st) by (exists conn; split; assumption).
  assert (E : exists context,
    (results <- _search W "cn=config" "(objectClass=*)"
                  (Some ["nsslapd-defaultnamingcontext"]) SCOPE_SUBTREE ;;
     match results with
     | Some ((dn, attrs) :: _) =>
         context_bytes <- lift (index0 (attrs_get attrs "nsslapd-defaultnamingcontext"
                                          [TextBytes "unknown"])) ;;
         lift (decode_or_unknown context_bytes)
     | _ => ret "unknown"
     end) st = (searched st context_query, Ret context) /\
    context <> base_dn_of domain).
  { unfold bindM at 1. rewrite search_connected by assumption. cbv zeta.
    fold context_query.
    destruct Hdiff as [[H | [H | H]] | (dn & attrs & rest & H & Hattr)]; rewrite H.
    - exists "unknown". split; [reflexivity|apply unknown_differs].
    - exists "unknown". split; [reflexivity|apply unknown_differs].
    - exists "unknown". split; [reflexivity|apply unknown_differs].
    - destruct Hattr as [Hattr | (c & cs & context & Hattr & Hdec & Hne')].
      + exists "unknown". split; [|apply unknown_differs].
        unfold attrs_get. rewrite Hattr. reflexivity.
      + exists context. split; [|assumption].
        unfold attrs_get. rewrite Hattr. cbn [List.map index0].
        unfold bindM, lift. cbn [decode_or_unknown]. rewrite Hdec. reflexivity. }
  destruct conn; [congruence| | | |]; exact E.
Qed.

Lemma init_attributes_defaults (host domain binddn bindpw : str) :
  exists o0,
    init_attributes host domain binddn bindpw {| self := ∅; trace := [] |} =
      ({| self := o0; trace := [] |}, Ret tt) /\
    o0 !! "_domain" = Some (PStr domain) /\
    o0 !! "hbac" = Some (PInt 0) /\
    (forall k, List.In k metric_keys -> k <> "hbac" -> o0 !! k = Some PNone) /\
    o0 !! "healthy_agreements" = Some (PBool false) /\
    is_Some (o0 !! "hostname_short").
Proof.
  eexists. split.
  - cbv [init_attributes bindM set ret self trace]. reflexivity.
  - split; [vm_compute; reflexivity|].
    split; [vm_compute; reflexivity|].
    split; [|split; [vm_compute; reflexivity|eexists; apply lookup_insert_eq]].
    intros k Hk Hne. unfold metric_keys in Hk. simpl in Hk.
    repeat (destruct Hk as [<- | Hk]; [try (vm_compute; reflexivity); congruence|]).
    destruct Hk.
Qed.

Lemma collect_aborts (W : World) (domain : str) (o : Object) (t : list query)
    dn attrs rest b bs fqdn :
  connected {| self := o; trace := t |} ->
  o !! "_domain" = Some (PStr domain) ->
  search_s W fqdn_query = Found ((dn, attrs) :: rest) ->
  attrs !! "nsslapd-localhost" = Some (b :: bs) ->
  bytes_decode b = Ret fqdn ->
  context_differs W domain ->
  collect W domain {| self := o; trace := t |} =
    ({| self := <["_base_dn" := PStr (base_dn_of domain)]>
                  (<["hostname_short" :=
                       PStr (str_replace ("." ++ domain) EmptyString fqdn)]>
                     (<["_fqdn" := PStr fqdn]> o));
        trace := (t ++ [fqdn_query]) ++ [context_query] |},
     Raise ValueError).
Proof.
  intros Hconn Hdom Hsearch Hattr Hdec Hdiff. unfold collect.
  rewrite (bind_ret_eq _ _ _ _ _ (get_fqdn_found W _ dn attrs rest b bs fqdn
                                    Hconn Hsearch Hattr Hdec)).
  unfold searched. cbn [self trace].
  rewrite (bind_ret_eq _ _ _ _ _ (set_eq _ _ _)). cbn [self trace].
  rewrite (bind_ret_eq _ _ _ _ _ (set_eq _ _ _)). cbn [self trace].
  erewrite bind_ret_eq
    by (apply get_attr; cbn [self];
        rewrite !lookup_insert_ne by discriminate; exact Hdom).
  cbn [py_str]. fold (base_dn_of domain).
  rewrite (bind_ret_eq _ _ _ _ _ (set_eq _ _ _)). cbn [self trace].
  match goal with |- bindM (_get_context W) _ ?st = _ =>
    assert (Hconn' : connected st)
  end.
  { repeat (apply (connected_insert _ _ _ t); [discriminate|]). exact Hconn. }
  destruct (get_context_differs W domain _ Hconn' Hdiff) as (context & Hctx & Hne).
  rewrite (bind_ret_eq _ _ _ _ _ Hctx). unfold searched. cbn [self trace].
  erewrite bind_ret_eq by (apply get_attr; cbn [self]; apply lookup_insert_eq).
  assert (E : py_eq (PStr (base_dn_of domain)) (PStr context) = false).
  { cbn [py_eq]. apply String.eqb_neq. congruence. }
  rewrite E. reflexivity.
Qed.

(** X10.  When the server accepts the bind and names itself, but its
    default naming context is not the base DN derived from the domain
    (the context search finds nothing, the entry has no naming context, or
    the naming context is another text), the constructor still returns an
    object: it has issued the two searches for the FQDN and the context
    and no other, the short host name is taken from the FQDN, and every
    metric is as after a failed connection: [hbac] is [0], the others are
    [None] and the health flag is [False]. *)
Theorem context_mismatch_aborts_collection :
  forall (W : World) (host domain binddn bindpw : str) dn attrs rest b bs fqdn,
    bind W = None ->
    search_s W fqdn_query = Found ((dn, attrs) :: rest) ->
    attrs !! "nsslapd-localhost" = Some (b :: bs) ->
    bytes_decode b = Ret fqdn ->
    context_differs W domain ->
    exists o,
      FreeIPAServer.new W host domain binddn bindpw =
        Ret (o, [fqdn_query; context_query]) /\
      o !! "hostname_short" =
        Some (PStr (str_replace ("." ++ domain) EmptyString fqdn)) /\
      o !! "_base_dn" = Some (PStr (base_dn_of domain)) /\
      o !! "hbac" = Some (PInt 0) /\
      (forall k, List.In k metric_keys -> k <> "hbac" -> o !! k = Some PNone) /\
      o !! "healthy_agreements" = Some (PBool false).
Proof.
  intros W host domain binddn bindpw dn attrs rest b bs fqdn
         Hbind Hsearch Hattr Hdec Hdiff.
  destruct (init_attributes_defaults host domain binddn bindpw)
    as (o0 & E0 & D1 & D2 & D3 & D4 & _).
  unfold FreeIPAServer.new, FreeIPAServer.__init__.
  rewrite (bind_ret_eq _ _ _ _ _ E0).
  assert (Eget : _get_conn W {| self := o0; trace := [] |} =
                 ({| self := o0; trace := [] |}, Ret (PObj "LDAPObject"))).
  { unfold _get_conn. rewrite Hbind. reflexivity. }
  rewrite (bind_ret_eq _ _ _ _ _ Eget).
  rewrite (bind_ret_eq _ _ _ _ _ (set_eq _ _ _)). cbn [self trace truthy negb].
  assert (Hconn : connected {| self := <["_conn" := PObj "LDAPObject"]> o0;
                               trace := [] |}).
  { exists (PObj "LDAPObject"). split; [apply lookup_insert_eq|discriminate]. }
  assert (Hdom : <["_conn" := PObj "LDAPObject"]> o0 !! "_domain" = Some (PStr domain)).
  { rewrite lookup_insert_ne by discriminate. exact D1. }
  unfold try_except.
  rewrite (collect_aborts W domain _ _ dn attrs rest b bs fqdn
             Hconn Hdom Hsearch Hattr Hdec Hdiff).
  unfold ret. cbn [self trace app].
  eexists. split; [reflexivity|].
  split; [rewrite lookup_insert_ne by discriminate; apply lookup_insert_eq|].
  split; [apply lookup_insert_eq|].
  split; [rewrite !lookup_insert_ne by discriminate; exact D2|].
  split; [|rewrite !lookup_insert_ne by discriminate; exact D4].
  intros k Hk Hne. specialize (D3 k Hk Hne).
  unfold metric_keys in Hk. simpl in Hk.
  repeat (destruct Hk as [<- | Hk];
          [rewrite !lookup_insert_ne by discriminate; exact D3|]).
  destruct Hk.
Qed.

Lemma context_mismatch_aborts_collection_witness :
  let W := {| bind := None;
              search_s := fun q =>
                if bool_decide (q = context_query)
                then Found (Samples.one_value "cn=config" "nsslapd-defaultnamingcontext"
                              "dc=other,dc=org")
                else Samples.lab_search q;
              resolve_srv := fun _ => None |} in
  exists o,
    FreeIPAServer.new W "ipa01.example.com" "example.com" "cn=Directory Manager" "secret" =
      Ret (o, [fqdn_query; context_query]) /\
    o !! "hostname_short" = Some (PStr "ipa01") /\
    o !! "_base_dn" = Some (PStr "dc=example,dc=com") /\
    o !! "hbac" = Some (PInt 0) /\
    (forall k, List.In k metric_keys -> k <> "hbac" -> o !! k = Some PNone) /\
    o !! "healthy_agreements" = Some (PBool false).
Proof.
  intros W.
  refine (context_mismatch_aborts_collection W "ipa01.example.com" "example.com"
            "cn=Directory Manager" "secret"
            "cn=config" {[ "nsslapd-localhost" := ["ipa01.example.com"] ]} []
            "ipa01.example.com" [] "ipa01.example.com" _ _ _ _ _).
  - reflexivity.
  - reflexivity.
  - reflexivity.
  - reflexivity.
  - right. exists "cn=config", {[ "nsslapd-defaultnamingcontext" := ["dc=other,dc=org"] ]}, [].
    split; [reflexivity|]. right.
    exists "dc=other,dc=org", [], "dc=other,dc=org".
    split; [reflexivity|]. split; [reflexivity|]. discriminate.
Defined.

(** *** The types of the metrics *)

(** X11.  On every object that the constructor returns, whatever the
    directory answered and wherever the collection stopped, the short host
    name exists, the health flag is a boolean, and every one of the 17
    metrics exists and is [None] or a value of its declared type: text
    for the three user counts, the host groups, the bind mode and the
    replication status, a boolean for the trust flag, a number for the
    others. *)
Theorem constructed_object_typed :
  forall (W : World) (host domain binddn bindpw : str) (o : Object) (t : list query),
    FreeIPAServer.new W host domain binddn bindpw = Ret (o, t) ->
    is_Some (o !! "hostname_short") /\
    (exists b : bool, o !! "healthy_agreements" = Some (PBool b)) /\
    (forall k, List.In k metric_keys ->
       exists v, o !! k = Some v /\ (v = PNone \/ py_type v = metric_type k)).
Proof.
  intros W host domain binddn bindpw o t H.
  exact (new_well_formed W host domain binddn bindpw o t H).
Qed.

Lemma constructed_object_typed_witness :
  is_Some (object_of (Samples.construct Samples.down) !! "hostname_short") /\
  (exists b : bool,
     object_of (Samples.construct Samples.down) !! "healthy_agreements" = Some (PBool b)) /\
  (forall k, List.In k metric_keys ->
     exists v, object_of (Samples.construct Samples.down) !! k = Some v /\
               (v = PNone \/ py_type v = metric_type k)).
Proof.
  apply (constructed_object_typed Samples.down "ipa01.example.com" "example.com"
           "cn=Directory Manager" "secret" _ (@nil query)).
  cbv [Samples.construct Samples.down FreeIPAServer.new FreeIPAServer.__init__
       init_attributes bindM set ret _get_conn bind truthy negb self trace object_of].
  reflexivity.
Defined.

End MoreCollector.

(** ** Discovery of the servers *)

Section Discovery.

Import DNSUtils.

Lemma rstrip_no_trailing (c : ascii) (s p : str) :
  rstrip (String c EmptyString) s <> p ++ String c EmptyString.
Proof.
  revert p. induction s as [|a s IH]; intros p; cbn [rstrip].
  - destruct p; discriminate.
  - destruct (rstrip (String c EmptyString) s) as [|b r] eqn:E.
    + cbn [char_in]. rewrite orb_false_r.
      destruct (Ascii.eqb a c) eqn:Eac.
      * destruct p; discriminate.
      * destruct p as [|a' p].
        -- change (EmptyString ++ String c EmptyString) with (String c EmptyString).
           intros H. injection H as ->. rewrite Ascii.eqb_refl in Eac. discriminate.
        -- change (String a' p ++ String c EmptyString)
             with (String a' (p ++ String c EmptyString)).
           intros H. injection H as _ H. destruct p; discriminate.
    + destruct p as [|a' p].
      * change (EmptyString ++ String c EmptyString) with (String c EmptyString).
        discriminate.
      * change (String a' p ++ String c EmptyString)
          with (String a' (p ++ String c EmptyString)).
        intros H. injection H as _ H. exact (IH p H).
Qed.

Lemma space_width_visible (c : ascii) (s : str) :
  visible_char c = true -> space_width (String c s) = 0%nat.
Proof.
  destruct c as [[] [] [] [] [] [] [] []]; try discriminate;
    intros _; destruct s as [|d [|e s]]; reflexivity.
Qed.

Lemma append_assoc (a b c : str) : (a ++ b) ++ c = a ++ (b ++ c).
Proof.
  induction a as [|x a IH]; [reflexivity|].
  change (String x a ++ b) with (String x (a ++ b)).
  change (String x (a ++ b) ++ c) with (String x ((a ++ b) ++ c)).
  change (String x a ++ (b ++ c)) with (String x (a ++ (b ++ c))).
  now rewrite IH.
Qed.

(** A visible word is read as a whole. *)
Lemma split_word (w acc s : str) :
  visible w = true ->
  split_from 0 acc (w ++ s) = split_from 0 (acc ++ w) s.
Proof.
  revert acc. induction w as [|c w IH]; intros acc H.
  - change (EmptyString ++ s) with s. now rewrite append_empty.
  - cbn [visible] in H. apply andb_true_iff in H as [Hc Hw].
    change (String c w ++ s) with (String c (w ++ s)).
    cbn [split_from]. rewrite (space_width_visible c (w ++ s) Hc).
    rewrite (IH _ Hw), append_assoc. reflexivity.
Qed.

(** A blank ends the word. *)
Lemma split_blank (acc s : str) :
  acc <> EmptyString ->
  split_from 0 acc (" " ++ s) = acc :: split_from 0 EmptyString s.
Proof.
  intros H. change (" " ++ s) with (String " " s). cbn [split_from].
  change (space_width (String " " s)) with 1%nat. cbn iota.
  destruct acc; [contradiction|reflexivity].
Qed.

Lemma split_srv_text (r : str * str * str * str) :
  srv_words r ->
  let '(priority, weight, port, target) := r in
  str_split (srv_text r) = [priority; weight; port; target].
Proof.
  destruct r as [[[priority weight] port] target].
  intros ((N1 & V1) & (N2 & V2) & (N3 & V3) & (N4 & V4)).
  unfold str_split, srv_text.
  rewrite (split_word priority EmptyString _ V1).
  change (EmptyString ++ priority) with priority.
  rewrite (split_blank priority _ N1).
  rewrite (split_word weight EmptyString _ V2).
  change (EmptyString ++ weight) with weight.
  rewrite (split_blank weight _ N2).
  rewrite (split_word port EmptyString _ V3).
  change (EmptyString ++ port) with port.
  rewrite (split_blank port _ N3).
  rewrite <- (append_empty target) at 1.
  rewrite (split_word target EmptyString EmptyString V4).
  change (EmptyString ++ target) with target.
  cbn [split_from]. destruct target; [contradiction|reflexivity].
Qed.

Lemma hosts_loop_records (records : list (str * str * str * str)) (hosts : list str) :
  List.Forall srv_words records ->
  hosts_loop (List.map srv_text records) hosts =
  (hosts ++ List.map (fun r => rstrip "." (srv_target r)) records)%list.
Proof.
  revert hosts. induction records as [|r records IH]; intros hosts H.
  - cbn. now rewrite List.app_nil_r.
  - apply List.Forall_cons_iff in H as [Hr H].
    cbn [List.map hosts_loop].
    pose proof (split_srv_text r Hr) as E.
    destruct r as [[[priority weight] port] target]. rewrite E.
    cbn [List.length Nat.leb List.nth srv_target].
    rewrite (IH _ H), <- List.app_assoc. reflexivity.
Qed.

Lemma hosts_loop_bounds (answers hosts : list str) :
  (List.length (hosts_loop answers hosts) <= List.length hosts + List.length answers)%nat /\
  forall h, List.In h (hosts_loop answers hosts) ->
    List.In h hosts \/ forall p, h <> p ++ ".".
Proof.
  revert hosts. induction answers as [|a answers IH]; intros hosts; cbn [hosts_loop].
  - split; [cbn; lia|auto].
  - destruct (4 <=? List.length (str_split a))%nat.
    + destruct (IH (hosts ++ [rstrip "." (List.nth 3 (str_split a) EmptyString)])%list)
        as [Hlen Hin].
      split.
      * rewrite List.length_app in Hlen. cbn [List.length] in *. lia.
      * intros h Hh. destruct (Hin h Hh) as [Hh' | Hh']; [|now right].
        apply List.in_app_or in Hh' as [Hh' | [<- | []]]; [now left|right].
        intros p. apply rstrip_no_trailing.
    + destruct (IH hosts) as [Hlen Hin]. split; [cbn [List.length]; lia|exact Hin].
Qed.

(** X12.  [find_ipa_servers] resolves the SRV record [_ldap._tcp.<domain>].
    When the resolution fails it returns the empty list.  Otherwise it
    returns at most one host per answer and no host that ends with a dot.
    When every answer is a record in presentation format, four words of
    visible characters separated by one blank, the hosts are the targets
    of the answers, in order, without their trailing dots. *)
Theorem find_ipa_servers_hosts :
  forall (resolve : str -> option (list str)) (domain : str),
    (resolve ("_ldap._tcp." ++ domain) = None ->
     find_ipa_servers resolve domain = [])
    /\ (forall answers, resolve ("_ldap._tcp." ++ domain) = Some answers ->
        (List.length (find_ipa_servers resolve domain) <= List.length answers)%nat /\
        forall h, List.In h (find_ipa_servers resolve domain) ->
                  forall p, h <> p ++ ".")
    /\ (forall records, resolve ("_ldap._tcp." ++ domain) = Some (List.map srv_text records) ->
        List.Forall srv_words records ->
        find_ipa_servers resolve domain =
          List.map (fun r => rstrip "." (srv_target r)) records).
Proof.
  intros resolve domain. unfold find_ipa_servers. split; [|split].
  - intros ->. reflexivity.
  - intros answers ->. destruct (hosts_loop_bounds answers []) as [Hlen Hin].
    split; [exact Hlen|].
    intros h Hh. destruct (Hin h Hh) as [[] | H]. exact H.
  - intros records -> Hwords. rewrite (hosts_loop_records records [] Hwords). reflexivity.
Qed.

Lemma find_ipa_servers_hosts_witness :
  find_ipa_servers
    (fun _ => Some ["0 100 389 ipa01.example.com."; "0 100 389 ipa02.example.com."])
    "example.com" = ["ipa01.example.com"; "ipa02.example.com"].
Proof.
  refine (proj2 (proj2 (find_ipa_servers_hosts
            (fun _ => Some ["0 100 389 ipa01.example.com."; "0 100 389 ipa02.example.com."])
            "example.com"))
          [("0", "100", "389", "ipa01.example.com."); ("0", "100", "389", "ipa02.example.com.")]
          _ _).
  - reflexivity.
  - repeat constructor; discriminate.
Defined.

End Discovery.

(** ** The table and the structured result *)

Section Reports.

Import ConsistencyChecker Reporting.

Lemma getattr_all_short_names (servers : list (str * Object)) :
  (forall h o, List.In (h, o) servers -> is_server_object o) ->
  getattr_all "hostname_short" servers =
  Ret (List.map (fun p => short_name (snd p)) servers).
Proof.
  induction servers as [|[h o] rest IH]; intros Hobj; [reflexivity|].
  cbn [getattr_all List.map snd]. unfold getattr, short_name.
  destruct (Hobj h o (or_introl eq_refl) "hostname_short") as [v ->]; [now left|].
  cbn [rbind]. rewrite IH by (intros h' o' H'; apply (Hobj h' o'); now right).
  reflexivity.
Qed.

Lemma row_length (display state : str) (rs : list PyVal) (n : nat) :
  List.length rs = n ->
  List.length ([PStr display] ++ rs ++ [PStr state])%list = S (S n).
Proof.
  intros <-. cbn [List.app List.length]. rewrite List.length_app.
  cbn [List.length]. lia.
Qed.

(** The two loops over the checks run in step, and no row is refused. *)
Lemma rows_loop_agrees (self : Checker) (todo : list (str * str)) :
  forall (table : Table) (data data' : StructuredData),
    List.length (field_names table) = S (S (List.length (servers self))) ->
    checks_loop self todo data = Ret data' ->
    exists new_rows new,
      rows_loop self todo table =
        Ret {| field_names := field_names table;
               header := header table;
               border := border table;
               rows := (rows table ++ new_rows)%list |} /\
      checks_data data' = (checks_data data ++ new)%list /\
      List.Forall2 (row_of self) new_rows new.
Proof.
  induction todo as [|[check_name display] rest IH]; intros table data data' Hfn H;
    cbn [checks_loop rows_loop] in *.
  - injection H as <-. exists [], []. rewrite !List.app_nil_r.
    split; [destruct table; reflexivity|]. split; [reflexivity|constructor].
  - destruct (getattr_all check_name (servers self)) as [rs|e] eqn:Ers;
      [|discriminate H].
    cbn [rbind] in *.
    destruct (is_consistent self check_name rs) as [v|e]; [|discriminate H].
    cbn [rbind] in *.
    destruct (values_loop (List.map fst (servers self)) rs ∅) as [vals|e];
      [|discriminate H].
    cbn [rbind] in H.
    destruct (getattr_all_combine _ _ _ Ers) as [Hlen _].
    unfold add_row.
    rewrite (row_length display (if truthy v then "OK" else "FAIL") rs _ Hlen), Hfn.
    rewrite Nat.eqb_refl. cbn [rbind].
    match goal with |- context [rows_loop self rest ?t] =>
      destruct (IH t _ _ Hfn H) as (new_rows & new & Hrows & Hdata & Hall)
    end.
    cbn [checks_data] in Hdata. cbn [field_names header border rows] in Hrows.
    set (d := {| name := check_name; display_name := display;
                 state := if truthy v then "OK" else "FAIL";
                 is_consistent_flag := v; values := vals |}) in *.
    exists (([PStr display] ++ rs ++ [PStr (if truthy v then "OK" else "FAIL")])%list
            :: new_rows), (d :: new).
    rewrite Hrows, Hdata, <- !List.app_assoc. split; [reflexivity|].
    split; [reflexivity|].
    constructor; [|exact Hall]. exists rs. split; [exact Ers|reflexivity].
Qed.

(** X13.  For a non-empty collection of server objects the field names
    of the table are [FreeIPA servers:], the short names of the servers in
    order, and [STATE].  When these are unique, [print_table] builds a
    table that agrees with the structured result: header and border are
    shown unless the arguments disable them; there is one row per check,
    in the order of the checks of the structured result, and the row
    shows the display name of the check, the value of every server in
    order, and the same state [OK] or [FAIL] as the structured result;
    every row has as many cells as there are field names, so no row is
    refused.  When two field names are equal (two servers with the same
    short name, or a short name that reads [FreeIPA servers:] or
    [STATE]), [print_table] raises the [ValueError] by which PrettyTable
    refuses them, although [get_structured_data] returns on the same
    servers; so it does on three servers that all answer as
    [ipa01.example.com]. *)
Theorem table_agrees_with_structured_data :
  (forall (servers : list (str * Object)) (args : Args),
      servers <> [] ->
      (forall h o, List.In (h, o) servers -> is_server_object o) ->
      unique ([PStr "FreeIPA servers:"]
                ++ List.map (fun p => short_name (snd p)) servers
                ++ [PStr "STATE"])%list = true ->
      exists table data,
        print_table (checker servers) args = Ret table /\
        get_structured_data (checker servers) = Ret data /\
        field_names table =
          ([PStr "FreeIPA servers:"] ++ List.map (fun p => short_name (snd p)) servers
             ++ [PStr "STATE"])%list /\
        header table = negb (disable_header args) /\
        border table = negb (disable_border args) /\
        List.Forall2 (row_of (checker servers)) (rows table) (checks_data data) /\
        List.Forall (fun row => List.length row = List.length (field_names table))
                    (rows table))
  /\ (forall (servers : list (str * Object)) (args : Args),
      servers <> [] ->
      (forall h o, List.In (h, o) servers -> is_server_object o) ->
      unique ([PStr "FreeIPA servers:"]
                ++ List.map (fun p => short_name (snd p)) servers
                ++ [PStr "STATE"])%list = false ->
      print_table (checker servers) args = Raise ValueError /\
      exists data, get_structured_data (checker servers) = Ret data)
  /\ (forall args : Args,
      List.map (fun p => short_name (snd p)) fleet =
        [PStr "ipa01"; PStr "ipa01"; PStr "ipa01"] /\
      print_table (checker fleet) args = Raise ValueError).
Proof.
  assert (Hdata : forall servers : list (str * Object),
            servers <> [] ->
            (forall h o, List.In (h, o) servers -> is_server_object o) ->
            exists data, get_structured_data (checker servers) = Ret data /\
              checks_loop (checker servers) default_checks
                {| timestamp := PNone; domain := PNone;
                   servers_info :=
                     List.map (fun p => (fst p, short_name (snd p))) servers;
                   checks_data := [];
                   summary := {| total_checks := Z.of_nat (List.length default_checks);
                                 consistent_checks := 0;
                                 inconsistent_checks := 0 |} |} = Ret data).
  { intros servers Hne Hobj. unfold get_structured_data.
    cbn [ConsistencyChecker.servers checker checks].
    rewrite (servers_loop_spec servers [] Hobj). cbn [rbind List.app].
    match goal with |- context [checks_loop ?c ?t ?d] =>
      destruct (checks_loop_spec c Hne Hobj t d) as (data & new0 & Hloop & _);
      [intros c0 Hin; unfold metric_keys; now apply List.in_map|]
    end.
    exists data. split; exact Hloop. }
  split; [|split].
  - intros servers args Hne Hobj Huniq.
    destruct (Hdata servers Hne Hobj) as (data & Hget & Hloop).
    unfold print_table. cbn [ConsistencyChecker.servers checker checks].
    rewrite (getattr_all_short_names servers Hobj). cbn [rbind].
    unfold PrettyTable. rewrite Huniq. cbn [rbind].
    match goal with |- context [rows_loop ?c ?t ?tb] =>
      destruct (rows_loop_agrees c t tb _ _
                  (row_length _ _ _ _ (List.length_map _ servers)) Hloop)
        as (new_rows & new & Hrows & Hnew & Hall)
    end.
    cbn [field_names header border rows checks_data List.app] in Hrows, Hnew.
    eexists. exists data. split; [exact Hrows|]. split; [exact Hget|].
    cbn [field_names header border rows]. rewrite Hnew.
    repeat split; try exact Hall.
    clear Hrows Hnew Hloop Hget. induction Hall as [|row d new_rows new Hrow _ IH];
      constructor; [|exact IH].
    destruct Hrow as (rs & Hrs & ->).
    cbn [ConsistencyChecker.servers checker] in Hrs.
    apply getattr_all_combine in Hrs as [Hlen _].
    rewrite (row_length _ _ rs _ Hlen). symmetry.
    exact (row_length "FreeIPA servers:" "STATE" _ _ (List.length_map _ servers)).
  - intros servers args Hne Hobj Huniq.
    destruct (Hdata servers Hne Hobj) as (data & Hget & _).
    split; [|eauto].
    unfold print_table. cbn [ConsistencyChecker.servers checker checks].
    rewrite (getattr_all_short_names servers Hobj). cbn [rbind].
    unfold PrettyTable. rewrite Huniq. reflexivity.
  - intros args.
    assert (E : List.map (fun p => short_name (snd p)) fleet =
                [PStr "ipa01"; PStr "ipa01"; PStr "ipa01"])
      by (vm_compute; reflexivity).
    split; [exact E|].
    assert (G : getattr_all "hostname_short" fleet =
                Ret [PStr "ipa01"; PStr "ipa01"; PStr "ipa01"])
      by (vm_compute; reflexivity).
    unfold print_table. cbn [ConsistencyChecker.servers checker].
    rewrite G. reflexivity.
Qed.

Lemma table_agrees_with_structured_data_witness :
  exists table data,
    print_table (checker (reports_all [PInt 0; PInt 1]))
      {| disable_header := false; disable_border := true; debug := false;
         quiet := false; output_format := None |} = Ret table /\
    get_structured_data (checker (reports_all [PInt 0; PInt 1])) = Ret data /\
    field_names table =
      ([PStr "FreeIPA servers:"]
         ++ List.map (fun p => short_name (snd p)) (reports_all [PInt 0; PInt 1])
         ++ [PStr "STATE"])%list /\
    header table = true /\
    border table = false /\
    List.Forall2 (row_of (checker (reports_all [PInt 0; PInt 1])))
                 (rows table) (checks_data data) /\
    List.Forall (fun row => List.length row = List.length (field_names table))
                (rows table).
Proof.
  apply (proj1 table_agrees_with_structured_data (reports_all [PInt 0; PInt 1])
           {| disable_header := false; disable_border := true; debug := false;
              quiet := false; output_format := None |}).
  - discriminate.
  - assert (F : List.Forall (fun p => is_server_object (snd p))
                  (reports_all [PInt 0; PInt 1])).
    { repeat constructor; apply server_objectb_ok; vm_compute; reflexivity. }
    intros h o H. apply (proj1 (List.Forall_forall _ _) F (h, o) H).
  - vm_compute. reflexivity.
Defined.

End Reports.

(** ** The attributes that the constructor assigns *)

Section Attributes.

Import LDAP FreeIPAServer.
Local Open Scope py_scope.

Lemma reads_only_ret {A} (a : A) : reads_only (ret a).
Proof. intros st. reflexivity. Qed.

Lemma reads_only_raise {A} (e : exn) : reads_only (@raise A e).
Proof. intros st. reflexivity. Qed.

Lemma reads_only_lift {A} (r : result A) : reads_only (lift r).
Proof. intros st. reflexivity. Qed.

Lemma reads_only_get (name : str) : reads_only (get name).
Proof. intros st. unfold get. destruct (self st !! name); reflexivity. Qed.

Lemma reads_only_bind {A B} (c : M A) (k : A -> M B) :
  reads_only c -> (forall a, reads_only (k a)) -> reads_only (bindM c k).
Proof.
  intros Hc Hk st. unfold bindM. specialize (Hc st).
  destruct (c st) as [st' [a|e]]; cbn [fst] in *; [|exact Hc].
  rewrite (Hk a st'). exact Hc.
Qed.

Lemma reads_only_search (W : World) (base fltr : str) (attrs : option (list str))
    (scope : scope) :
  reads_only (_search W base fltr attrs scope).
Proof.
  intros st. unfold _search, bindM, get, raise.
  destruct (self st !! "_conn") as [conn|]; [|reflexivity].
  destruct conn; cbn [self fst]; try reflexivity;
    (destruct (search_s W _) as [results|[| | | |desc]]; cbn [self fst]; try reflexivity;
     destruct (self st !! "_fqdn"); reflexivity).
Qed.

Ltac reads :=
  repeat first
    [ apply reads_only_ret
    | apply reads_only_raise
    | apply reads_only_lift
    | apply reads_only_get
    | apply reads_only_search
    | apply reads_only_bind; [|intros ?]
    | match goal with
      | |- reads_only (match ?x with _ => _ end) => destruct x
      end ].

Lemma reads_only_get_fqdn (W : World) : reads_only (_get_fqdn W).
Proof. unfold _get_fqdn. reads. Qed.

Lemma reads_only_get_context (W : World) : reads_only (_get_context W).
Proof. unfold _get_context. reads. Qed.

Lemma reads_only_count_users (W : World) (user_base : str) :
  reads_only (_count_users W user_base).
Proof. unfold _count_users. reads. Qed.

Lemma reads_only_count_groups (W : World) : reads_only (_count_groups W).
Proof. unfold _count_groups. reads. Qed.

Lemma reads_only_count_hosts (W : World) : reads_only (_count_hosts W).
Proof. unfold _count_hosts. reads. Qed.

Lemma reads_only_count_services (W : World) : reads_only (_count_services W).
Proof. unfold _count_services. reads. Qed.

Lemma reads_only_count_netgroups (W : World) : reads_only (_count_netgroups W).
Proof. unfold _count_netgroups. reads. Qed.

Lemma reads_only_count_hostgroups (W : World) : reads_only (_count_hostgroups W).
Proof. unfold _count_hostgroups. reads. Qed.

Lemma reads_only_count_hbac_rules (W : World) : reads_only (_count_hbac_rules W).
Proof. unfold _count_hbac_rules. reads. Qed.

Lemma reads_only_count_sudo_rules (W : World) : reads_only (_count_sudo_rules W).
Proof. unfold _count_sudo_rules. reads. Qed.

Lemma reads_only_count_dns_zones (W : World) : reads_only (_count_dns_zones W).
Proof. unfold _count_dns_zones. reads. Qed.

Lemma reads_only_count_certificates (W : World) : reads_only (_count_certificates W).
Proof. unfold _count_certificates. reads. Qed.

Lemma reads_only_count_ldap_conflicts (W : World) : reads_only (_count_ldap_conflicts W).
Proof. unfold _count_ldap_conflicts. reads. Qed.

Lemma reads_only_ghost_replicas (W : World) : reads_only (_ghost_replicas W).
Proof. unfold _ghost_replicas. reads. Qed.

Lemma reads_only_anon_bind (W : World) : reads_only (_anon_bind W).
Proof. unfold _anon_bind. reads. Qed.

Lemma reads_only_adtrust_loop (answers : list str) : reads_only (adtrust_loop answers).
Proof. induction answers as [|answer rest IH]; cbn [adtrust_loop]; reads. exact IH. Qed.

Lemma reads_only_ms_adtrust (W : World) : reads_only (_ms_adtrust W).
Proof. unfold _ms_adtrust. reads. apply reads_only_adtrust_loop. Qed.

Lemma reads_only_agreements_loop (results : list entry) (msg : list str) (healthy : bool) :
  reads_only (agreements_loop results msg healthy).
Proof.
  revert msg healthy. induction results as [|[dn attrs] rest IH]; intros msg healthy;
    cbn [agreements_loop]; reads; apply IH.
Qed.

Lemma reads_only_replication_agreements (W : World) :
  reads_only (_replication_agreements W).
Proof.
  unfold _replication_agreements. reads; try apply reads_only_agreements_loop.
Qed.

Lemma leaves_reads_only {A} (k : str) (c : M A) : reads_only c -> leaves k c.
Proof. intros H st. now rewrite (H st). Qed.

Lemma leaves_ret {A} (k : str) (a : A) : leaves k (ret a).
Proof. intros st. reflexivity. Qed.

Lemma leaves_raise {A} (k : str) (e : exn) : leaves k (@raise A e).
Proof. intros st. reflexivity. Qed.

Lemma leaves_set (k name : str) (v : PyVal) : name <> k -> leaves k (set name v).
Proof. intros H st. cbn [set fst self]. now rewrite lookup_insert_ne. Qed.

Lemma leaves_bind {A B} (x : str) (c : M A) (k : A -> M B) :
  leaves x c -> (forall a, leaves x (k a)) -> leaves x (bindM c k).
Proof.
  intros Hc Hk st. unfold bindM. specialize (Hc st).
  destruct (c st) as [st' [a|e]]; cbn [fst] in *; [|exact Hc].
  rewrite (Hk a st'). exact Hc.
Qed.

Lemma leaves_try {A} (x : str) (c : M A) (h : exn -> M A) :
  leaves x c -> (forall e, leaves x (h e)) -> leaves x (try_except c h).
Proof.
  intros Hc Hh st. unfold try_except. specialize (Hc st).
  destruct (c st) as [st' [a|e]]; cbn [fst] in *; [exact Hc|].
  rewrite (Hh e st'). exact Hc.
Qed.

Create HintDb reads discriminated.

#[local] Hint Resolve reads_only_get reads_only_get_fqdn reads_only_get_context
  reads_only_count_users reads_only_count_groups reads_only_count_hosts
  reads_only_count_services reads_only_count_netgroups reads_only_count_hostgroups
  reads_only_count_hbac_rules reads_only_count_sudo_rules reads_only_count_dns_zones
  reads_only_count_certificates reads_only_count_ldap_conflicts
  reads_only_ghost_replicas reads_only_anon_bind reads_only_ms_adtrust
  reads_only_replication_agreements : reads.

Ltac frame :=
  repeat match goal with
    | |- leaves _ (ret _) => apply leaves_ret
    | |- leaves _ (raise _) => apply leaves_raise
    | |- leaves _ (set _ _) => apply leaves_set; discriminate
    | |- leaves _ (bindM _ _) => apply leaves_bind; [|intros ?]
    | |- leaves _ (try_except _ _) => apply leaves_try; [|intros ?]
    | |- leaves _ (if ?x then _ else _) => destruct x
    | |- leaves _ _ => apply leaves_reads_only; solve [auto with reads]
    end.

Lemma collect_leaves_domain (W : World) (domain : str) :
  leaves "domain" (collect W domain).
Proof. unfold collect. frame. Qed.

Lemma init_leaves_domain (W : World) (host domain binddn bindpw : str) :
  leaves "domain" (FreeIPAServer.__init__ W host domain binddn bindpw).
Proof.
  assert (Hconn : leaves "domain" (_get_conn W)).
  { intros st. unfold _get_conn.
    destruct (bind W) as [[| | | |desc]|]; reflexivity. }
  unfold FreeIPAServer.__init__, init_attributes. frame;
    first [exact Hconn | apply collect_leaves_domain].
Qed.

Lemma run_leaves {A} (c : M A) (st : State) (k : str) (o : Object) (t : list query) :
  leaves k c ->
  match c st with
  | (st', Ret _) => Ret (self st', trace st')
  | (_, Raise e) => Raise e
  end = Ret (o, t) ->
  o !! k = self st !! k.
Proof.
  intros L H. specialize (L st). destruct (c st) as [st' [u|e]]; [|discriminate H].
  injection H as <- _. exact L.
Qed.

Lemma new_unfold (W : World) (host domain binddn bindpw : str) :
  FreeIPAServer.new W host domain binddn bindpw =
  match FreeIPAServer.__init__ W host domain binddn bindpw
          {| self := ∅; trace := [] |} with
  | (st, Ret _) => Ret (self st, trace st)
  | (_, Raise e) => Raise e
  end.
Proof. reflexivity. Qed.

(** The constructor never assigns an attribute [domain]. *)
Lemma constructed_without_domain (o : Object) : constructed o -> o !! "domain" = None.
Proof.
  intros (W & host & domain & binddn & bindpw & t & H).
  rewrite new_unfold in H.
  apply (run_leaves _ _ "domain") in H; [|apply init_leaves_domain].
  rewrite H. cbn [self]. apply lookup_empty.
Qed.

Lemma constructed_server_object (o : Object) : constructed o -> is_server_object o.
Proof.
  intros (W & host & domain & binddn & bindpw & t & H).
  apply well_formed_server_object.
  exact (new_well_formed W host domain binddn bindpw o t H).
Qed.

End Attributes.

(** ** The structured output *)

Section StructuredOutput.

Import ConsistencyChecker Reporting.

(** The result of [get_structured_data] on server objects, with its two
    empty fields. *)
Lemma structured_data_unstamped (servers : list (str * Object)) :
  servers <> [] ->
  (forall h o, List.In (h, o) servers -> is_server_object o) ->
  exists data,
    get_structured_data (checker servers) = Ret data /\
    timestamp data = PNone /\ domain data = PNone.
Proof.
  intros Hne Hobj. unfold get_structured_data.
  cbn [ConsistencyChecker.servers checker checks].
  rewrite (servers_loop_spec servers [] Hobj). cbn [rbind List.app].
  match goal with |- context [checks_loop ?c ?t ?d] =>
    destruct (checks_loop_spec c Hne Hobj t d) as (data & new0 & Hloop & _);
    [intros c0 Hin; unfold metric_keys; now apply List.in_map|]
  end.
  exists data. split; [exact Hloop|].
  apply checks_loop_values in Hloop as (Ht & Hd & _). auto.
Qed.

(** X14.  On a non-empty collection of objects that the constructor of
    [FreeIPAServer] returned, [output_structured_data] raises nothing on
    its way to the writer, whatever the format: it hands the result of
    [get_structured_data], with the time stamp filled in and the domain
    still [None] (no such object has an attribute [domain]), to the JSON
    writer when the format is [json] in any case of the letters, to the
    YAML writer when it is [yaml], and otherwise reports the format as
    unsupported.  When the first server object does have an attribute
    [domain], its value is the domain of the output. *)
Theorem output_structured_data_stamps :
  (forall (servers : list (str * Object)) (now format_type : str),
      servers <> [] ->
      (forall h o, List.In (h, o) servers -> constructed o) ->
      exists data,
        get_structured_data (checker servers) = Ret data /\
        let stamped :=
          {| timestamp := PStr now;
             domain := PNone;
             servers_info := servers_info data;
             checks_data := checks_data data;
             summary := summary data |} in
        output_structured_data (checker servers) now format_type =
          Ret (if String.eqb (str_lower format_type) "json" then AsJson stamped
               else if String.eqb (str_lower format_type) "yaml" then AsYaml stamped
               else Unsupported ("Unsupported output format: " ++ format_type)))
  /\ (forall (h : str) (o : Object) (rest : list (str * Object)) (now : str) (v : PyVal),
      (forall h' o', List.In (h', o') ((h, o) :: rest) -> is_server_object o') ->
      o !! "domain" = Some v ->
      exists data,
        get_structured_data (checker ((h, o) :: rest)) = Ret data /\
        output_structured_data (checker ((h, o) :: rest)) now "json" =
          Ret (AsJson {| timestamp := PStr now;
                         domain := v;
                         servers_info := servers_info data;
                         checks_data := checks_data data;
                         summary := summary data |})).
Proof.
  split.
  - intros servers now format_type Hne Hcons.
    destruct (structured_data_unstamped servers Hne) as (data & Hdata & _ & Hdom).
    { intros h o Ho. apply constructed_server_object. exact (Hcons h o Ho). }
    exists data. split; [exact Hdata|]. cbv zeta.
    unfold output_structured_data. rewrite Hdata. cbn [rbind].
    cbn [ConsistencyChecker.servers checker timestamp domain servers_info
         checks_data summary].
    destruct servers as [|[h o] rest]; [congruence|].
    rewrite (constructed_without_domain o (Hcons h o (or_introl eq_refl))).
    rewrite Hdom.
    destruct (String.eqb (str_lower format_type) "json"); [reflexivity|].
    destruct (String.eqb (str_lower format_type) "yaml"); reflexivity.
  - intros h o rest now v Hobj Hv.
    destruct (structured_data_unstamped ((h, o) :: rest)) as (data & Hdata & _ & _);
      [discriminate|exact Hobj|].
    exists data. split; [exact Hdata|].
    unfold output_structured_data. rewrite Hdata. cbn [rbind].
    cbn [ConsistencyChecker.servers checker timestamp domain servers_info
         checks_data summary].
    rewrite Hv. reflexivity.
Qed.

Lemma output_structured_data_stamps_witness :
  exists data,
    get_structured_data
      (checker [("ipa01.example.com", object_of (Samples.construct Samples.down))]) =
      Ret data /\
    output_structured_data
      (checker [("ipa01.example.com", object_of (Samples.construct Samples.down))])
      "2024-05-01T12:00:00" "JSON" =
      Ret (AsJson {| timestamp := PStr "2024-05-01T12:00:00";
                     domain := PNone;
                     servers_info := servers_info data;
                     checks_data := checks_data data;
                     summary := summary data |}).
Proof.
  apply (proj1 output_structured_data_stamps
           [("ipa01.example.com", object_of (Samples.construct Samples.down))]
           "2024-05-01T12:00:00" "JSON").
  - discriminate.
  - intros h o [E | []]. apply (f_equal snd) in E. cbn [snd] in E. subst o.
    exists Samples.down, "ipa01.example.com", "example.com", "cn=Directory Manager",
           "secret", (@nil LDAP.query).
    cbv [Samples.construct Samples.down FreeIPAServer.new FreeIPAServer.__init__
         FreeIPAServer.init_attributes FreeIPAServer.bindM FreeIPAServer.set
         FreeIPAServer.ret FreeIPAServer._get_conn bind truthy negb
         FreeIPAServer.self FreeIPAServer.trace object_of].
    reflexivity.
Defined.

End StructuredOutput.

(** ** The start of the application *)

Section Startup.

Import ConsistencyChecker.

Lemma dict_set_in {A} (k : str) (v : A) (d : list (str * A)) (k' : str) (v' : A) :
  List.In (k', v') (Application.dict_set k v d) ->
  (k' = k /\ v' = v) \/ List.In (k', v') d.
Proof.
  induction d as [|[k0 v0] d IH]; cbn [Application.dict_set].
  - intros [E | []]. injection E as <- <-. now left.
  - destruct (String.eqb_spec k k0) as [->|Hne].
    + intros [E | H]; [injection E as <- <-; now left|right; now right].
    + intros [E | H]; [right; now left|].
      destruct (IH H) as [? | ?]; [now left|right; now right].
Qed.

Lemma dict_set_in_new {A} (k : str) (v : A) (d : list (str * A)) :
  List.In (k, v) (Application.dict_set k v d).
Proof.
  induction d as [|[k0 v0] d IH]; cbn [Application.dict_set]; [now left|].
  destruct (String.eqb_spec k k0); [now left|now right].
Qed.

Lemma dict_set_in_old {A} (k : str) (v : A) (d : list (str * A)) (k' : str) (v' : A) :
  k' <> k -> List.In (k', v') d -> List.In (k', v') (Application.dict_set k v d).
Proof.
  intros Hne. induction d as [|[k0 v0] d IH]; cbn [Application.dict_set]; [intros []|].
  destruct (String.eqb_spec k k0) as [->|Hk].
  - intros [E | H]; [injection E as <- <-; contradiction|now right].
  - intros [E | H]; [now left|right; auto].
Qed.

Lemma dict_set_keys {A} (k : str) (v : A) (d : list (str * A)) :
  List.NoDup (List.map fst d) -> List.NoDup (List.map fst (Application.dict_set k v d)).
Proof.
  induction d as [|[k0 v0] d IH]; cbn [Application.dict_set List.map fst]; intros H.
  - constructor; [intros []|constructor].
  - destruct (String.eqb_spec k k0) as [->|Hk]; [exact H|].
    cbn [List.map fst]. apply List.NoDup_cons_iff in H as [Hnin Hnd].
    constructor; [|auto].
    intros Hin. apply List.in_map_iff in Hin as ([k1 v1] & E & Hin). cbn [fst] in E. subst k1.
    apply dict_set_in in Hin as [[E _] | Hin]; [congruence|].
    apply Hnin. apply List.in_map_iff. exists (k0, v1). auto.
Qed.

(** The loop keeps one object per host name: the one that the
    constructor returns for it. *)
Lemma connect_loop_spec
    (connect : str -> result (Object * list LDAP.query)) (todo : list str) :
  forall servers errors,
    List.NoDup (List.map fst servers) ->
    (forall h o, List.In (h, o) servers -> exists t, connect h = Ret (o, t)) ->
    List.NoDup (List.map fst (fst (Application.connect_loop connect todo servers errors)))
    /\ forall h o,
         List.In (h, o) (fst (Application.connect_loop connect todo servers errors)) <->
         List.In (h, o) servers \/
         (List.In h todo /\ exists t, connect h = Ret (o, t)).
Proof.
  induction todo as [|host rest IH]; intros servers errors Hnd Hbuilt;
    cbn [Application.connect_loop].
  - split; [exact Hnd|]. intros h o. cbn [fst List.In]. tauto.
  - destruct (connect host) as [[server t]|e] eqn:E.
    + destruct (IH (Application.dict_set host server servers) errors) as [Hnd' Hin'].
      { apply dict_set_keys. exact Hnd. }
      { intros h o Ho. apply dict_set_in in Ho as [[-> ->] | Ho]; [eauto|auto]. }
      split; [exact Hnd'|]. intros h o. rewrite Hin'. split.
      * intros [Ho | (Hh & Ht)].
        -- apply dict_set_in in Ho as [[-> ->] | Ho]; [|now left].
           right. split; [now left|eauto].
        -- right. split; [now right|exact Ht].
      * intros [Ho | ([<- | Hh] & t' & Ht)].
        -- left. destruct (String.eqb_spec h host) as [->|Hne].
           ++ destruct (Hbuilt host o Ho) as (t' & Ht). rewrite E in Ht.
              injection Ht as <- _. apply dict_set_in_new.
           ++ apply dict_set_in_old; assumption.
        -- left. rewrite E in Ht. injection Ht as <- _. apply dict_set_in_new.
        -- right. eauto.
    + destruct (IH servers (errors ++ [(host, e)])%list Hnd Hbuilt) as [Hnd' Hin'].
      split; [exact Hnd'|]. intros h o. rewrite Hin'. split.
      * intros [Ho | (Hh & Ht)]; [now left|right; split; [now right|exact Ht]].
      * intros [Ho | ([<- | Hh] & t' & Ht)]; [now left| |right; eauto].
        rewrite E in Ht. discriminate Ht.
Qed.

Lemma application_hosts (net : Application.Net) (config : Application.Config) :
  match Application.hosts config with
  | [] =>
      match DNSUtils.find_ipa_servers (Application.resolve net)
              (Application.domain config) with
      | [] => Raise ValueError
      | _ :: _ =>
          Ret (DNSUtils.find_ipa_servers (Application.resolve net)
                 (Application.domain config))
      end
  | _ :: _ => Ret (Application.hosts config)
  end =
  match effective_hosts net config with
  | [] => Raise ValueError
  | _ :: _ => Ret (effective_hosts net config)
  end.
Proof.
  unfold effective_hosts. destruct (Application.hosts config); reflexivity.
Qed.

(** The outcome of [Application.__init__] in terms of the loop. *)
Lemma application_init_unfold (net : Application.Net) (config : Application.Config) :
  Application.__init__ net (Application.Loaded config) =
  match effective_hosts net config with
  | [] => Application.Raised ValueError
  | _ :: _ =>
      match fst (Application.connect_loop (Application.connect net config)
                   (effective_hosts net config) [] []) with
      | [] => Application.Raised ValueError
      | servers =>
          Application.Started
            {| Application.app_hosts := effective_hosts net config;
               Application.servers := servers;
               Application.checker := checker servers |}
      end
  end.
Proof.
  unfold Application.__init__. rewrite application_hosts.
  destruct (effective_hosts net config) as [|h l] eqn:E; [reflexivity|].
  cbn [rbind].
  destruct (Application.connect_loop (Application.connect net config) (h :: l) [] [])
    as [servers errors].
  cbn [fst]. destruct servers; reflexivity.
Qed.

(** X15.  [Application.__init__] lets an exception of its first steps
    pass as it is: the [ConfigError] of [Config], which it logs and raises
    again, the exit of the argument parser, or any other.  Once the
    configuration is loaded, it connects to the hosts of the
    configuration, or to those found in DNS when the configuration names
    none.  When it returns, the application holds at least one server,
    each host name once, and a host is held, with the object that the
    constructor of [FreeIPAServer] returns for it, exactly when that
    constructor returns; the checker is built on these servers.  With a
    loaded configuration it raises nothing but [ValueError], and raises
    it exactly when no host yields an object: there is no host, or the
    constructor raises for every host. *)
Theorem application_servers :
  forall (net : Application.Net),
    (forall e, Application.__init__ net (Application.NotLoaded e) =
               Application.RaisedEarly e)
    /\ forall (config : Application.Config),
      (forall app,
         Application.__init__ net (Application.Loaded config) = Application.Started app ->
         Application.app_hosts app = effective_hosts net config /\
         Application.servers app <> [] /\
         List.NoDup (List.map fst (Application.servers app)) /\
         (forall h o, List.In (h, o) (Application.servers app) <->
                      List.In h (effective_hosts net config) /\
                      exists t, Application.connect net config h = Ret (o, t)) /\
         Application.checker app = checker (Application.servers app))
      /\ (forall e,
            Application.__init__ net (Application.Loaded config) = Application.Raised e ->
            e = ValueError /\
            forall h, List.In h (effective_hosts net config) ->
                      exists e', Application.connect net config h = Raise e')
      /\ (forall e,
            Application.__init__ net (Application.Loaded config) <>
            Application.RaisedEarly e)
      /\ (forall h o t, List.In h (effective_hosts net config) ->
            Application.connect net config h = Ret (o, t) ->
            exists app,
              Application.__init__ net (Application.Loaded config) =
              Application.Started app).
Proof.
  intros net. split; [reflexivity|]. intros config.
  rewrite application_init_unfold.
  destruct (connect_loop_spec (Application.connect net config)
              (effective_hosts net config) [] [])
    as [Hnd Hin]; [constructor|intros h o []|].
  assert (Hin' : forall h o,
            List.In (h, o) (fst (Application.connect_loop (Application.connect net config)
                                   (effective_hosts net config) [] [])) <->
            List.In h (effective_hosts net config) /\
            exists t, Application.connect net config h = Ret (o, t)).
  { intros h o. rewrite Hin. cbn [List.In]. tauto. }
  clear Hin.
  destruct (effective_hosts net config) as [|h0 l] eqn:Eh.
  - split; [discriminate|]. split; [|split; [discriminate|]].
    + intros e H. injection H as <-. split; [reflexivity|intros h []].
    + intros h o t [].
  - destruct (fst (Application.connect_loop (Application.connect net config)
                     (h0 :: l) [] []))
      as [|s servers] eqn:Es.
    + split; [discriminate|]. split; [|split; [discriminate|]].
      * intros e H. injection H as <-. split; [reflexivity|].
        intros h Hh. destruct (Application.connect net config h) as [[o t]|e'] eqn:E;
          [|eauto].
        destruct (proj2 (Hin' h o)) as []. eauto.
      * intros h o t Hh Hb. destruct (proj2 (Hin' h o)) as []. eauto.
    + split; [|split; [discriminate|split; [discriminate|eauto]]].
      intros app H. injection H as <-.
      cbn [Application.app_hosts Application.servers Application.checker].
      split; [reflexivity|]. split; [discriminate|]. split; [exact Hnd|].
      split; [exact Hin'|reflexivity].
Qed.

Lemma application_servers_witness :
  exists app,
    Application.__init__
      {| Application.resolve := fun _ => None;
         Application.directory := fun _ => Samples.down |}
      (Application.Loaded
         {| Application.domain := "example.com";
            Application.hosts := ["ipa01.example.com"];
            Application.binddn := "cn=Directory Manager";
            Application.bindpw := "secret" |}) = Application.Started app.
Proof.
  refine (proj2 (proj2 (proj2 (proj2 (application_servers _) _)))
            "ipa01.example.com" _ [] _ _).
  - left. reflexivity.
  - cbv [Application.connect Application.directory Application.domain Application.binddn
         Application.bindpw Samples.down FreeIPAServer.new FreeIPAServer.__init__
         FreeIPAServer.init_attributes FreeIPAServer.bindM FreeIPAServer.set
         FreeIPAServer.ret FreeIPAServer._get_conn bind truthy negb
         FreeIPAServer.self FreeIPAServer.trace].
    reflexivity.
Defined.

(** *** When no server can be reached *)

Lemma new_unreachable (W : World) (host domain binddn bindpw : str) :
  unreachable W ->
  exists o, FreeIPAServer.new W host domain binddn bindpw = Ret (o, []) /\ idle o.
Proof.
  intros Hun.
  destruct (init_attributes_defaults host domain binddn bindpw)
    as (o0 & E0 & D1 & D2 & D3 & D4 & D5).
  rewrite new_unfold. unfold FreeIPAServer.__init__.
  rewrite (bind_ret_eq _ _ _ _ _ E0).
  assert (Eget : FreeIPAServer._get_conn W
                   {| FreeIPAServer.self := o0; FreeIPAServer.trace := [] |} =
                 ({| FreeIPAServer.self := o0; FreeIPAServer.trace := [] |}, Ret PNone)).
  { unfold FreeIPAServer._get_conn. destruct Hun as [-> | [-> | ->]]; reflexivity. }
  rewrite (bind_ret_eq _ _ _ _ _ Eget).
  rewrite (bind_ret_eq _ _ _ _ _ (set_eq _ _ _)).
  cbn [truthy negb]. unfold FreeIPAServer.ret.
  cbn [FreeIPAServer.self FreeIPAServer.trace].
  eexists. split; [reflexivity|].
  split; [rewrite lookup_insert_ne by discriminate; exact D5|].
  split; [rewrite lookup_insert_ne by discriminate; exact D4|].
  split; [rewrite lookup_insert_ne by discriminate; exact D2|].
  intros k Hk Hne. specialize (D3 k Hk Hne).
  unfold metric_keys in Hk. simpl in Hk.
  repeat (destruct Hk as [<- | Hk];
          [rewrite lookup_insert_ne by discriminate; exact D3|]).
  destruct Hk.
Qed.

Lemma connect_unreachable (net : Application.Net) (config : Application.Config)
    (h : str) :
  unreachable (Application.directory net h) ->
  exists o, Application.connect net config h = Ret (o, []) /\ idle o.
Proof. unfold Application.connect. apply new_unreachable. Qed.

Lemma idle_server_object (o : Object) : idle o -> is_server_object o.
Proof.
  intros (Hs & Hh & Hb & Hm) k Hk.
  destruct Hk as [<- | [<- | Hk]]; [exact Hs|eauto|].
  destruct (String.eqb_spec k "hbac") as [->|Hne]; [eauto|].
  rewrite (Hm k Hk Hne). eauto.
Qed.

Lemma getattr_all_const (k : str) (v : PyVal) (servers : list (str * Object)) :
  (forall h o, List.In (h, o) servers -> o !! k = Some v) ->
  getattr_all k servers = Ret (List.repeat v (List.length servers)).
Proof.
  induction servers as [|[h o] rest IH]; intros H; [reflexivity|].
  cbn [getattr_all List.length List.repeat]. unfold getattr.
  rewrite (H h o (or_introl eq_refl)). cbn [rbind].
  rewrite IH by (intros h' o' H'; apply (H h' o'); now right). reflexivity.
Qed.

Lemma all_like_first_repeat (v : PyVal) (n : nat) :
  all_like_first v (List.repeat v n) = true.
Proof.
  apply all_like_first_spec. intros e He.
  apply List.repeat_spec in He as ->. apply py_eq_refl.
Qed.

(** On servers on which nothing was collected every check fails but
    [hbac]. *)
Lemma idle_verdict (servers : list (str * Object)) (k : str) (rs : list PyVal) :
  servers <> [] ->
  (forall h o, List.In (h, o) servers -> idle o) ->
  List.In k metric_keys ->
  getattr_all k servers = Ret rs ->
  is_consistent (checker servers) k rs = Ret (PBool (String.eqb k "hbac")).
Proof.
  intros Hne Hidle Hk Hrs.
  assert (Hc : getattr_all "conflicts" servers =
               Ret (List.repeat PNone (List.length servers))).
  { apply getattr_all_const. intros h o Ho.
    apply (Hidle h o Ho); [unfold metric_keys; simpl; tauto|discriminate]. }
  assert (Hg : getattr_all "ghosts" servers =
               Ret (List.repeat PNone (List.length servers))).
  { apply getattr_all_const. intros h o Ho.
    apply (Hidle h o Ho); [unfold metric_keys; simpl; tauto|discriminate]. }
  assert (Hh : getattr_all "healthy_agreements" servers =
               Ret (List.repeat (PBool false) (List.length servers))).
  { apply getattr_all_const. intros h o Ho. apply (Hidle h o Ho). }
  destruct servers as [|s rest]; [congruence|]. clear Hne.
  cbn [List.length List.repeat] in Hc, Hg, Hh.
  destruct (String.eqb_spec k "hbac") as [->|Hnk].
  - rewrite (getattr_all_const "hbac" (PInt 0)) in Hrs
      by (intros h o Ho; apply (Hidle h o Ho)).
    injection Hrs as <-. cbn [List.length List.repeat].
    unfold is_consistent. cbn [String.eqb Ascii.eqb Bool.eqb index0 rbind].
    change (PInt 0 :: List.repeat (PInt 0) (List.length rest))
      with (List.repeat (PInt 0) (S (List.length rest))).
    rewrite all_like_first_repeat.
    destruct (contains_val PNone (List.repeat (PInt 0) (S (List.length rest)))) eqn:E;
      [|reflexivity].
    apply contains_None in E. apply List.repeat_spec in E. discriminate E.
  - rewrite (getattr_all_const k PNone) in Hrs
      by (intros h o Ho; apply (Hidle h o Ho); assumption).
    injection Hrs as <-. cbn [List.length List.repeat].
    unfold is_consistent, checker. cbn [ConsistencyChecker.servers].
    destruct (String.eqb k "conflicts").
    { rewrite Hc. cbn [rbind index0 py_eq]. now rewrite andb_false_r. }
    destruct (String.eqb k "ghosts").
    { rewrite Hg. cbn [rbind index0 py_eq]. now rewrite andb_false_r. }
    destruct (String.eqb k "replicas").
    { rewrite Hh. cbn [rbind index0].
      destruct (all_like_first _ _); reflexivity. }
    cbn [rbind index0 contains_val List.existsb py_eq orb negb].
    now rewrite andb_false_r.
Qed.

Lemma filter_map_length {A B} (f : A -> B) (p : B -> bool) (l : list A) :
  List.length (List.filter (fun a => p (f a)) l) =
  List.length (List.filter p (List.map f l)).
Proof.
  induction l as [|a l IH]; [reflexivity|].
  cbn [List.filter List.map]. destruct (p (f a)); cbn [List.length]; congruence.
Qed.

Lemma idle_fleet_report (servers : list (str * Object)) :
  servers <> [] ->
  (forall h o, List.In (h, o) servers -> idle o) ->
  verdicts (get_structured_data (checker servers)) = idle_verdicts /\
  summary_of (get_structured_data (checker servers)) =
    Some {| total_checks := 17; consistent_checks := 1; inconsistent_checks := 16 |}.
Proof.
  intros Hne Hidle.
  assert (Hobj : forall h o, List.In (h, o) servers -> is_server_object o).
  { intros h o Ho. apply idle_server_object. exact (Hidle h o Ho). }
  unfold get_structured_data. cbn [ConsistencyChecker.servers checker checks].
  rewrite (servers_loop_spec servers [] Hobj). cbn [rbind List.app].
  match goal with |- context [checks_loop ?c ?t ?d] =>
    destruct (checks_loop_spec c Hne Hobj t d)
      as (data & new & Hloop & Htot & Hdata & Hnames & Hc & Hi & Hf);
    [intros c0 Hin; unfold metric_keys; now apply List.in_map|]
  end.
  rewrite Hloop. cbn [verdicts summary_of].
  cbn [summary checks_data total_checks consistent_checks inconsistent_checks
       List.app] in Htot, Hdata, Hc, Hi.
  fold metric_keys in Hnames.
  assert (Hflags : forall d, List.In d new ->
            is_consistent_flag d = PBool (String.eqb (name d) "hbac") /\
            state d = if String.eqb (name d) "hbac" then "OK" else "FAIL").
  { intros d Hd.
    destruct (proj1 (List.Forall_forall _ _) Hf d Hd) as (rs & Hrs & Hv & Hst).
    cbn [ConsistencyChecker.servers checker] in Hrs.
    rewrite (idle_verdict servers (name d) rs Hne Hidle) in Hv.
    - injection Hv as Hv. rewrite Hst, <- Hv. split; [reflexivity|].
      cbn [truthy]. reflexivity.
    - rewrite <- Hnames. apply List.in_map. exact Hd.
    - exact Hrs. }
  split.
  - rewrite Hdata. unfold idle_verdicts. rewrite <- Hnames, List.map_map.
    apply List.map_ext_in. intros d Hd. destruct (Hflags d Hd) as [-> ->]. reflexivity.
  - assert (Hmap : List.map is_consistent_flag new =
                   List.map (fun k => PBool (String.eqb k "hbac")) metric_keys).
    { rewrite <- Hnames, List.map_map. apply List.map_ext_in.
      intros d Hd. apply (Hflags d Hd). }
    unfold consistent_count in Hc. unfold inconsistent_count in Hi.
    rewrite (filter_map_length is_consistent_flag truthy), Hmap in Hc.
    rewrite (filter_map_length is_consistent_flag (fun v => negb (truthy v))), Hmap in Hi.
    destruct (summary data) as [a b c]. cbn in Htot, Hc, Hi. subst a b c.
    reflexivity.
Qed.

(** X16.  When there is at least one host and the directory of every
    host cannot be reached (each bind ends in [SERVER_DOWN],
    [NO_SUCH_OBJECT] or [INVALID_CREDENTIALS]), the application still
    starts: it holds a server object for every host, and the structured
    result on these servers reports [hbac] as [OK] and each of the other
    16 checks as [FAIL], so the summary is 17 checks, 1 consistent, 16
    inconsistent. *)
Theorem unreachable_fleet_report :
  forall (net : Application.Net) (config : Application.Config),
    effective_hosts net config <> [] ->
    (forall h, List.In h (effective_hosts net config) ->
               unreachable (Application.directory net h)) ->
    exists app,
      Application.__init__ net (Application.Loaded config) = Application.Started app /\
      (forall h, List.In h (List.map fst (Application.servers app)) <->
                 List.In h (effective_hosts net config)) /\
      verdicts (get_structured_data (Application.checker app)) = idle_verdicts /\
      summary_of (get_structured_data (Application.checker app)) =
        Some {| total_checks := 17; consistent_checks := 1; inconsistent_checks := 16 |}.
Proof.
  intros net config Hne Hdown.
  assert (Hnew : forall h, List.In h (effective_hosts net config) ->
            exists o, Application.connect net config h = Ret (o, []) /\ idle o).
  { intros h Hh. apply connect_unreachable. exact (Hdown h Hh). }
  rewrite application_init_unfold.
  destruct (connect_loop_spec (Application.connect net config)
              (effective_hosts net config) [] [])
    as [Hnd Hin]; [constructor|intros h o []|].
  destruct (effective_hosts net config) as [|h0 l] eqn:Eh; [congruence|].
  destruct (fst (Application.connect_loop (Application.connect net config)
                   (h0 :: l) [] [])) as [|s servers] eqn:Es.
  - destruct (Hnew h0 (or_introl eq_refl)) as (o & Ho & _).
    destruct (proj2 (Hin h0 o)) as []. right. split; [now left|eauto].
  - eexists. split; [reflexivity|].
    cbn [Application.servers Application.checker].
    assert (Hidle : forall h o, List.In (h, o) (s :: servers) -> idle o).
    { intros h o Ho. apply Hin in Ho as [[] | (Hh & t & Ht)].
      destruct (Hnew h Hh) as (o' & Ho' & Hi). rewrite Ho' in Ht.
      injection Ht as <- _. exact Hi. }
    split.
    + intros h. rewrite List.in_map_iff. split.
      * intros ([h' o] & <- & Ho). apply Hin in Ho as [[] | (Hh & _)]. exact Hh.
      * intros Hh. destruct (Hnew h Hh) as (o & Ho & _). exists (h, o).
        split; [reflexivity|]. apply Hin. right. split; [exact Hh|eauto].
    + apply idle_fleet_report; [discriminate|exact Hidle].
Qed.

Lemma unreachable_fleet_report_witness :
  exists app,
    Application.__init__
      {| Application.resolve := fun _ =>
           Some ["0 100 389 ipa01.example.com."; "0 100 389 ipa02.example.com."];
         Application.directory := fun _ => Samples.down |}
      (Application.Loaded
         {| Application.domain := "example.com";
            Application.hosts := [];
            Application.binddn := "cn=Directory Manager";
            Application.bindpw := "secret" |}) = Application.Started app /\
    (forall h, List.In h (List.map fst (Application.servers app)) <->
               List.In h ["ipa01.example.com"; "ipa02.example.com"]) /\
    verdicts (get_structured_data (Application.checker app)) = idle_verdicts /\
    summary_of (get_structured_data (Application.checker app)) =
      Some {| total_checks := 17; consistent_checks := 1; inconsistent_checks := 16 |}.
Proof.
  apply (unreachable_fleet_report
           {| Application.resolve := fun _ =>
                Some ["0 100 389 ipa01.example.com."; "0 100 389 ipa02.example.com."];
              Application.directory := fun _ => Samples.down |}
           {| Application.domain := "example.com";
              Application.hosts := [];
              Application.binddn := "cn=Directory Manager";
              Application.bindpw := "secret" |}).
  - discriminate.
  - intros h _. left. reflexivity.
Defined.

End Startup.

(** ** What the collectors read from a reply *)

Section Readers.

Import LDAP FreeIPAServer.
Local Open Scope py_scope.

Lemma search_answered (W : World) (base fltr : str) (attrs : option (list str))
    (scope : scope) (st : State) :
  connected st ->
  answered (search_s W (Query base scope fltr attrs)) ->
  _search W base fltr attrs scope st =
    (searched st (Query base scope fltr attrs),
     Ret match search_s W (Query base scope fltr attrs) with
         | Found results => Some results
         | Failed _ => None
         end).
Proof.
  intros Hconn Hans. rewrite search_connected by assumption. cbv zeta.
  destruct (search_s W (Query base scope fltr attrs)) as [results|[| | | |desc]];
    cbn [answered] in Hans; try contradiction; reflexivity.
Qed.

(** X17.  Whenever the search returns a result list or fails with
    [NO_SUCH_OBJECT] or [SERVER_DOWN], four collectors read the first
    value of one attribute on the first entry found and nothing else of
    the reply.  [_get_fqdn] and [_get_context] return its text, and
    [unknown] when the search fails in one of these two ways, finds
    nothing or the entry lacks the attribute; [_count_users] and
    [_count_hostgroups] return the text of [numSubordinates], and the text
    [0] in those cases.  All four raise [IndexError] when the attribute is
    there without a value and [UnicodeDecodeError] when the value is not
    UTF-8.  Without a connection [_get_fqdn] and [_get_context] return
    [unknown] and issue no search. *)
Theorem first_value_readers :
  forall (W : World) (st : State),
    (connected st ->
     (answered (search_s W fqdn_query) ->
      _get_fqdn W st =
        (searched st fqdn_query,
         first_text "nsslapd-localhost" "unknown" (search_s W fqdn_query)))
     /\ (answered (search_s W context_query) ->
         _get_context W st =
           (searched st context_query,
            first_text "nsslapd-defaultnamingcontext" "unknown"
                       (search_s W context_query)))
     /\ (forall user_base base,
           self st !! ("_" ++ user_base ++ "_user_base") = Some (PStr base) ->
           let q := Query base SCOPE_SUBTREE "(objectClass=*)" (Some ["numSubordinates"]) in
           answered (search_s W q) ->
           _count_users W user_base st =
             (searched st q,
              rbind (first_text "numSubordinates" "0" (search_s W q))
                    (fun r => Ret (PStr r))))
     /\ (forall base_dn,
           self st !! "_base_dn" = Some (PStr base_dn) ->
           let q := Query ("cn=hostgroups,cn=accounts," ++ base_dn) SCOPE_BASE
                          "(objectClass=*)" (Some ["numSubordinates"]) in
           answered (search_s W q) ->
           _count_hostgroups W st =
             (searched st q,
              rbind (first_text "numSubordinates" "0" (search_s W q))
                    (fun r => Ret (PStr r)))))
    /\ (self st !! "_conn" = Some PNone ->
        _get_fqdn W st = (st, Ret "unknown") /\
        _get_context W st = (st, Ret "unknown")).
Proof.
  intros W st. split.
  - intros Hconn. destruct Hconn as (conn & Hc & Hne).
    assert (Hconn : connected st) by (exists conn; split; assumption).
    split; [|split; [|split]].
    + intros Hans. unfold _get_fqdn.
      rewrite (bind_ret_eq _ _ _ _ _ (get_attr _ _ _ Hc)).
      assert (E : (results <- _search W "cn=config" "(objectClass=*)"
                                (Some ["nsslapd-localhost"]) SCOPE_BASE ;;
                   match results with
                   | Some ((dn, attrs) :: _) =>
                       fqdn_bytes <- lift (index0 (attrs_get attrs "nsslapd-localhost"
                                                     [TextBytes "unknown"])) ;;
                       lift (decode_or_unknown fqdn_bytes)
                   | _ => ret "unknown"
                   end) st =
                  (searched st fqdn_query,
                   first_text "nsslapd-localhost" "unknown" (search_s W fqdn_query))).
      { rewrite (bind_ret_eq _ _ _ _ _ (search_answered W _ _ _ _ st Hconn Hans)).
        fold fqdn_query.
        destruct (search_s W fqdn_query) as [[|[dn attrs] rest]|e]; try reflexivity.
        cbn [first_text]. unfold attrs_get, bindM, lift.
        destruct (attrs !! "nsslapd-localhost") as [[|b bs]|]; reflexivity. }
      destruct conn; [congruence| | | |]; exact E.
    + intros Hans. unfold _get_context.
      rewrite (bind_ret_eq _ _ _ _ _ (get_attr _ _ _ Hc)).
      assert (E : (results <- _search W "cn=config" "(objectClass=*)"
                                (Some ["nsslapd-defaultnamingcontext"]) SCOPE_SUBTREE ;;
                   match results with
                   | Some ((dn, attrs) :: _) =>
                       context_bytes <-
                         lift (index0 (attrs_get attrs "nsslapd-defaultnamingcontext"
                                         [TextBytes "unknown"])) ;;
                       lift (decode_or_unknown context_bytes)
                   | _ => ret "unknown"
                   end) st =
                  (searched st context_query,
                   first_text "nsslapd-defaultnamingcontext" "unknown"
                              (search_s W context_query))).
      { rewrite (bind_ret_eq _ _ _ _ _ (search_answered W _ _ _ _ st Hconn Hans)).
        fold context_query.
        destruct (search_s W context_query) as [[|[dn attrs] rest]|e]; try reflexivity.
        cbn [first_text]. unfold attrs_get, bindM, lift.
        destruct (attrs !! "nsslapd-defaultnamingcontext") as [[|b bs]|]; reflexivity. }
      destruct conn; [congruence| | | |]; exact E.
    + intros user_base base Hbase q Hans. unfold _count_users.
      rewrite (bind_ret_eq _ _ _ _ _ (get_attr _ _ _ Hbase)). cbn [py_str].
      rewrite (bind_ret_eq _ _ _ _ _ (search_answered W _ _ _ _ st Hconn Hans)).
      fold q. unfold lift. f_equal.
      destruct (search_s W q) as [[|[dn attrs] rest]|e]; try reflexivity.
      cbn [subordinates first_text]. unfold attrs_get.
      destruct (attrs !! "numSubordinates") as [[|b bs]|]; reflexivity.
    + intros base_dn Hbase q Hans. unfold _count_hostgroups.
      rewrite (bind_ret_eq _ _ _ _ _ (get_attr _ _ _ Hbase)). cbn [py_str].
      rewrite (bind_ret_eq _ _ _ _ _ (search_answered W _ _ _ _ st Hconn Hans)).
      fold q. unfold lift. f_equal.
      destruct (search_s W q) as [[|[dn attrs] rest]|e]; try reflexivity.
      cbn [subordinates first_text]. unfold attrs_get.
      destruct (attrs !! "numSubordinates") as [[|b bs]|]; reflexivity.
  - intros Hc. split.
    + unfold _get_fqdn. rewrite (bind_ret_eq _ _ _ _ _ (get_attr _ _ _ Hc)). reflexivity.
    + unfold _get_context. rewrite (bind_ret_eq _ _ _ _ _ (get_attr _ _ _ Hc)).
      reflexivity.
Qed.

Lemma first_value_readers_witness :
  _count_hostgroups Samples.lab session =
    (searched session
       (Query "cn=hostgroups,cn=accounts,dc=example,dc=com" SCOPE_BASE
              "(objectClass=*)" (Some ["numSubordinates"])),
     Ret (PStr "5")).
Proof.
  refine (proj2 (proj2 (proj2 (proj1 (first_value_readers Samples.lab session) _)))
            "dc=example,dc=com" _ _).
  - exists (PObj "LDAPObject"). split; [reflexivity|discriminate].
  - reflexivity.
  - vm_compute. exact I.
Defined.

(** X18.  [_anon_bind] raises when the first entry found has the
    attribute [nsslapd-allow-anonymous-access] without a usable value:
    [IndexError] when the attribute has no value, [UnicodeDecodeError]
    when its first value is not UTF-8.  The search has been issued and no
    attribute is assigned. *)
Theorem anon_bind_raises :
  forall (W : World) (st : State) dn attrs rest,
    connected st ->
    search_s W anon_bind_query = Found ((dn, attrs) :: rest) ->
    (attrs !! "nsslapd-allow-anonymous-access" = Some [] ->
     _anon_bind W st = (searched st anon_bind_query, Raise IndexError))
    /\ (forall b bs,
          attrs !! "nsslapd-allow-anonymous-access" = Some (b :: bs) ->
          bytes_decode b = Raise UnicodeDecodeError ->
          _anon_bind W st = (searched st anon_bind_query, Raise UnicodeDecodeError)).
Proof.
  intros W st dn attrs rest Hconn Hsearch.
  assert (E : _search W "cn=config" "(objectClass=*)"
                (Some ["nsslapd-allow-anonymous-access"]) SCOPE_BASE st =
              (searched st anon_bind_query, Ret (Some ((dn, attrs) :: rest)))).
  { rewrite search_connected by assumption. cbv zeta. fold anon_bind_query.
    rewrite Hsearch. reflexivity. }
  split.
  - intros Hattr. unfold _anon_bind. rewrite (bind_ret_eq _ _ _ _ _ E).
    rewrite Hattr. reflexivity.
  - intros b bs Hattr Hdec. unfold _anon_bind. rewrite (bind_ret_eq _ _ _ _ _ E).
    rewrite Hattr. unfold bindM, lift. cbn [index0].
    rewrite safe_decode_bytes, Hdec. reflexivity.
Qed.

Lemma anon_bind_raises_witness :
  let q := anon_bind_query in
  let W := answering q (Found [("cn=config",
                                 {[ "nsslapd-allow-anonymous-access" := [] ]})]) in
  _anon_bind W session = (searched session q, Raise IndexError).
Proof.
  intros q W.
  refine (proj1 (anon_bind_raises W session "cn=config"
                   {[ "nsslapd-allow-anonymous-access" := [] ]} [] _ _) _).
  - exists (PObj "LDAPObject"). split; [reflexivity|discriminate].
  - reflexivity.
  - reflexivity.
Defined.

(** X19.  On a connected object with its base DN and its groups base,
    and a directory that answers every search with a result list or with
    [NO_SUCH_OBJECT] or [SERVER_DOWN], each of the nine counters of
    entries (groups, hosts, services, netgroups, HBAC rules, sudo rules,
    DNS zones, certificates, conflicts) issues exactly one search, assigns
    nothing, and returns the number of entries found, [0] when the search
    failed. *)
Theorem entry_counters_count :
  forall (W : World) (st : State) (base_dn groups_base : str),
    connected st ->
    self st !! "_base_dn" = Some (PStr base_dn) ->
    self st !! "_groups_base" = Some (PStr groups_base) ->
    (forall q, answered (search_s W q)) ->
    List.Forall
      (fun counter : World -> M PyVal =>
         exists q, counter W st =
                     (searched st q, Ret (PInt (entry_count (search_s W q)))))
      [ _count_groups; _count_hosts; _count_services; _count_netgroups;
        _count_hbac_rules; _count_sudo_rules; _count_dns_zones;
        _count_certificates; _count_ldap_conflicts ].
Proof.
  intros W st base_dn groups_base Hconn Hbase Hgroups Hans.
  assert (Hcount : forall results : option (list entry),
            forall r, results = match r with Found l => Some l | Failed _ => None end ->
            count_entries results = PInt (entry_count r)).
  { intros results [[|e l]|e] ->; reflexivity. }
  repeat constructor;
    match goal with
    | |- exists q, ?c W st = _ => unfold c
    end;
    try rewrite (bind_ret_eq _ _ _ _ _ (get_attr _ _ _ Hbase));
    try rewrite (bind_ret_eq _ _ _ _ _ (get_attr _ _ _ Hgroups));
    cbn [py_str];
    match goal with
    | |- exists q, bindM (_search W ?b ?f ?a ?s) _ st = _ =>
        exists (Query b s f a);
        rewrite (bind_ret_eq _ _ _ _ _
                   (search_answered W b f a s st Hconn (Hans (Query b s f a))))
    end;
    unfold ret; f_equal; f_equal; apply Hcount; reflexivity.
Qed.

Lemma entry_counters_count_witness :
  let W := {| bind := None; search_s := fun _ => Found []; resolve_srv := fun _ => None |} in
  let st := {| self := <["_groups_base" := PStr "cn=groups,cn=accounts,dc=example,dc=com"]>
                         (self session);
               trace := [] |} in
  List.Forall
    (fun counter : World -> M PyVal =>
       exists q, counter W st =
                   (searched st q, Ret (PInt (entry_count (search_s W q)))))
    [ _count_groups; _count_hosts; _count_services; _count_netgroups;
      _count_hbac_rules; _count_sudo_rules; _count_dns_zones;
      _count_certificates; _count_ldap_conflicts ].
Proof.
  intros W st.
  apply (entry_counters_count W st "dc=example,dc=com"
           "cn=groups,cn=accounts,dc=example,dc=com").
  - exists (PObj "LDAPObject"). split; [reflexivity|discriminate].
  - reflexivity.
  - reflexivity.
  - intros q. exact I.
Defined.

End Readers.
